(** * orgviz: the outline parser, the filter predicate and the DOT renderer

    A shallow embedding of [orgviz.py].  Python [str] values are sequences of
    Unicode code points; the built-in string methods the program calls are
    written out below ([strip], [replace], [split], [in]).  Logging calls are
    collected in an explicit log, exceptions are explicit results. *)

From Stdlib Require Import Ascii String.
From Stdlib Require Import List Bool Arith NArith ZArith Lia.
Import ListNotations.

Set Implicit Arguments.

(* ================================================================== *)
(** ** Python strings *)

Module Py.

(** A [str] is a list of code points. *)
Definition str := list N.

Definition TAB : N := 9%N.
Definition LF : N := 10%N.
Definition DQUOTE : N := 34%N.
Definition NL : list N := [LF].
(** The quotation mark of the name pattern, U+2018. *)
Definition QUOTE : N := 8216%N.

(** ASCII literals: every byte below 128 is its own code point. *)
Fixpoint lit (s : string) : str :=
  match s with
  | EmptyString => []
  | String c s' => N_of_ascii c :: lit s'
  end.
Arguments lit s%_string.

(** The same, for literals that hold double quotation marks: in the argument
    of [litq] the character [~] stands for the double quotation mark. *)
Definition litq (s : string) : str :=
  map (fun c => if N.eqb c 126 then DQUOTE else c) (lit s).
Arguments litq s%_string.

Fixpoint eqb (a b : str) : bool :=
  match a, b with
  | [], [] => true
  | x :: a', y :: b' => N.eqb x y && eqb a' b'
  | _, _ => false
  end.

(** [x in l] for a list of strings. *)
Definition mem (x : str) (l : list str) : bool := existsb (eqb x) l.

(** The code points [str.strip()] removes (Python's [str.isspace]). *)
Definition isspace (c : N) : bool :=
  (((9 <=? c) && (c <=? 13)) || ((28 <=? c) && (c <=? 32))
   || (c =? 133) || (c =? 160) || (c =? 5760)
   || ((8192 <=? c) && (c <=? 8202))
   || (c =? 8232) || (c =? 8233) || (c =? 8239) || (c =? 8287)
   || (c =? 12288))%N.

Fixpoint lstrip (s : str) : str :=
  match s with
  | [] => []
  | c :: s' => if isspace c then lstrip s' else s
  end.

Definition rstrip (s : str) : str := rev (lstrip (rev s)).

Definition strip (s : str) : str := rstrip (lstrip s).

(** [s.startswith(p)] *)
Fixpoint startswith (p s : str) : bool :=
  match p, s with
  | [], _ => true
  | _ :: _, [] => false
  | x :: p', y :: s' => N.eqb x y && startswith p' s'
  end.

(** [p in s] for strings: [p] occurs as a contiguous run of [s]. *)
Fixpoint contains (p s : str) : bool :=
  startswith p s || match s with [] => false | _ :: s' => contains p s' end.

(** [s.replace(old, new)]: occurrences are replaced left to right and do not
    overlap; [skip] counts the code points of a match still to be dropped. *)
Fixpoint replace_go (old new : str) (skip : nat) (s : str) : str :=
  match s with
  | [] => []
  | c :: s' =>
      match skip with
      | S k => replace_go old new k s'
      | O => if startswith old s
             then new ++ replace_go old new (length old - 1) s'
             else c :: replace_go old new 0 s'
      end
  end.

Definition replace (old new s : str) : str :=
  match old with
  | [] => new ++ flat_map (fun c => c :: new) s
  | _ :: _ => replace_go old new 0 s
  end.

(** [s.split(sep)] for a non-empty separator. *)
Fixpoint split_go (sep : str) (skip : nat) (acc : str) (s : str) : list str :=
  match s with
  | [] => [rev acc]
  | c :: s' =>
      match skip with
      | S k => split_go sep k acc s'
      | O => if startswith sep s
             then rev acc :: split_go sep (length sep - 1) [] s'
             else split_go sep 0 (c :: acc) s'
      end
  end.

Definition split (sep s : str) : list str := split_go sep 0 [] s.

(** [s.split(sep, 1)]: cut at the first occurrence of [sep]; [None] when there
    is none (Python then returns a one-element list). *)
Fixpoint split1_go (sep : str) (acc : str) (s : str) : option (str * str) :=
  if startswith sep s then Some (rev acc, skipn (length sep) s)
  else match s with
       | [] => None
       | c :: s' => split1_go sep (c :: acc) s'
       end.

Definition split1 (sep s : str) : option (str * str) := split1_go sep [] s.

(** [str(n)] for an [int]. *)
Fixpoint of_uint (d : Decimal.uint) : str :=
  match d with
  | Decimal.Nil => []
  | Decimal.D0 d => 48%N :: of_uint d
  | Decimal.D1 d => 49%N :: of_uint d
  | Decimal.D2 d => 50%N :: of_uint d
  | Decimal.D3 d => 51%N :: of_uint d
  | Decimal.D4 d => 52%N :: of_uint d
  | Decimal.D5 d => 53%N :: of_uint d
  | Decimal.D6 d => 54%N :: of_uint d
  | Decimal.D7 d => 55%N :: of_uint d
  | Decimal.D8 d => 56%N :: of_uint d
  | Decimal.D9 d => 57%N :: of_uint d
  end.

Definition of_nat (n : nat) : str := of_uint (Nat.to_uint n).

Definition of_Z (z : Z) : str :=
  match Z.to_int z with
  | Decimal.Pos d => of_uint d
  | Decimal.Neg d => 45%N :: of_uint d
  end.

(** The part of the Python runtime that rests on the Unicode tables and on
    the file system: [str.upper], [str.lower], the class [\w] of [re], and
    [os.path.exists]. *)
Record Runtime := {
  upper : str -> str;
  lower : str -> str;
  isword : N -> bool;
  path_exists : str -> bool
}.

(** The tables restricted to ASCII, for running the model on ASCII input. *)
Definition ascii_upper_cp (c : N) : N :=
  (if (97 <=? c) && (c <=? 122) then c - 32 else c)%N.
Definition ascii_lower_cp (c : N) : N :=
  (if (65 <=? c) && (c <=? 90) then c + 32 else c)%N.
Definition ascii_isword (c : N) : bool :=
  (((48 <=? c) && (c <=? 57)) || ((65 <=? c) && (c <=? 90))
   || ((97 <=? c) && (c <=? 122)) || (c =? 95))%N.

Definition ascii_runtime : Runtime := {|
  upper := map ascii_upper_cp;
  lower := map ascii_lower_cp;
  isword := ascii_isword;
  path_exists := fun _ => false
|}.

End Py.

Declare Scope py_scope.
Delimit Scope py_scope with py.
Notation "` s" := (Py.lit s) (at level 1, format "` s") : py_scope.
Notation "`` s" := (Py.litq s) (at level 1, format "`` s") : py_scope.
Open Scope py_scope.
Open Scope list_scope.

(* ================================================================== *)
(** ** Python dictionaries

    A [dict] keeps its keys in insertion order; assigning to a key that is
    present keeps the key's place. *)

Module Dict.

Definition t (V : Type) := list (Py.str * V).

Fixpoint get {V} (k : Py.str) (d : t V) : option V :=
  match d with
  | [] => None
  | (k', v) :: d' => if Py.eqb k k' then Some v else get k d'
  end.

Definition has {V} (k : Py.str) (d : t V) : bool :=
  match get k d with Some _ => true | None => false end.

Fixpoint set {V} (k : Py.str) (v : V) (d : t V) : t V :=
  match d with
  | [] => [(k, v)]
  | (k', v') :: d' => if Py.eqb k k' then (k', v) :: d' else (k', v') :: set k v d'
  end.

Definition keys {V} (d : t V) : list Py.str := map fst d.
Definition values {V} (d : t V) : list V := map snd d.

End Dict.

(* ================================================================== *)
(** ** Effects: the log of [logging] calls and raised exceptions *)

Inductive level := DEBUG | INFO | WARNING | ERROR | CRITICAL.

Definition record : Type := level * Py.str.
Definition log := list record.

(** [Dangling] stands for a cursor that names no stored person; the parser
    never produces it ([CursorFacts.parseModel_benign]). *)
Inductive exn :=
| AttributeError (what : Py.str)
| ValueError (what : Py.str)
| Exception (what : Py.str)
| Dangling (key : Py.str).

Inductive result (A : Type) :=
| Ok (a : A)
| Raise (e : exn).
Arguments Ok {A} a.
Arguments Raise {A} e.

(** A computation reads the log written so far and returns its result with
    the log extended; the log survives a raised exception. *)
Definition Eff (A : Type) := log -> result A * log.

Definition ret {A} (a : A) : Eff A := fun l => (Ok a, l).

Definition bind {A B} (m : Eff A) (k : A -> Eff B) : Eff B :=
  fun l => match m l with
           | (Ok a, l') => k a l'
           | (Raise e, l') => (Raise e, l')
           end.

Definition raise {A} (e : exn) : Eff A := fun l => (Raise e, l).

Definition logging (lv : level) (msg : Py.str) : Eff unit :=
  fun l => (Ok tt, l ++ [(lv, msg)]).

Notation "x <- m ;; k" := (bind m (fun x => k))
  (at level 61, m at next level, right associativity).
Notation "m ;;; k" := (bind m (fun _ => k))
  (at level 61, right associativity).

Definition warnings (l : log) : list Py.str :=
  map snd (filter (fun r => match fst r with WARNING => true | _ => false end) l).

(* ================================================================== *)
(** ** The entity model *)

Record Person := {
  fullName : Py.str;
  dotNodeName : Py.str;
  team : Py.str;
  influence : Py.str;
  dmu : Py.str;
  sentiment : Py.str;
  attributes : Dict.t Py.str
}.

Record Edge := {
  origin : Py.str;
  type : Py.str;
  destination : Py.str
}.

(** [people] is the dict of the model.  [lastPerson] is a reference to the
    Person object stored last by [addPerson]; that object is the value of
    [people] under its own [dotNodeName], so the reference is kept as that
    key and every update through it is an update of the stored object.
    [None] is the state before the first [addPerson], where the attribute
    does not exist.  [teams] lists the elements of the set in the order in
    which [getTeamsAsDot] iterates over it; Python leaves that order open,
    here it is the order of insertion. *)
Record Model := {
  title : Py.str;
  people : Dict.t Person;
  edges : list Edge;
  teams : list Py.str;
  lastPerson : option Py.str
}.

Definition convertHumanNameToDotNodeName (name : Py.str) : Py.str :=
  let name := Py.replace `" " `"_" (Py.strip name) in
  let name := Py.replace `"-" [] (Py.strip name) in
  let name := Py.replace [Py.QUOTE] `"_" (Py.strip name) in
  name.

Section Program.

Variable rt : Py.Runtime.

(** [re.fullmatch] of the name against the class of [\w], [-], U+2018 and
    the space, one or more times. *)
Definition name_matches (s : Py.str) : bool :=
  match s with
  | [] => false
  | _ :: _ =>
      forallb (fun c => Py.isword rt c || N.eqb c 45 || N.eqb c Py.QUOTE
                        || N.eqb c 32) s
  end.

(** [Person.__init__] *)
Definition newPerson (fullName : Py.str) : Eff Person :=
  let fullName := Py.strip fullName in
  (if name_matches fullName then ret tt
   else logging WARNING
          (`"Person's name contains invalid characters: " ++ fullName)) ;;;
  ret {| fullName := fullName;
         dotNodeName := convertHumanNameToDotNodeName fullName;
         team := `"??";
         influence := [];
         dmu := `"U";
         sentiment := `"N";
         attributes := [] |}.

Definition with_dmu (p : Person) (v : Py.str) : Person :=
  {| fullName := fullName p; dotNodeName := dotNodeName p; team := team p;
     influence := influence p; dmu := v; sentiment := sentiment p;
     attributes := attributes p |}.

Definition with_sentiment (p : Person) (v : Py.str) : Person :=
  {| fullName := fullName p; dotNodeName := dotNodeName p; team := team p;
     influence := influence p; dmu := dmu p; sentiment := v;
     attributes := attributes p |}.

Definition with_influence (p : Person) (v : Py.str) : Person :=
  {| fullName := fullName p; dotNodeName := dotNodeName p; team := team p;
     influence := v; dmu := dmu p; sentiment := sentiment p;
     attributes := attributes p |}.

Definition with_team (p : Person) (v : Py.str) : Person :=
  {| fullName := fullName p; dotNodeName := dotNodeName p; team := v;
     influence := influence p; dmu := dmu p; sentiment := sentiment p;
     attributes := attributes p |}.

Definition with_attributes (p : Person) (a : Dict.t Py.str) : Person :=
  {| fullName := fullName p; dotNodeName := dotNodeName p; team := team p;
     influence := influence p; dmu := dmu p; sentiment := sentiment p;
     attributes := a |}.

Definition getDmuDescription (p : Person) : Py.str :=
  if Py.eqb (dmu p) `"D" then `"Decision Maker"
  else if Py.eqb (dmu p) `"B" then `"Buyer"
  else if Py.eqb (dmu p) `"I" then `"Influencer"
  else if Py.eqb (dmu p) `"G" then `"Gatekeeper"
  else if Py.eqb (dmu p) `"U" then `"User"
  else `"dmu?".

Definition getSentimentDescription (p : Person) : Py.str :=
  if Py.eqb (sentiment p) `"P" then `"Proponent"
  else if Py.eqb (sentiment p) `"N" then `"Neutral"
  else if Py.eqb (sentiment p) `"O" then `"Opponent"
  else `"sentiment?".

Definition setDmu (p : Person) (newValue : Py.str) : Eff Person :=
  let dmu := Py.strip (Py.upper rt newValue) in
  if Py.mem dmu [`"D"; `"DECISION MAKER"; `"DM"] then ret (with_dmu p `"D")
  else if Py.mem dmu [`"B"; `"BUYER"; `"BUY"] then ret (with_dmu p `"B")
  else if Py.mem dmu [`"I"; `"INFLUENCER"] then ret (with_dmu p `"I")
  else if Py.mem dmu [`"G"; `"GATEKEEPER"] then ret (with_dmu p `"G")
  else if Py.mem dmu [`"U"; `"USER"] then ret (with_dmu p `"U")
  else
    logging WARNING
      (`"Unknown `dmu` (decision making unit) for: " ++ fullName p
       ++ `", got: " ++ dmu
       ++ `", but should be [D]ecision Maker, [B]uyer, [I]nfluencer, [G]atekeeper, [U]ser") ;;;
    ret (with_dmu p `"U").

Definition setSentiment (p : Person) (newValue : Py.str) : Eff Person :=
  let sentiment := Py.strip (Py.upper rt newValue) in
  if Py.mem sentiment [`"P"; `"PROMOTOR"; `"PROMOTER"; `"PROPONENT"]
  then ret (with_sentiment p `"P")
  else if Py.mem sentiment [`"O"; `"OPPONENT"] then ret (with_sentiment p `"O")
  else if Py.mem sentiment [`"N"; `"NEUTRAL"] then ret (with_sentiment p `"N")
  else
    logging WARNING
      (`"Unknown `sentiment` for: " ++ fullName p ++ `", got: " ++ sentiment
       ++ `", but should be [P]romoter, [O]pponent or [N]eutral") ;;;
    ret (with_sentiment p `"N").

Definition setInfluence (p : Person) (influence : Py.str) : Person :=
  with_influence p (Py.strip influence).

Definition setTeam (p : Person) (team : Py.str) : Person := with_team p team.

Definition hasAttribute (p : Person) (key : Py.str) : bool :=
  Dict.has key (attributes p).

Definition getAttribute (p : Person) (key : Py.str) : Py.str :=
  let placeholder := `"Unknown: " ++ key in
  match Dict.get key (attributes p) with
  | Some rawValue =>
      let safeValue := Py.replace `"&" `"&amp;" rawValue in
      let safeValue := Py.replace `"|" `" " safeValue in
      let safeValue := Py.strip safeValue in
      if negb (Py.eqb safeValue []) then safeValue else placeholder
  | None => placeholder
  end.

Definition setAttribute (p : Person) (k v : Py.str) : Person :=
  with_attributes p (Dict.set k v (attributes p)).


(** [Model.__init__] *)
Definition newModel : Model :=
  {| title := `"Untitled Organization"; people := []; edges := [];
     teams := []; lastPerson := None |}.

Definition getPersonByName (model : Model) (personFullName : Py.str)
  : result Person :=
  match Dict.get personFullName (people model) with
  | Some p => Ok p
  | None => Raise (Exception (`"Person not found: " ++ personFullName))
  end.

Definition findPerson (model : Model) (name : Py.str) : result Person :=
  match find (fun person => Py.eqb (getAttribute person `"id") name)
             (Dict.values (people model)) with
  | Some person => Ok person
  | None => getPersonByName model name
  end.

Definition addPerson (model : Model) (personFullName : Py.str) : Eff Model :=
  person <- newPerson personFullName ;;
  ret {| title := title model;
         people := Dict.set (dotNodeName person) person (people model);
         edges := edges model;
         teams := teams model;
         lastPerson := Some (dotNodeName person) |}.

(** [self.teams.add(team)] on a [set()]: a name that is in the set already is
    not added again.  The list keeps the names in the order of insertion,
    which is one of the orders in which Python may iterate over the set (it
    depends on the hash seed of the run); the facts below that speak of a
    model with several teams hold for whatever list of distinct names stands
    for the set, and the examples say nothing of the place of a team. *)
Definition addTeam (model : Model) (team : Py.str) : Model :=
  {| title := title model; people := people model; edges := edges model;
     teams := if Py.mem team (teams model) then teams model
              else teams model ++ [team];
     lastPerson := lastPerson model |}.

(** Reading [model.lastPerson]. *)
Definition the_lastPerson (model : Model) : Eff Person :=
  match lastPerson model with
  | None => raise (AttributeError `"'Model' object has no attribute 'lastPerson'")
  | Some key =>
      match Dict.get key (people model) with
      | Some person => ret person
      | None => raise (Dangling key)
      end
  end.

(** Writing a field of the object [model.lastPerson] refers to. *)
Definition update_lastPerson (model : Model) (person : Person) : Model :=
  match lastPerson model with
  | None => model
  | Some key =>
      {| title := title model;
         people := Dict.set key person (people model);
         edges := edges model; teams := teams model;
         lastPerson := lastPerson model |}
  end.

Definition addConnection (model : Model) (edgeType destination : Py.str)
  : Eff Model :=
  person <- the_lastPerson model ;;
  ret {| title := title model; people := people model;
         edges := edges model ++
                  [ {| origin := dotNodeName person;
                       type := edgeType;
                       destination := convertHumanNameToDotNodeName destination |} ];
         teams := teams model; lastPerson := lastPerson model |}.

Definition with_title (model : Model) (t : Py.str) : Model :=
  {| title := t; people := people model; edges := edges model;
     teams := teams model; lastPerson := lastPerson model |}.

(* ================================================================== *)
(** ** The outline parser *)

Definition parseConnection (model : Model) (line : Py.str) : Eff Model :=
  match Py.split1 `"->" line with
  | None => raise (ValueError `"not enough values to unpack")
  | Some (edgeType, destination) =>
      if negb (Py.eqb edgeType []) && negb (Py.eqb destination [])
      then addConnection model (Py.strip edgeType) (Py.strip destination)
      else ret model
  end.

Definition parsePersonProperty (model : Model) (line : Py.str) : Eff Model :=
  match Py.split1 `":" line with
  | None => raise (ValueError `"not enough values to unpack")
  | Some (propertyKey, propertyValue) =>
      let propertyKey := Py.lower rt (Py.strip propertyKey) in
      let propertyValue := Py.strip propertyValue in
      if Py.eqb propertyKey `"influence" then
        person <- the_lastPerson model ;;
        ret (update_lastPerson model (setInfluence person propertyValue))
      else if Py.eqb propertyKey `"sentiment" then
        person <- the_lastPerson model ;;
        person <- setSentiment person propertyValue ;;
        ret (update_lastPerson model person)
      else if Py.eqb propertyKey `"dmu" then
        person <- the_lastPerson model ;;
        person <- setDmu person propertyValue ;;
        ret (update_lastPerson model person)
      else if Py.eqb propertyKey `"team" then
        let model := addTeam model propertyValue in
        person <- the_lastPerson model ;;
        ret (update_lastPerson model (setTeam person propertyValue))
      else
        person <- the_lastPerson model ;;
        ret (update_lastPerson model (setAttribute person propertyKey propertyValue))
  end.

(** The body of the loop of [parseModel], for one line. *)
Definition parseLine (model : Model) (line : Py.str) : Eff Model :=
  if Py.eqb line [] then ret model
  else if Py.startswith `"@" line && Py.contains `":" line then
    let line := Py.replace `"@" [] line in
    match Py.split1 `":" line with
    | None => raise (ValueError `"not enough values to unpack")
    | Some (key, val) =>
        if Py.eqb key `"title" then ret (with_title model (Py.strip val))
        else ret model
    end
  else if Py.startswith [Py.TAB] line then
    let line := Py.replace [Py.TAB] [] (Py.strip line) in
    if Py.contains `"->" line then parseConnection model line
    else if Py.contains `":" line then parsePersonProperty model line
    else
      logging WARNING (`"Cannot parse line: " ++ line) ;;;
      addPerson model line
  else addPerson model line.

Fixpoint parseLines (model : Model) (lines : list Py.str) : Eff Model :=
  match lines with
  | [] => ret model
  | line :: rest => model <- parseLine model line ;; parseLines model rest
  end.

Definition parseModel (contents : Py.str) : Eff Model :=
  parseLines newModel (Py.split Py.NL contents).

(* ================================================================== *)
(** ** The options ([args]) the filter and the renderer consult *)

Record Args := {
  args_skipDrawingLegend : bool;
  args_skipDrawingTeams : bool;
  args_skipDrawingTitle : bool;
  args_teams : list Py.str;
  args_influence : list Py.str;
  args_profilePictureDirectory : Py.str;
  args_profilePictures : bool;
  args_outputType : Py.str;
  args_vizType : Py.str;
  args_dpi : Z;
  args_attributeMatches : list Py.str
}.

Variable args : Args.

(* ================================================================== *)
(** ** The filter predicate *)

(** One turn of the loop over [args.attributeMatches]: [true] when the loop
    returns [True] at this criterion. *)
Definition attributeSearch_fails (person : Person) (attributeSearch : Py.str)
  : bool :=
  if negb (Py.contains `"=" attributeSearch) then false
  else match Py.split1 `"=" attributeSearch with
       | None => false
       | Some (key, val) =>
           let key := Py.strip key in
           let val := Py.strip val in
           negb (Py.contains val (getAttribute person key))
       end.

Definition isPersonExcluded (person : Person) : bool :=
  if (0 <? length (args_attributeMatches args))
     && existsb (attributeSearch_fails person) (args_attributeMatches args)
  then true
  else if (0 <? length (args_teams args))
          && negb (Py.mem (team person) (args_teams args))
  then true
  else if (0 <? length (args_influence args))
          && negb (Py.mem (influence person) (args_influence args))
  then true
  else false.

(* ================================================================== *)
(** ** The renderer *)

Definition getInfluenceStyleAsDot (influence : Py.str) : Eff Py.str :=
  if negb (Py.eqb (args_vizType args) `"inf")
  then ret `"fillcolor=white, style=filled"
  else if Py.eqb influence `"supporter" then ret `"fillcolor=skyblue, style=filled"
  else if Py.eqb influence `"promoter" then ret `"fillcolor=GreenYellow, style=filled"
  else if Py.eqb influence `"enemy" then ret `"fillcolor=salmon, style=filled"
  else if Py.eqb influence `"internal"
  then ret `"fillcolor=black, style=filled, fontcolor=white"
  else if Py.eqb (Py.strip influence) [] then ret `"fillcolor=white, style=filled"
  else
    logging WARNING (`"Unknown influence class: " ++ influence) ;;;
    ret [].

Definition getLegendAsDot : Py.str :=
  let out := [] in
  if negb (args_skipDrawingLegend args) then
    if Py.eqb (args_vizType args) `"inf" then
      out ++ `"subgraph cluster_00 {" ++ Py.NL
          ++ `"label=Legend" ++ Py.NL
          ++ `"fillcolor=beige" ++ Py.NL
          ++ `"style=filled" ++ Py.NL
          ++ `"node [fontsize=9]" ++ Py.NL
          ++ `"supporter [fillcolor=skyblue, style=filled]" ++ Py.NL
          ++ `"promoter [fillcolor=GreenYellow, style=filled]" ++ Py.NL
          ++ `"hostile [fillcolor=salmon, style=filled]" ++ Py.NL
          ++ `"internal [fillcolor=black, fontcolor = white, style=filled]" ++ Py.NL
          ++ `"}" ++ Py.NL
    else out
  else out.

(** The inner loop of [getTeamsAsDot]: the member lines of one team. *)
Fixpoint teamMembersAsDot (teamName : Py.str) (persons : list Person)
  (out : Py.str) : Py.str :=
  match persons with
  | [] => out
  | person :: rest =>
      if isPersonExcluded person then teamMembersAsDot teamName rest out
      else if Py.eqb (team person) teamName
      then teamMembersAsDot teamName rest
             (out ++ dotNodeName person ++ `" []" ++ Py.NL)
      else teamMembersAsDot teamName rest out
  end.

(** The outer loop, threading [out] and [subGraphCount]. *)
Fixpoint teamsLoop (model : Model) (teamNames : list Py.str)
  (out : Py.str) (subGraphCount : nat) : Py.str :=
  match teamNames with
  | [] => out
  | teamName :: rest =>
      let subGraphCount := subGraphCount + 1 in
      let out := out ++ `"subgraph cluster_" ++ Py.of_nat subGraphCount
                     ++ `"{" ++ Py.NL in
      let out := out ++ ``"label=~" ++ teamName ++ ``"~" ++ Py.NL in
      let out := out ++ `"style=filled" ++ Py.NL in
      let out := out ++ `"fillcolor=skyblue" ++ Py.NL in
      let out := teamMembersAsDot teamName (Dict.values (people model)) out in
      let out := out ++ `"}" ++ Py.NL in
      teamsLoop model rest out subGraphCount
  end.

Definition getTeamsAsDot (model : Model) : Py.str :=
  if args_skipDrawingTeams args then []
  else teamsLoop model (teams model) [] 0.

Definition getEdgeDotStyle (edge : Edge) : Py.str :=
  if Py.eqb (type edge) `"supports" then `"style=dotted" else [].

Definition getStyleForDmu (dmu fullName : Py.str) : Py.str :=
  if Py.eqb dmu `"D" then `"green"
  else if Py.eqb dmu `"I" then `"skyblue"
  else if Py.eqb dmu `"B" then `"purple"
  else if Py.eqb dmu `"G" then `"pink"
  else if Py.eqb dmu `"U" then `"gray"
  else `"white".

Definition getStyleForSentiment (sentiment fullName : Py.str) : Py.str :=
  if Py.eqb sentiment `"P" then `"green"
  else if Py.eqb sentiment `"N" then `"yellow"
  else if Py.eqb sentiment `"O" then `"pink"
  else `"white".

Definition getDsVisType (person : Person) : Py.str :=
  ``"<tr><td bgcolor = ~" ++ getStyleForDmu (dmu person) (fullName person)
  ++ ``"~ border = ~1~>" ++ getDmuDescription person
  ++ ``"</td><td bgcolor = ~"
  ++ getStyleForSentiment (sentiment person) (fullName person)
  ++ ``"~ border = ~1~>" ++ getSentimentDescription person
  ++ `"</td></tr>".

Definition getPersonLabelAsDot (person : Person) : Eff Py.str :=
  let ret0 := ``"<<table border = ~0~ cellspacing = ~0~>" in
  let ret0 := ret0 ++ ``"<tr><td border = ~1~ colspan = ~2~><b>"
                   ++ fullName person ++ `"</b></td></tr>" in
  let ret0 := ret0 ++ ``"<tr><td border = ~1~ colspan = ~2~><font point-size = ~9~>"
                   ++ getAttribute person `"title" ++ `"</font></td></tr>" in
  ret1 <-
    (if args_profilePictures args then
       let pic := args_profilePictureDirectory args ++ fullName person
                  ++ `".jpeg" in
       if Py.path_exists rt pic then
         logging DEBUG (`"Found LinkedIn profile: " ++ pic) ;;;
         ret (ret0 ++ ``"<tr><td colspan = ~2~ border = ~1~><img src = ~"
                   ++ pic ++ ``"~ /></td></tr>")
       else
         logging WARNING (`"No profile pic found for " ++ pic) ;;;
         ret ret0
     else ret ret0) ;;
  let ret2 := if hasAttribute person `"country"
              then ret1 ++ ``"<tr><td colspan = ~2~>"
                        ++ getAttribute person `"country" ++ `"</td></tr>"
              else ret1 in
  let ret3 := if Py.eqb (args_vizType args) `"DS"
              then ret2 ++ getDsVisType person else ret2 in
  ret (ret3 ++ `"</table>>").

Definition lift {A} (r : result A) : Eff A :=
  match r with Ok a => ret a | Raise e => raise e end.

(** The loop over [model.people.values()]. *)
Fixpoint nodesLoop (persons : list Person) (out : Py.str) : Eff Py.str :=
  match persons with
  | [] => ret out
  | person :: rest =>
      if isPersonExcluded person then nodesLoop rest out
      else
        label <- getPersonLabelAsDot person ;;
        style <- getInfluenceStyleAsDot (influence person) ;;
        nodesLoop rest
          (out ++ dotNodeName person
               ++ `" [margin=0, border=invisible, label=" ++ label
               ++ `"," ++ style ++ `"]" ++ Py.NL)
  end.

(** One turn of the loop over [model.edges]; [or] does not evaluate its
    right operand when the left one is true. *)
Definition edgeAsDot (model : Model) (edge : Edge) (out : Py.str)
  : Eff Py.str :=
  o <- lift (findPerson model (origin edge)) ;;
  skip <- (if isPersonExcluded o then ret true
           else d <- lift (findPerson model (destination edge)) ;;
                ret (isPersonExcluded d)) ;;
  if (skip : bool) then ret out
  else
    d <- lift (findPerson model (destination edge)) ;;
    ret (out ++ origin edge ++ `" -> " ++ dotNodeName d
             ++ ``" [label=~" ++ type edge ++ ``"~, "
             ++ getEdgeDotStyle edge ++ `"]" ++ Py.NL).

Fixpoint edgesLoop (model : Model) (es : list Edge) (out : Py.str)
  : Eff Py.str :=
  match es with
  | [] => ret out
  | edge :: rest => out <- edgeAsDot model edge out ;; edgesLoop model rest out
  end.

Definition getModelAsDot (model : Model) : Eff Py.str :=
  let out := [] in
  let out := out ++ `"digraph {" ++ Py.NL in
  let out := if Py.eqb (args_outputType args) `"png"
             then out ++ `"graph [ dpi = " ++ Py.of_Z (args_dpi args)
                      ++ `" ]" ++ Py.NL
             else out in
  let out := if negb (args_skipDrawingTitle args)
             then out ++ ``"label=~" ++ title model
                      ++ ``" - github.com/jamesread/orgviz~" ++ Py.NL
             else out in
  let out := out ++ ``"labelloc=~t~" ++ Py.NL in
  let out := out ++ `"fontname=Overpass" ++ Py.NL in
  let out := out ++ `"node [fontname=Overpass, shape=record]" ++ Py.NL in
  let out := out ++ `"edge [fontname=Overpass, fontsize=9]" ++ Py.NL in
  let out := out ++ getTeamsAsDot model in
  out <- nodesLoop (Dict.values (people model)) out ;;
  out <- edgesLoop model (edges model) out ;;
  let out := out ++ getLegendAsDot in
  let out := out ++ `"}" in
  ret out.

End Program.

(* ================================================================== *)
(** * Definitions used to state the properties *)

Module Strip.

(** A string whose first code point, if any, is not white space. *)
Definition head_ok (s : Py.str) : bool :=
  match s with
  | [] => true
  | c :: _ => negb (Py.isspace c)
  end.

(** No white space at either end. *)
Definition trimmed (s : Py.str) : Prop :=
  head_ok s = true /\ head_ok (rev s) = true.

End Strip.

Module NodeId.

Definition space_to_underscore (c : N) : N := if N.eqb c 32 then 95%N else c.
Definition quote_to_underscore (c : N) : N :=
  if N.eqb c Py.QUOTE then 95%N else c.
Definition not_hyphen (c : N) : bool := negb (N.eqb c 45).

(** The derivation as the specification words it: spaces become
    underscores, hyphens and the quotation mark are removed. *)
Definition nodeId_as_specified (name : Py.str) : Py.str :=
  flat_map (fun c => if N.eqb c 32 then [95%N]
                     else if N.eqb c 45 then []
                     else if N.eqb c Py.QUOTE then []
                     else [c]) name.

(** What the three replacements do to one code point. *)
Definition nodeId_cp (c : N) : Py.str :=
  if N.eqb c 32 then [95%N]
  else if N.eqb c 45 then []
  else if N.eqb c Py.QUOTE then [95%N]
  else [c].

(** White space other than the plain space does not occur. *)
Definition plain_spaces (name : Py.str) : bool :=
  forallb (fun c => negb (Py.isspace c) || N.eqb c 32) name.

End NodeId.

Module Attribute.

(** What the two replacements do to one code point: [&] becomes [&amp;],
    [|] becomes a space. *)
Definition sanitize_cp (c : N) : Py.str :=
  if N.eqb c 38 then `"&amp;" else if N.eqb c 124 then `" " else [c].

Definition sanitized (rawValue : Py.str) : Py.str :=
  Py.strip (flat_map sanitize_cp rawValue).

Definition placeholder (key : Py.str) : Py.str := `"Unknown: " ++ key.

End Attribute.

(** [x] occurs in [s] as a contiguous run. *)
Definition substring (x s : Py.str) : Prop :=
  exists pre post, s = pre ++ x ++ post.

Module Coercion.

(** Every alias [setDmu] recognises, after upper-casing and trimming. *)
Definition dmu_aliases : list Py.str :=
  [`"D"; `"DECISION MAKER"; `"DM"; `"B"; `"BUYER"; `"BUY"; `"I";
   `"INFLUENCER"; `"G"; `"GATEKEEPER"; `"U"; `"USER"].

(** Every alias [setSentiment] recognises. *)
Definition sentiment_aliases : list Py.str :=
  [`"P"; `"PROMOTOR"; `"PROMOTER"; `"PROPONENT"; `"O"; `"OPPONENT"; `"N";
   `"NEUTRAL"].

Definition dmu_warning (p : Person) (dmu : Py.str) : record :=
  (WARNING,
   `"Unknown `dmu` (decision making unit) for: " ++ fullName p
   ++ `", got: " ++ dmu
   ++ `", but should be [D]ecision Maker, [B]uyer, [I]nfluencer, [G]atekeeper, [U]ser").

Definition sentiment_warning (p : Person) (sentiment : Py.str) : record :=
  (WARNING,
   `"Unknown `sentiment` for: " ++ fullName p ++ `", got: " ++ sentiment
   ++ `", but should be [P]romoter, [O]pponent or [N]eutral").

End Coercion.

Module Parser.

(** A line that reaches [model.addPerson(line)] directly: not empty, not a
    directive, not indented. *)
Definition is_declaration (line : Py.str) : bool :=
  negb (Py.eqb line [])
  && negb (Py.startswith `"@" line && Py.contains `":" line)
  && negb (Py.startswith [Py.TAB] line).

(** A directive line: [@] first and a [:] somewhere. *)
Definition is_directive (line : Py.str) : bool :=
  Py.startswith `"@" line && Py.contains `":" line.

Definition nonblank_nonindented (line : Py.str) : bool :=
  negb (Py.eqb line []) && negb (Py.startswith [Py.TAB] line).

(** The nodeId under which the person declared by [line] is stored. *)
Definition nodeId_of_line (line : Py.str) : Py.str :=
  convertHumanNameToDotNodeName (Py.strip line).

(** Adding a key to the keys of a dict. *)
Definition add_key (k : Py.str) (ks : list Py.str) : list Py.str :=
  if Py.mem k ks then ks else ks ++ [k].

(** The distinct strings of a list, in the order of their first occurrence. *)
Definition distinct_from (acc ids : list Py.str) : list Py.str :=
  fold_left (fun ks k => add_key k ks) ids acc.

Definition distinct (ids : list Py.str) : list Py.str := distinct_from [] ids.

(** The declaration lines of a document, in order. *)
Definition declarations (lines : list Py.str) : list Py.str :=
  filter nonblank_nonindented lines.

End Parser.

Module Legend.

(** The text of the legend block. *)
Definition legend_text : Py.str :=
  `"subgraph cluster_00 {" ++ Py.NL
  ++ `"label=Legend" ++ Py.NL
  ++ `"fillcolor=beige" ++ Py.NL
  ++ `"style=filled" ++ Py.NL
  ++ `"node [fontsize=9]" ++ Py.NL
  ++ `"supporter [fillcolor=skyblue, style=filled]" ++ Py.NL
  ++ `"promoter [fillcolor=GreenYellow, style=filled]" ++ Py.NL
  ++ `"hostile [fillcolor=salmon, style=filled]" ++ Py.NL
  ++ `"internal [fillcolor=black, fontcolor = white, style=filled]" ++ Py.NL
  ++ `"}" ++ Py.NL.

End Legend.

Module Teams.

(** The line of one member inside a subgraph. *)
Definition member_line (p : Person) : Py.str :=
  dotNodeName p ++ `" []" ++ Py.NL.

(** The persons shown inside the subgraph of [teamName]. *)
Definition visible_members (args : Args) (model : Model) (teamName : Py.str)
  : list Person :=
  filter (fun p => negb (isPersonExcluded args p) && Py.eqb (team p) teamName)
    (Dict.values (people model)).

(** The declaration of the [n]-th subgraph around its member lines. *)
Definition team_declaration (n : nat) (teamName : Py.str)
  (members : list Person) : Py.str :=
  `"subgraph cluster_" ++ Py.of_nat n ++ `"{" ++ Py.NL
  ++ ``"label=~" ++ teamName ++ ``"~" ++ Py.NL
  ++ `"style=filled" ++ Py.NL
  ++ `"fillcolor=skyblue" ++ Py.NL
  ++ concat (map member_line members)
  ++ `"}" ++ Py.NL.

(** One declaration per team name, numbered from [n + 1]. *)
Fixpoint team_declarations (args : Args) (model : Model) (n : nat)
  (teamNames : list Py.str) : list Py.str :=
  match teamNames with
  | [] => []
  | teamName :: rest =>
      team_declaration (n + 1) teamName (visible_members args model teamName)
      :: team_declarations args model (n + 1) rest
  end.

End Teams.

Module Render.

(** [name] is the key of no person and the [id] attribute of none. *)
Definition unresolved (model : Model) (name : Py.str) : Prop :=
  Dict.get name (people model) = None
  /\ forall p, In p (Dict.values (people model)) ->
               getAttribute p `"id" <> name.

(** The edges at which rendering stops: the origin resolves to no person,
    or it resolves to a person that is not excluded and the destination
    resolves to no person. *)
Definition edge_fails (args : Args) (model : Model) (edge : Edge) : Prop :=
  unresolved model (origin edge)
  \/ exists o, findPerson model (origin edge) = Ok o
               /\ isPersonExcluded args o = false
               /\ unresolved model (destination edge).

Definition not_found (name : Py.str) : exn :=
  Exception (`"Person not found: " ++ name).

End Render.

Module Cursor.

(** The cursor, when set, is the key of a stored person who carries that
    key as [dotNodeName]. *)
Definition cursor_ok (model : Model) : Prop :=
  forall key, lastPerson model = Some key ->
  exists p, Dict.get key (people model) = Some p /\ dotNodeName p = key.

(** The outcomes of parsing: a model with a sound cursor, or the
    [AttributeError] of a detail line before the first person. *)
Definition benign (r : result Model) : Prop :=
  match r with
  | Ok m => cursor_ok m
  | Raise (AttributeError _) => True
  | Raise _ => False
  end.

End Cursor.

Module TeamSet.

(** What a result of parsing keeps of the team names. *)
Definition keeps_teams (model : Model) (r : result Model) : Prop :=
  match r with
  | Ok m => NoDup (teams model) -> NoDup (teams m)
  | Raise _ => True
  end.

End TeamSet.

(* ================================================================== *)
(** * From the outline to the graph text *)

(** [main] up to the text [out] that it prints or hands to [dot]:
    [getModelAsDot(parseModel(getFileContents()))], with the contents of the
    input file as argument. *)
Definition main_out (rt : Py.Runtime) (args : Args) (contents : Py.str)
  : Eff Py.str :=
  model <- parseModel rt contents ;;
  getModelAsDot rt args model.

(* ================================================================== *)
(** * What one line does to the model *)

Module Frame.

(** The person [Person.__init__] builds from [name]. *)
Definition fresh_person (name : Py.str) : Person :=
  {| fullName := Py.strip name;
     dotNodeName := convertHumanNameToDotNodeName (Py.strip name);
     team := `"??"; influence := []; dmu := `"U"; sentiment := `"N";
     attributes := [] |}.

(** The model after [addPerson(name)]. *)
Definition declared (model : Model) (name : Py.str) : Model :=
  {| title := title model;
     people := Dict.set (convertHumanNameToDotNodeName (Py.strip name))
                 (fresh_person name) (people model);
     edges := edges model; teams := teams model;
     lastPerson := Some (convertHumanNameToDotNodeName (Py.strip name)) |}.

(** The model after [addConnection(edgeType, destination)] with [person] as
    last person. *)
Definition connected (model : Model) (person : Person)
  (edgeType destination : Py.str) : Model :=
  {| title := title model; people := people model;
     edges := edges model ++
              [ {| origin := dotNodeName person; type := edgeType;
                   destination := convertHumanNameToDotNodeName destination |} ];
     teams := teams model; lastPerson := lastPerson model |}.

(** The warning of [Person.__init__] about the name. *)
Definition name_warning (name : Py.str) : record :=
  (WARNING, `"Person's name contains invalid characters: " ++ Py.strip name).

Definition dmu_codes : list Py.str := [`"D"; `"B"; `"I"; `"G"; `"U"].
Definition sentiment_codes : list Py.str := [`"P"; `"O"; `"N"].

(** The property keys that have a field of their own. *)
Definition reserved_keys : list Py.str :=
  [`"influence"; `"sentiment"; `"dmu"; `"team"].

(** What a property line does to the last person [p], and the team name it
    adds to the set, if any. *)
Inductive PropertyStep (p : Person) : Person -> option Py.str -> Prop :=
| prop_influence v :
    PropertyStep p (with_influence p (Py.strip v)) None
| prop_sentiment c :
    In c sentiment_codes -> PropertyStep p (with_sentiment p c) None
| prop_dmu c :
    In c dmu_codes -> PropertyStep p (with_dmu p c) None
| prop_team v :
    PropertyStep p (with_team p v) (Some v)
| prop_attribute k v :
    Py.mem k reserved_keys = false ->
    PropertyStep p (with_attributes p (Dict.set k v (attributes p))) None.

Definition with_new_team (model : Model) (t : option Py.str) : Model :=
  match t with
  | Some v => addTeam model v
  | None => model
  end.

(** What one line of the outline does to the model, when it does not
    raise. *)
Inductive Step (model : Model) : Model -> Prop :=
| step_same : Step model model
| step_title t : Step model (with_title model t)
| step_declare name : Step model (declared model name)
| step_connect key p edgeType destination :
    lastPerson model = Some key ->
    Dict.get key (people model) = Some p ->
    Step model (connected model p edgeType destination)
| step_property key p p' t :
    lastPerson model = Some key ->
    Dict.get key (people model) = Some p ->
    PropertyStep p p' t ->
    Step model (update_lastPerson (with_new_team model t) p').

(** What holds of a person stored under the key [k] in a model with the
    team names [teamNames]. *)
Definition person_ok (teamNames : list Py.str) (k : Py.str) (p : Person)
  : Prop :=
  dotNodeName p = k
  /\ convertHumanNameToDotNodeName (fullName p) = k
  /\ Py.strip (fullName p) = fullName p
  /\ In (dmu p) dmu_codes
  /\ In (sentiment p) sentiment_codes
  /\ (team p = `"??" \/ In (team p) teamNames)
  /\ Py.strip (influence p) = influence p
  /\ (forall r, In r reserved_keys -> Dict.get r (attributes p) = None).

(** What holds of an edge of a model with the persons [persons]. *)
Definition edge_ok (persons : Dict.t Person) (e : Edge) : Prop :=
  Dict.has (origin e) persons = true
  /\ convertHumanNameToDotNodeName (destination e) = destination e.

(** What parsing keeps true of the model. *)
Definition well_formed (model : Model) : Prop :=
  Cursor.cursor_ok model
  /\ NoDup (Dict.keys (people model))
  /\ (forall k p, In (k, p) (people model) -> person_ok (teams model) k p)
  /\ (forall e, In e (edges model) -> edge_ok (people model) e)
  /\ NoDup (teams model).

End Frame.

(* ================================================================== *)
(** * Inputs the properties are run on *)

(** A name with the quotation mark of the pattern, between [O] and [Brien]. *)
Definition name_with_quote : Py.str := `"O" ++ [Py.QUOTE] ++ `"Brien".

(** A person whose [note] attribute is stored as two spaces and a tab. *)
Definition person_blank_note : Person :=
  {| fullName := `"Alice"; dotNodeName := `"Alice"; team := `"??";
     influence := []; dmu := `"U"; sentiment := `"N";
     attributes := [(`"note", `"  " ++ [Py.TAB]); (`"title", `"R&D | Ops ")] |}.

(** Options that filter on team [Eng] and on the text [Eng] in [title]. *)
Definition args_team_Eng : Args :=
  {| args_skipDrawingLegend := false; args_skipDrawingTeams := false;
     args_skipDrawingTitle := false; args_teams := [`"Eng"];
     args_influence := [];
     args_profilePictureDirectory := `"/opt/profilePictures/";
     args_profilePictures := false; args_outputType := `"svg";
     args_vizType := `"DS"; args_dpi := 100%Z;
     args_attributeMatches := [`"title = Eng"; `"ignored"] |}.

Definition person_engineer : Person :=
  {| fullName := `"Alice"; dotNodeName := `"Alice"; team := `"Eng";
     influence := `"promoter"; dmu := `"U"; sentiment := `"N";
     attributes := [(`"title", `"Head of Eng")] |}.

(** Alice with [dmu] set to [D] and [sentiment] to [P], and a model in which
    she is the person declared last. *)
Definition person_decided : Person :=
  {| fullName := `"Alice"; dotNodeName := `"Alice"; team := `"??";
     influence := []; dmu := `"D"; sentiment := `"P"; attributes := [] |}.

Definition model_alice : Model :=
  {| title := `"Untitled Organization";
     people := [(`"Alice", person_decided)]; edges := []; teams := [];
     lastPerson := Some `"Alice" |}.

(** Two declaration lines with the same name. *)
Definition doc_alice_twice : Py.str := `"Alice" ++ Py.NL ++ `"Alice".

Definition doc_alice_bob : Py.str :=
  `"Alice" ++ Py.NL ++ Py.NL ++ `"Bob Smith" ++ Py.NL.

Definition doc_alice : Py.str := `"Alice".
Definition doc_alice_nonsense : Py.str :=
  `"Alice" ++ Py.NL ++ [Py.TAB] ++ `"nonsense".

Definition doc_title_with_at : Py.str := `"@title: R@D Team".

(** Options of the [inf] styling mode, legend drawn. *)
Definition args_inf : Args :=
  {| args_skipDrawingLegend := false; args_skipDrawingTeams := false;
     args_skipDrawingTitle := false; args_teams := [];
     args_influence := [];
     args_profilePictureDirectory := `"/opt/profilePictures/";
     args_profilePictures := false; args_outputType := `"svg";
     args_vizType := `"inf"; args_dpi := 100%Z;
     args_attributeMatches := [] |}.

(** Options that show team [Eng] only. *)
Definition args_only_Eng : Args :=
  {| args_skipDrawingLegend := false; args_skipDrawingTeams := false;
     args_skipDrawingTitle := false; args_teams := [`"Eng"];
     args_influence := [];
     args_profilePictureDirectory := `"/opt/profilePictures/";
     args_profilePictures := false; args_outputType := `"svg";
     args_vizType := `"DS"; args_dpi := 100%Z;
     args_attributeMatches := [] |}.

Definition person_in (name teamName : Py.str) : Person :=
  {| fullName := name; dotNodeName := name; team := teamName;
     influence := []; dmu := `"U"; sentiment := `"N"; attributes := [] |}.

(** Alice in [Eng], Bob in [Sales], Alice supports Bob. *)
Definition model_two_teams : Model :=
  {| title := `"Acme";
     people := [(`"Alice", person_in `"Alice" `"Eng");
                (`"Bob", person_in `"Bob" `"Sales")];
     edges := [ {| origin := `"Alice"; type := `"supports";
                   destination := `"Bob" |} ];
     teams := [`"Eng"; `"Sales"];
     lastPerson := Some `"Bob" |}.

(** Alice, of team [Sales], supports [Ghost], who is declared nowhere. *)
Definition doc_ghost : Py.str :=
  `"Alice" ++ Py.NL
  ++ [Py.TAB] ++ `"team: Sales" ++ Py.NL
  ++ [Py.TAB] ++ `"supports -> Ghost".

Definition edge_to_ghost : Edge :=
  {| origin := `"Alice"; type := `"supports"; destination := `"Ghost" |}.

Definition model_ghost : Model :=
  {| title := `"Untitled Organization";
     people := [(`"Alice", person_in `"Alice" `"Sales")];
     edges := [edge_to_ghost];
     teams := [`"Sales"];
     lastPerson := Some `"Alice" |}.

(** The options as the command line leaves them by default. *)
Definition args_default : Args :=
  {| args_skipDrawingLegend := false; args_skipDrawingTeams := false;
     args_skipDrawingTitle := false; args_teams := [];
     args_influence := [];
     args_profilePictureDirectory := `"/opt/profilePictures/";
     args_profilePictures := false; args_outputType := `"svg";
     args_vizType := `"DS"; args_dpi := 100%Z;
     args_attributeMatches := [] |}.

(** The outline of Acme: Alice of [Eng], a decision maker, supports Bob of
    [Sales]. *)
Definition doc_acme : Py.str :=
  `"@title: Acme" ++ Py.NL
  ++ `"Alice" ++ Py.NL
  ++ [Py.TAB] ++ `"team: Eng" ++ Py.NL
  ++ [Py.TAB] ++ `"dmu: D" ++ Py.NL
  ++ [Py.TAB] ++ `"supports -> Bob" ++ Py.NL
  ++ `"Bob" ++ Py.NL
  ++ [Py.TAB] ++ `"team: Sales".

Definition model_acme : Model :=
  {| title := `"Acme";
     people := [(`"Alice",
                 {| fullName := `"Alice"; dotNodeName := `"Alice";
                    team := `"Eng"; influence := []; dmu := `"D";
                    sentiment := `"N"; attributes := [] |});
                (`"Bob", person_in `"Bob" `"Sales")];
     edges := [ {| origin := `"Alice"; type := `"supports";
                   destination := `"Bob" |} ];
     teams := [`"Eng"; `"Sales"];
     lastPerson := Some `"Bob" |}.

(** The default options with the attribute criterion [team=Eng]. *)
Definition args_attribute_team : Args :=
  {| args_skipDrawingLegend := false; args_skipDrawingTeams := false;
     args_skipDrawingTitle := false; args_teams := [];
     args_influence := [];
     args_profilePictureDirectory := `"/opt/profilePictures/";
     args_profilePictures := false; args_outputType := `"svg";
     args_vizType := `"DS"; args_dpi := 100%Z;
     args_attributeMatches := [`"team=Eng"] |}.

(* ================================================================== *)
(** * Kinds of lines *)

Module LineKind.

(** An indented line as the parser looks at it: trimmed, tabs removed. *)
Definition detail_text (line : Py.str) : Py.str :=
  Py.replace [Py.TAB] [] (Py.strip line).

(** The lines that read [model.lastPerson]: a connection line with text on
    both sides of its first [->], or a property line. *)
Definition needs_person (line : Py.str) : bool :=
  Py.startswith [Py.TAB] line
  && (if Py.contains `"->" (detail_text line)
      then match Py.split1 `"->" (detail_text line) with
           | Some (edgeType, destination) =>
               negb (Py.eqb edgeType []) && negb (Py.eqb destination [])
           | None => false
           end
      else Py.contains `":" (detail_text line)).

(** The lines that reach [model.addPerson]. *)
Definition declares (line : Py.str) : bool :=
  negb (Py.eqb line [])
  && negb (Py.startswith `"@" line && Py.contains `":" line)
  && (if Py.startswith [Py.TAB] line
      then negb (Py.contains `"->" (detail_text line))
           && negb (Py.contains `":" (detail_text line))
      else true).

(** The name [addPerson] is called with. *)
Definition declared_name (line : Py.str) : Py.str :=
  if Py.startswith [Py.TAB] line then detail_text line else line.

(** A property line: indented, no [->], a [:]. *)
Definition is_property (line : Py.str) : bool :=
  Py.startswith [Py.TAB] line
  && negb (Py.contains `"->" (detail_text line))
  && Py.contains `":" (detail_text line).

(** The exception of reading [model.lastPerson] before any [addPerson]. *)
Definition no_lastPerson : exn :=
  AttributeError `"'Model' object has no attribute 'lastPerson'".

End LineKind.

(** A property line before the first person. *)
Definition doc_property_first : Py.str :=
  `"@title: T" ++ Py.NL ++ [Py.TAB] ++ `"team: Eng" ++ Py.NL ++ `"Alice".

(* ================================================================== *)
(** * The text of the graph, part by part *)

Module RenderText.

(** The lines before the team subgraphs. *)
Definition header (args : Args) (model : Model) : Py.str :=
  `"digraph {" ++ Py.NL
  ++ (if Py.eqb (args_outputType args) `"png"
      then `"graph [ dpi = " ++ Py.of_Z (args_dpi args) ++ `" ]" ++ Py.NL
      else [])
  ++ (if negb (args_skipDrawingTitle args)
      then ``"label=~" ++ title model
           ++ ``" - github.com/jamesread/orgviz~" ++ Py.NL
      else [])
  ++ ``"labelloc=~t~" ++ Py.NL
  ++ `"fontname=Overpass" ++ Py.NL
  ++ `"node [fontname=Overpass, shape=record]" ++ Py.NL
  ++ `"edge [fontname=Overpass, fontsize=9]" ++ Py.NL.

(** The text [getPersonLabelAsDot] returns. *)
Definition label_of (rt : Py.Runtime) (args : Args) (p : Person) : Py.str :=
  match fst (getPersonLabelAsDot rt args p []) with
  | Ok s => s
  | Raise _ => []
  end.

(** The text [getInfluenceStyleAsDot] returns. *)
Definition style_of (args : Args) (p : Person) : Py.str :=
  match fst (getInfluenceStyleAsDot args (influence p) []) with
  | Ok s => s
  | Raise _ => []
  end.

Definition node_statement (rt : Py.Runtime) (args : Args) (p : Person)
  : Py.str :=
  dotNodeName p ++ `" [margin=0, border=invisible, label="
  ++ label_of rt args p ++ `"," ++ style_of args p ++ `"]" ++ Py.NL.

Definition visible (args : Args) (p : Person) : bool :=
  negb (isPersonExcluded args p).

(** Both ends resolve to persons that are not excluded. *)
Definition edge_drawn (args : Args) (model : Model) (e : Edge) : bool :=
  match findPerson model (origin e), findPerson model (destination e) with
  | Ok o, Ok d => visible args o && visible args d
  | _, _ => false
  end.

(** The statement of an edge: from the origin as the edge has it to the
    node name of the person its destination resolves to. *)
Definition edge_statement (model : Model) (e : Edge) : Py.str :=
  origin e ++ `" -> "
  ++ match findPerson model (destination e) with
     | Ok d => dotNodeName d
     | Raise _ => []
     end
  ++ ``" [label=~" ++ type e ++ ``"~, " ++ getEdgeDotStyle e ++ `"]"
  ++ Py.NL.

End RenderText.

(** Bob carries the [id] attribute [b1]; another person is stored under the
    key [b1]. *)
Definition person_bob_b1 : Person :=
  {| fullName := `"Bob"; dotNodeName := `"Bob"; team := `"Sales";
     influence := []; dmu := `"U"; sentiment := `"N";
     attributes := [(`"id", `"b1")] |}.

Definition model_alias : Model :=
  {| title := `"Acme";
     people := [(`"Alice", person_in `"Alice" `"Eng");
                (`"Bob", person_bob_b1);
                (`"b1", person_in `"b1" `"Eng")];
     edges := []; teams := [`"Eng"; `"Sales"];
     lastPerson := Some `"b1" |}.

(** The influence classes the style lookup names. *)
Definition influence_classes : list Py.str :=
  [`"supporter"; `"promoter"; `"enemy"; `"internal"].

(* ================================================================== *)
(** * Facts about the string operations *)

Unset Implicit Arguments.

Module PyFacts.

Lemma eqb_refl (a : Py.str) : Py.eqb a a = true.
Proof.
  induction a as [|x a IH]; simpl; [reflexivity|].
  now rewrite N.eqb_refl, IH.
Qed.

Lemma eqb_eq (a b : Py.str) : Py.eqb a b = true <-> a = b.
Proof.
  split.
  - revert b; induction a as [|x a IH]; intros [|y b]; simpl; try discriminate.
    + reflexivity.
    + intros H. apply andb_true_iff in H as [Hx Hr].
      apply N.eqb_eq in Hx. apply IH in Hr. now subst.
  - intros ->. apply eqb_refl.
Qed.

Lemma eqb_neq (a b : Py.str) : Py.eqb a b = false <-> a <> b.
Proof.
  rewrite <- eqb_eq. destruct (Py.eqb a b); split; congruence.
Qed.

Lemma eqb_sym (a b : Py.str) : Py.eqb a b = Py.eqb b a.
Proof.
  destruct (Py.eqb a b) eqn:E.
  - apply eqb_eq in E. subst. symmetry. apply eqb_refl.
  - symmetry. apply eqb_neq. apply eqb_neq in E. congruence.
Qed.

Lemma mem_In (x : Py.str) (l : list Py.str) : Py.mem x l = true <-> In x l.
Proof.
  unfold Py.mem. rewrite existsb_exists. split.
  - intros (y & Hy & E). apply eqb_eq in E. now subst.
  - intros H. exists x. split; [assumption | apply eqb_refl].
Qed.

Lemma mem_not_In (x : Py.str) (l : list Py.str) :
  Py.mem x l = false <-> ~ In x l.
Proof.
  rewrite <- mem_In. destruct (Py.mem x l); split; congruence.
Qed.

Lemma startswith_app (p r : Py.str) : Py.startswith p (p ++ r) = true.
Proof.
  induction p as [|x p IH]; simpl; [reflexivity|].
  now rewrite N.eqb_refl, IH.
Qed.

Lemma startswith_spec (p s : Py.str) :
  Py.startswith p s = true <-> exists r, s = p ++ r.
Proof.
  split.
  - revert s; induction p as [|x p IH]; intros s H.
    + now exists s.
    + destruct s as [|y s]; simpl in H; [discriminate|].
      apply andb_true_iff in H as [Hx Hr]. apply N.eqb_eq in Hx. subst y.
      destruct (IH _ Hr) as [r ->]. now exists r.
  - intros [r ->]. apply startswith_app.
Qed.

Lemma startswith_char (a : N) (s : Py.str) :
  Py.startswith [a] s = true <-> exists r, s = a :: r.
Proof. apply (startswith_spec [a] s). Qed.

Lemma contains_startswith (p s : Py.str) :
  Py.startswith p s = true -> Py.contains p s = true.
Proof. intros H. destruct s; simpl; rewrite H; reflexivity. Qed.

(** [contains] is the substring relation. *)
Lemma contains_spec (p s : Py.str) :
  Py.contains p s = true <-> exists pre post, s = pre ++ p ++ post.
Proof.
  split.
  - induction s as [|c s IH]; simpl; intros H.
    + rewrite orb_false_r in H. apply startswith_spec in H as [r Hr].
      now exists [], r.
    + apply orb_true_iff in H as [H|H].
      * apply startswith_spec in H as [r Hr]. now exists [], r.
      * destruct (IH H) as (pre & post & ->). now exists (c :: pre), post.
  - intros (pre & post & ->). induction pre as [|c pre IH].
    + apply contains_startswith. apply (startswith_app p post).
    + simpl. simpl in IH. rewrite IH. apply orb_true_r.
Qed.

Lemma contains_char (a : N) (s : Py.str) :
  Py.contains [a] s = true <-> In a s.
Proof.
  rewrite contains_spec. split.
  - intros (pre & post & ->). apply in_or_app. right. now left.
  - intros H. apply in_split in H as (pre & post & ->). now exists pre, post.
Qed.

(** Replacing a single code point works code point by code point. *)
Lemma replace_char (a : N) (new s : Py.str) :
  Py.replace [a] new s = flat_map (fun c => if N.eqb c a then new else [c]) s.
Proof.
  unfold Py.replace. induction s as [|c s IH]; simpl; [reflexivity|].
  rewrite N.eqb_sym. destruct (N.eqb c a); simpl; now rewrite IH.
Qed.

Lemma replace_char_map (a b : N) (s : Py.str) :
  Py.replace [a] [b] s = map (fun c => if N.eqb c a then b else c) s.
Proof.
  rewrite replace_char. induction s as [|c s IH]; simpl; [reflexivity|].
  rewrite IH. now destruct (N.eqb c a).
Qed.

Lemma replace_char_filter (a : N) (s : Py.str) :
  Py.replace [a] [] s = filter (fun c => negb (N.eqb c a)) s.
Proof.
  rewrite replace_char. induction s as [|c s IH]; simpl; [reflexivity|].
  rewrite IH. now destruct (N.eqb c a).
Qed.

Lemma replace_char_absent (a : N) (new s : Py.str) :
  ~ In a s -> Py.replace [a] new s = s.
Proof.
  rewrite replace_char. induction s as [|c s IH]; simpl; intros H; [reflexivity|].
  destruct (N.eqb_spec c a) as [->|_].
  - exfalso. apply H. now left.
  - simpl. f_equal. apply IH. intros H'. apply H. now right.
Qed.

(** [split1] at a single code point cuts at its first occurrence. *)
Lemma split1_go_char (a : N) (k v acc : Py.str) :
  ~ In a k ->
  Py.split1_go [a] acc (k ++ a :: v) = Some (rev acc ++ k, v).
Proof.
  revert acc. induction k as [|c k IH]; intros acc H; simpl.
  - rewrite N.eqb_refl. simpl. now rewrite app_nil_r.
  - destruct (N.eqb_spec a c) as [->|_].
    + exfalso. apply H. now left.
    + simpl. rewrite IH.
      * simpl. now rewrite <- app_assoc.
      * intros H'. apply H. now right.
Qed.

Lemma split1_char (a : N) (k v : Py.str) :
  ~ In a k -> Py.split1 [a] (k ++ a :: v) = Some (k, v).
Proof. intros H. unfold Py.split1. now rewrite split1_go_char. Qed.

Lemma split1_char_inv (a : N) (s k v : Py.str) :
  Py.split1 [a] s = Some (k, v) -> s = k ++ a :: v /\ ~ In a k.
Proof.
  unfold Py.split1.
  enough (forall acc, Py.split1_go [a] acc s = Some (k, v) ->
            exists k', k = rev acc ++ k' /\ s = k' ++ a :: v /\ ~ In a k') as G.
  { intros H. destruct (G [] H) as (k' & -> & -> & Hn). now split. }
  induction s as [|c s IH]; intros acc H; simpl in H; [discriminate|].
  destruct (N.eqb_spec a c) as [->|Hne]; simpl in H.
  - injection H as <- <-. exists []. rewrite app_nil_r. repeat split. now intros [].
  - destruct (IH _ H) as (k' & -> & -> & Hn). exists (c :: k'). simpl.
    rewrite <- app_assoc. repeat split. intros [E|E]; [congruence | now apply Hn].
Qed.

(** Where the separator occurs, [split1] finds it. *)
Lemma split1_go_contains (p s acc : Py.str) :
  Py.contains p s = true -> exists kv, Py.split1_go p acc s = Some kv.
Proof.
  revert acc. induction s as [|c s IH]; intros acc H; simpl in *.
  - rewrite orb_false_r in H. rewrite H. eauto.
  - destruct (Py.startswith p (c :: s)); [eauto|]. simpl in H. now apply IH.
Qed.

Lemma split1_contains (p s : Py.str) :
  Py.contains p s = true -> exists k v, Py.split1 p s = Some (k, v).
Proof.
  intros H. destruct (split1_go_contains p s [] H) as [[k v] E]. now exists k, v.
Qed.

End PyFacts.

(* ================================================================== *)
(** * Facts about [strip] *)

Module StripFacts.

Import Strip.

Lemma lstrip_fixed (s : Py.str) : head_ok s = true -> Py.lstrip s = s.
Proof.
  destruct s as [|c s]; simpl; [reflexivity|].
  now destruct (Py.isspace c).
Qed.

Lemma head_ok_lstrip (s : Py.str) : head_ok (Py.lstrip s) = true.
Proof.
  induction s as [|c s IH]; simpl; [reflexivity|].
  destruct (Py.isspace c) eqn:E; [assumption|]. simpl. now rewrite E.
Qed.

Lemma lstrip_split (s : Py.str) :
  exists ws, s = ws ++ Py.lstrip s /\ forallb Py.isspace ws = true.
Proof.
  induction s as [|c s (ws & E & Hws)]; simpl.
  - now exists [].
  - destruct (Py.isspace c) eqn:Ec.
    + exists (c :: ws). simpl. rewrite Ec, Hws. split; [now f_equal | reflexivity].
    + now exists [].
Qed.

Lemma rstrip_split (s : Py.str) :
  exists ws, s = Py.rstrip s ++ ws /\ forallb Py.isspace ws = true.
Proof.
  unfold Py.rstrip. destruct (lstrip_split (rev s)) as (ws & E & Hws).
  exists (rev ws). split.
  - rewrite <- rev_app_distr, <- E. symmetry. apply rev_involutive.
  - rewrite forallb_forall in *. intros c Hc. apply Hws. now apply in_rev.
Qed.

Lemma strip_split (s : Py.str) :
  exists a b, s = a ++ Py.strip s ++ b
              /\ forallb Py.isspace a = true /\ forallb Py.isspace b = true.
Proof.
  unfold Py.strip.
  destruct (lstrip_split s) as (a & Ea & Ha).
  destruct (rstrip_split (Py.lstrip s)) as (b & Eb & Hb).
  exists a, b. repeat split; try assumption.
  rewrite <- Eb. exact Ea.
Qed.

Lemma In_strip (c : N) (s : Py.str) : In c (Py.strip s) -> In c s.
Proof.
  intros H. destruct (strip_split s) as (a & b & E & _). rewrite E.
  apply in_or_app. right. apply in_or_app. now left.
Qed.

Lemma head_ok_rstrip (s : Py.str) :
  head_ok s = true -> head_ok (Py.rstrip s) = true.
Proof.
  intros H. destruct (rstrip_split s) as (ws & E & _).
  destruct (Py.rstrip s) as [|c r]; [reflexivity|].
  rewrite E in H. exact H.
Qed.

Lemma strip_trimmed (s : Py.str) : trimmed (Py.strip s).
Proof.
  split.
  - unfold Py.strip. apply head_ok_rstrip, head_ok_lstrip.
  - unfold Py.strip, Py.rstrip. rewrite rev_involutive. apply head_ok_lstrip.
Qed.

Lemma trimmed_strip (s : Py.str) : trimmed s -> Py.strip s = s.
Proof.
  intros [H1 H2]. unfold Py.strip, Py.rstrip.
  rewrite (lstrip_fixed s H1), (lstrip_fixed (rev s) H2).
  apply rev_involutive.
Qed.

Lemma strip_idempotent (s : Py.str) : Py.strip (Py.strip s) = Py.strip s.
Proof. apply trimmed_strip, strip_trimmed. Qed.

Lemma head_ok_nospace (s : Py.str) :
  forallb (fun c => negb (Py.isspace c)) s = true -> head_ok s = true.
Proof.
  destruct s as [|c s]; simpl; [reflexivity|].
  intros H. now apply andb_true_iff in H as [H _].
Qed.

Lemma nospace_trimmed (s : Py.str) :
  forallb (fun c => negb (Py.isspace c)) s = true -> trimmed s.
Proof.
  intros H. split; apply head_ok_nospace; [assumption|].
  rewrite forallb_forall in *. intros c Hc. apply H. now apply in_rev.
Qed.

(** A code-point map that keeps non-space code points non-space keeps a
    string trimmed. *)
Lemma head_ok_map (f : N -> N) (s : Py.str) :
  (forall c, Py.isspace c = false -> Py.isspace (f c) = false) ->
  head_ok s = true -> head_ok (map f s) = true.
Proof.
  intros Hf. destruct s as [|c s]; simpl; [reflexivity|].
  intros H. apply negb_true_iff in H. now rewrite (Hf c H).
Qed.

Lemma trimmed_map (f : N -> N) (s : Py.str) :
  (forall c, Py.isspace c = false -> Py.isspace (f c) = false) ->
  trimmed s -> trimmed (map f s).
Proof.
  intros Hf [H1 H2]. split.
  - now apply head_ok_map.
  - rewrite <- map_rev. now apply head_ok_map.
Qed.

Lemma strip_all_space (s : Py.str) :
  forallb Py.isspace s = true -> Py.strip s = [].
Proof.
  intros H. unfold Py.strip.
  assert (E : Py.lstrip s = []).
  { induction s as [|c s IH]; simpl in *; [reflexivity|].
    apply andb_true_iff in H as [Hc Hs]. rewrite Hc. now apply IH. }
  now rewrite E.
Qed.

End StripFacts.

(* ================================================================== *)
(** * Name normalisation ([convertHumanNameToDotNodeName]) *)

Module NodeIdFacts.

Import NodeId.

Import PyFacts Strip StripFacts.

Lemma convert_unfold (name : Py.str) :
  convertHumanNameToDotNodeName name =
  map quote_to_underscore
    (Py.strip (filter not_hyphen
       (Py.strip (map space_to_underscore (Py.strip name))))).
Proof.
  unfold convertHumanNameToDotNodeName.
  change (Py.lit " ") with [32%N]. change (Py.lit "_") with [95%N].
  change (Py.lit "-") with [45%N].
  now rewrite !replace_char_map, replace_char_filter.
Qed.

Lemma quote_to_underscore_nospace (c : N) :
  Py.isspace c = false -> Py.isspace (quote_to_underscore c) = false.
Proof.
  unfold quote_to_underscore. now destruct (N.eqb c Py.QUOTE).
Qed.

Lemma convert_trimmed (name : Py.str) :
  trimmed (convertHumanNameToDotNodeName name).
Proof.
  rewrite convert_unfold. apply trimmed_map.
  - apply quote_to_underscore_nospace.
  - apply strip_trimmed.
Qed.

Lemma convert_no_space (name : Py.str) :
  ~ In 32%N (convertHumanNameToDotNodeName name).
Proof.
  rewrite convert_unfold. intros H.
  apply in_map_iff in H as (c & Hc & Hin).
  assert (c = 32%N) as ->.
  { unfold quote_to_underscore in Hc.
    destruct (N.eqb c Py.QUOTE); [discriminate | assumption]. }
  apply In_strip, filter_In in Hin as [Hin _].
  apply In_strip, in_map_iff in Hin as (d & Hd & _).
  unfold space_to_underscore in Hd.
  destruct (N.eqb_spec d 32); [discriminate | congruence].
Qed.

Lemma convert_no_hyphen (name : Py.str) :
  ~ In 45%N (convertHumanNameToDotNodeName name).
Proof.
  rewrite convert_unfold. intros H.
  apply in_map_iff in H as (c & Hc & Hin).
  assert (c = 45%N) as ->.
  { unfold quote_to_underscore in Hc.
    destruct (N.eqb c Py.QUOTE); [discriminate | assumption]. }
  apply In_strip, filter_In in Hin as [_ Hin]. discriminate.
Qed.

Lemma convert_no_quote (name : Py.str) :
  ~ In Py.QUOTE (convertHumanNameToDotNodeName name).
Proof.
  rewrite convert_unfold. intros H.
  apply in_map_iff in H as (c & Hc & _).
  unfold quote_to_underscore in Hc.
  destruct (N.eqb_spec c Py.QUOTE); [discriminate | congruence].
Qed.

(** A string that is trimmed and holds none of the three code points is
    left as it is. *)
Lemma convert_fixed (s : Py.str) :
  trimmed s -> ~ In 32%N s -> ~ In 45%N s -> ~ In Py.QUOTE s ->
  convertHumanNameToDotNodeName s = s.
Proof.
  intros Ht Hs Hh Hq. unfold convertHumanNameToDotNodeName.
  change (Py.lit " ") with [32%N]. change (Py.lit "-") with [45%N].
  rewrite (trimmed_strip s Ht), (replace_char_absent 32 _ s Hs).
  rewrite (trimmed_strip s Ht), (replace_char_absent 45 _ s Hh).
  rewrite (trimmed_strip s Ht). now apply replace_char_absent.
Qed.

Lemma convert_idempotent (name : Py.str) :
  convertHumanNameToDotNodeName (convertHumanNameToDotNodeName name)
  = convertHumanNameToDotNodeName name.
Proof.
  apply convert_fixed.
  - apply convert_trimmed.
  - apply convert_no_space.
  - apply convert_no_hyphen.
  - apply convert_no_quote.
Qed.

Lemma compose_cp (t : Py.str) :
  map quote_to_underscore (filter not_hyphen (map space_to_underscore t))
  = flat_map nodeId_cp t.
Proof.
  induction t as [|c t IH]; [reflexivity|].
  cbn [map filter flat_map]. rewrite <- IH.
  unfold nodeId_cp, not_hyphen at 1, space_to_underscore at 1 2.
  destruct (N.eqb_spec c 32) as [->|H32]; [reflexivity|].
  destruct (N.eqb_spec c 45) as [->|H45]; [reflexivity|].
  cbn [negb map]. unfold quote_to_underscore at 1.
  now destruct (N.eqb c Py.QUOTE).
Qed.

Lemma convert_plain (name : Py.str) :
  plain_spaces name = true ->
  convertHumanNameToDotNodeName name = flat_map nodeId_cp (Py.strip name).
Proof.
  intros H. rewrite convert_unfold, <- compose_cp.
  assert (Ht : forall c, In c (Py.strip name) ->
                 Py.isspace c = false \/ c = 32%N).
  { intros c Hc. apply In_strip in Hc.
    unfold plain_spaces in H. rewrite forallb_forall in H.
    specialize (H c Hc). apply orb_true_iff in H as [H|H].
    - left. now apply negb_true_iff.
    - right. now apply N.eqb_eq. }
  assert (H1 : forallb (fun c => negb (Py.isspace c))
                 (map space_to_underscore (Py.strip name)) = true).
  { apply forallb_forall. intros c Hc.
    apply in_map_iff in Hc as (d & <- & Hd). unfold space_to_underscore.
    destruct (N.eqb_spec d 32) as [->|Hne]; [reflexivity|].
    destruct (Ht d Hd) as [E|E]; [now rewrite E | contradiction]. }
  rewrite (trimmed_strip _ (nospace_trimmed _ H1)).
  assert (H2 : forallb (fun c => negb (Py.isspace c))
                 (filter not_hyphen (map space_to_underscore (Py.strip name)))
               = true).
  { rewrite forallb_forall in *. intros c Hc.
    apply filter_In in Hc as [Hc _]. now apply H1. }
  now rewrite (trimmed_strip _ (nospace_trimmed _ H2)).
Qed.

End NodeIdFacts.

(** C2, as stated, fails: the quotation mark is not removed but becomes an
    underscore, so the derived nodeId of a valid, trimmed full name differs
    from the one the specification describes. *)
Lemma C2_quote_not_removed :
  name_matches Py.ascii_runtime name_with_quote = true /\
  Py.strip name_with_quote = name_with_quote /\
  convertHumanNameToDotNodeName name_with_quote = `"O_Brien" /\
  NodeId.nodeId_as_specified name_with_quote = `"OBrien" /\
  convertHumanNameToDotNodeName name_with_quote
    <> NodeId.nodeId_as_specified name_with_quote.
Proof.
  repeat split; try reflexivity. vm_compute. discriminate.
Qed.

(** C2, amended: the nodeId is obtained from the trimmed name by replacing
    spaces with underscores, removing hyphens and replacing the quotation
    mark U+2018 with an underscore (for names whose only white space is the
    plain space, as every name matching the name pattern is); for every
    name, deriving the nodeId again from a nodeId gives the same nodeId, and
    a nodeId holds no space, no hyphen and no such quotation mark. *)
Theorem C2_nodeId_derivation (name : Py.str) :
  (NodeId.plain_spaces name = true ->
   convertHumanNameToDotNodeName name
   = flat_map NodeId.nodeId_cp (Py.strip name)) /\
  convertHumanNameToDotNodeName (convertHumanNameToDotNodeName name)
  = convertHumanNameToDotNodeName name /\
  ~ In 32%N (convertHumanNameToDotNodeName name) /\
  ~ In 45%N (convertHumanNameToDotNodeName name) /\
  ~ In Py.QUOTE (convertHumanNameToDotNodeName name).
Proof.
  split; [apply NodeIdFacts.convert_plain|].
  split; [apply NodeIdFacts.convert_idempotent|].
  split; [apply NodeIdFacts.convert_no_space|].
  split; [apply NodeIdFacts.convert_no_hyphen | apply NodeIdFacts.convert_no_quote].
Qed.

Lemma C2_nodeId_derivation_witness :
  NodeId.plain_spaces (`" Mary-Jane " ++ name_with_quote ++ `" ") = true /\
  convertHumanNameToDotNodeName (`" Mary-Jane " ++ name_with_quote ++ `" ")
  = `"MaryJane_O_Brien".
Proof.
  split; [reflexivity|].
  rewrite (proj1 (C2_nodeId_derivation (`" Mary-Jane " ++ name_with_quote ++ `" ")));
    reflexivity.
Defined.

(* ================================================================== *)
(** * Attribute reads ([Person.getAttribute]) *)

Module AttributeFacts.

Import Attribute.

Import PyFacts Strip StripFacts.

Lemma replace_twice (rawValue : Py.str) :
  Py.replace `"|" `" " (Py.replace `"&" `"&amp;" rawValue)
  = flat_map sanitize_cp rawValue.
Proof.
  change (Py.lit "|") with [124%N]. change (Py.lit "&") with [38%N].
  rewrite !replace_char.
  induction rawValue as [|c r IH]; [reflexivity|].
  cbn [flat_map]. rewrite flat_map_app, IH. f_equal.
  unfold sanitize_cp.
  destruct (N.eqb_spec c 38) as [->|H38]; [reflexivity|].
  cbn [flat_map]. destruct (N.eqb c 124); reflexivity.
Qed.

Lemma getAttribute_sanitized (p : Person) (key : Py.str) :
  getAttribute p key =
  match Dict.get key (attributes p) with
  | Some rawValue =>
      match sanitized rawValue with
      | [] => placeholder key
      | safeValue => safeValue
      end
  | None => placeholder key
  end.
Proof.
  unfold getAttribute, sanitized, placeholder.
  destruct (Dict.get key (attributes p)) as [raw|]; [|reflexivity].
  rewrite replace_twice.
  now destruct (Py.strip (flat_map sanitize_cp raw)).
Qed.

Lemma sanitize_space (rawValue : Py.str) :
  forallb Py.isspace rawValue = true -> sanitized rawValue = [].
Proof.
  intros H. unfold sanitized. apply strip_all_space.
  rewrite forallb_forall in *. intros c Hc.
  apply in_flat_map in Hc as (d & Hd & Hc). specialize (H d Hd).
  unfold sanitize_cp in Hc.
  destruct (N.eqb_spec d 38) as [->|_]; [discriminate|].
  destruct (N.eqb_spec d 124) as [->|_]; [discriminate|].
  destruct Hc as [<-|[]]. exact H.
Qed.

Lemma getAttribute_missing (p : Person) (key : Py.str) :
  Dict.get key (attributes p) = None -> getAttribute p key = placeholder key.
Proof. intros H. unfold getAttribute. now rewrite H. Qed.

End AttributeFacts.

Lemma substring_here (x post : Py.str) : substring x (x ++ post).
Proof. now exists [], post. Qed.

Lemma substring_app_l (x s t : Py.str) : substring x s -> substring x (s ++ t).
Proof.
  intros (pre & post & ->). exists pre, (post ++ t).
  now rewrite <- !app_assoc.
Qed.

Lemma substring_app_r (x s t : Py.str) : substring x s -> substring x (t ++ s).
Proof.
  intros (pre & post & ->). exists (t ++ pre), post.
  now rewrite <- !app_assoc.
Qed.

Create HintDb substr.
#[local] Hint Resolve substring_here substring_app_l substring_app_r : substr.

Ltac run_eff := unfold bind, ret, raise, logging, lift; cbn [fst snd].
Ltac step_eff := unfold lift, bind, ret, raise, logging; cbv beta iota.

Lemma getPersonLabelAsDot_title (rt : Py.Runtime) (args : Args) (p : Person)
  (l : log) :
  exists label l',
    getPersonLabelAsDot rt args p l = (Ok label, l')
    /\ substring (getAttribute p `"title") label.
Proof.
  unfold getPersonLabelAsDot. run_eff.
  destruct (args_profilePictures args);
    [destruct (Py.path_exists rt _)|];
    destruct (hasAttribute p _); destruct (Py.eqb (args_vizType args) _);
    eexists; eexists; (split; [reflexivity|]); auto 20 with substr.
Qed.

(** C10: the attribute read replaces [&] by [&amp;] and [|] by a space and
    trims the result; when the key is absent or the sanitized value is empty
    (as it is for a stored value of white space only) the read gives the
    placeholder ["Unknown: " + key]; the label of a person shows the [title]
    attribute through this read. *)
Theorem C10_getAttribute_sanitizes (p : Person) (key : Py.str) :
  getAttribute p key =
    match Dict.get key (attributes p) with
    | Some rawValue =>
        match Attribute.sanitized rawValue with
        | [] => `"Unknown: " ++ key
        | safeValue => safeValue
        end
    | None => `"Unknown: " ++ key
    end
  /\ (forall rawValue,
        Dict.get key (attributes p) = Some rawValue ->
        forallb Py.isspace rawValue = true ->
        getAttribute p key = `"Unknown: " ++ key)
  /\ (forall rt args l, exists label l',
        getPersonLabelAsDot rt args p l = (Ok label, l')
        /\ substring (getAttribute p `"title") label).
Proof.
  split; [apply AttributeFacts.getAttribute_sanitized|]. split.
  - intros raw Hget Hsp. rewrite AttributeFacts.getAttribute_sanitized, Hget.
    now rewrite (AttributeFacts.sanitize_space raw Hsp).
  - intros rt args l. apply getPersonLabelAsDot_title.
Qed.

Lemma C10_getAttribute_sanitizes_witness :
  getAttribute person_blank_note `"note" = `"Unknown: note"
  /\ getAttribute person_blank_note `"title" = `"R&amp;D   Ops".
Proof.
  split.
  - apply (proj1 (proj2 (C10_getAttribute_sanitizes person_blank_note `"note"))
             (`"  " ++ [Py.TAB])); reflexivity.
  - rewrite (proj1 (C10_getAttribute_sanitizes person_blank_note `"title")).
    reflexivity.
Defined.

(* ================================================================== *)
(** * The filter predicate ([isPersonExcluded]) *)

Module Filter.

Import PyFacts.

Lemma contains_substring (x s : Py.str) :
  Py.contains x s = true <-> substring x s.
Proof. apply contains_spec. Qed.

(** A non-empty list constrains, an empty one does not. *)
Lemma axis_passes (x : Py.str) (allowed : list Py.str) :
  (0 <? length allowed) && negb (Py.mem x allowed) = false
  <-> allowed = [] \/ In x allowed.
Proof.
  destruct allowed as [|a allowed].
  - split; [now left | reflexivity].
  - change (0 <? length (a :: allowed)) with true. rewrite andb_true_l.
    rewrite negb_false_iff, mem_In. split; [now right|].
    intros [H|H]; [discriminate | assumption].
Qed.

Lemma guarded_existsb {A} (f : A -> bool) (l : list A) :
  (0 <? length l) && existsb f l = false <-> forall x, In x l -> f x = false.
Proof.
  destruct l as [|a l].
  - split; [intros _ x [] | reflexivity].
  - change (0 <? length (a :: l)) with true. rewrite andb_true_l.
    split.
    + intros H x Hx. destruct (f x) eqn:E; [|reflexivity].
      rewrite <- H. symmetry. apply existsb_exists. now exists x.
    + intros H. destruct (existsb f (a :: l)) eqn:E; [|reflexivity].
      apply existsb_exists in E as (x & Hx & Hf). now rewrite (H x Hx) in Hf.
Qed.

(** One criterion lets the person pass when it has no [=], or when the
    trimmed text after its first [=] occurs in the attribute read under the
    trimmed text before it. *)
Lemma attributeSearch_passes (p : Person) (c : Py.str) :
  attributeSearch_fails p c = false <->
  forall k v, c = k ++ `"=" ++ v -> ~ In 61%N k ->
              substring (Py.strip v) (getAttribute p (Py.strip k)).
Proof.
  unfold attributeSearch_fails. change (Py.lit "=") with [61%N].
  destruct (Py.contains [61%N] c) eqn:Ec; cbn [negb].
  - destruct (split1_contains _ _ Ec) as (k & v & E). rewrite E.
    apply split1_char_inv in E as [-> Hk].
    rewrite negb_false_iff, contains_substring. split.
    + intros H k' v' E' Hk'.
      assert (Some (k, v) = Some (k', v')) as [= <- <-]; [|assumption].
      rewrite <- (split1_char 61 k v Hk), E'.
      now apply (split1_char 61 k' v').
    + intros H. now apply H.
  - split; [|reflexivity]. intros _ k v -> _. exfalso.
    assert (Py.contains [61%N] (k ++ [61%N] ++ v) = true); [|congruence].
    apply contains_spec. now exists k, v.
Qed.

Lemma isPersonExcluded_false (args : Args) (p : Person) :
  isPersonExcluded args p = false <->
  (forall c, In c (args_attributeMatches args) ->
             attributeSearch_fails p c = false)
  /\ (args_teams args = [] \/ In (team p) (args_teams args))
  /\ (args_influence args = [] \/ In (influence p) (args_influence args)).
Proof.
  unfold isPersonExcluded.
  rewrite <- guarded_existsb, <- !axis_passes.
  destruct (_ && existsb _ _); [intuition discriminate|].
  destruct (_ && negb (Py.mem (team p) _)); [intuition discriminate|].
  destruct (_ && negb (Py.mem (influence p) _)); intuition discriminate.
Qed.

End Filter.

(** C6: a person is not excluded exactly when the three axes pass: every
    criterion [key=substring] (cut at its first [=], both sides trimmed)
    finds the substring in the attribute read, the person's team is among the
    allowed teams, and the person's influence is among the allowed
    influences; an empty list leaves its axis unconstrained, and an
    attribute read under a missing key gives the placeholder. *)
Theorem C6_isPersonExcluded_axes (args : Args) (p : Person) :
  (isPersonExcluded args p = false <->
     (forall k v, In (k ++ `"=" ++ v) (args_attributeMatches args) ->
                  ~ In 61%N k ->
                  substring (Py.strip v) (getAttribute p (Py.strip k)))
     /\ (args_teams args = [] \/ In (team p) (args_teams args))
     /\ (args_influence args = [] \/ In (influence p) (args_influence args)))
  /\ (forall key, Dict.get key (attributes p) = None ->
                  getAttribute p key = `"Unknown: " ++ key).
Proof.
  split; [|apply AttributeFacts.getAttribute_missing].
  rewrite Filter.isPersonExcluded_false. split.
  - intros (Ha & Ht & Hi). repeat split; try assumption.
    intros k v Hin Hk.
    exact (proj1 (Filter.attributeSearch_passes p _) (Ha _ Hin) k v eq_refl Hk).
  - intros (Ha & Ht & Hi). repeat split; try assumption.
    intros c Hin. apply Filter.attributeSearch_passes.
    intros k v -> Hk. now apply Ha.
Qed.

Lemma C6_isPersonExcluded_axes_witness :
  isPersonExcluded args_team_Eng person_engineer = false
  /\ substring `"Eng" (getAttribute person_engineer `"title")
  /\ In (team person_engineer) (args_teams args_team_Eng)
  /\ getAttribute person_engineer `"country" = `"Unknown: country".
Proof.
  pose proof (C6_isPersonExcluded_axes args_team_Eng person_engineer)
    as [Hiff Hmiss].
  split; [reflexivity|].
  destruct (proj1 Hiff eq_refl) as (Ha & Ht & _).
  split; [|split].
  - apply (Ha `"title " `" Eng").
    + left. reflexivity.
    + vm_compute. intuition discriminate.
  - destruct Ht as [Ht|Ht]; [discriminate | exact Ht].
  - apply Hmiss. reflexivity.
Defined.

(* ================================================================== *)
(** * Field coercion ([setDmu], [setSentiment]) *)

Module CoercionFacts.

Import Coercion.

Import PyFacts.

Ltac split_aliases H :=
  unfold Py.mem in H; cbn [existsb] in H;
  repeat (apply orb_false_iff in H as [? H]).

Lemma setDmu_unknown (rt : Py.Runtime) (p : Person) (v : Py.str) (l : log) :
  Py.mem (Py.strip (Py.upper rt v)) dmu_aliases = false ->
  setDmu rt p v l
  = (Ok (with_dmu p `"U"), l ++ [dmu_warning p (Py.strip (Py.upper rt v))]).
Proof.
  intros H. unfold dmu_aliases in H. split_aliases H.
  unfold setDmu, Py.mem. cbn [existsb].
  repeat match goal with E : Py.eqb _ _ = false |- _ => rewrite E; clear E end.
  reflexivity.
Qed.

Lemma setSentiment_unknown (rt : Py.Runtime) (p : Person) (v : Py.str)
  (l : log) :
  Py.mem (Py.strip (Py.upper rt v)) sentiment_aliases = false ->
  setSentiment rt p v l
  = (Ok (with_sentiment p `"N"),
     l ++ [sentiment_warning p (Py.strip (Py.upper rt v))]).
Proof.
  intros H. unfold sentiment_aliases in H. split_aliases H.
  unfold setSentiment, Py.mem. cbn [existsb].
  repeat match goal with E : Py.eqb _ _ = false |- _ => rewrite E; clear E end.
  reflexivity.
Qed.

(** The setters never raise. *)
Lemma setDmu_ok (rt : Py.Runtime) (p : Person) (v : Py.str) (l : log) :
  exists p' l', setDmu rt p v l = (Ok p', l').
Proof.
  unfold setDmu. run_eff.
  repeat match goal with
         | |- context [if ?b then _ else _] =>
             destruct b; [eexists; eexists; reflexivity|]
         end.
  eexists; eexists; reflexivity.
Qed.

Lemma setSentiment_ok (rt : Py.Runtime) (p : Person) (v : Py.str) (l : log) :
  exists p' l', setSentiment rt p v l = (Ok p', l').
Proof.
  unfold setSentiment. run_eff.
  repeat match goal with
         | |- context [if ?b then _ else _] =>
             destruct b; [eexists; eexists; reflexivity|]
         end.
  eexists; eexists; reflexivity.
Qed.

Lemma the_lastPerson_ok (model : Model) (key : Py.str) (person : Person)
  (l : log) :
  lastPerson model = Some key ->
  Dict.get key (people model) = Some person ->
  the_lastPerson model l = (Ok person, l).
Proof. intros H1 H2. unfold the_lastPerson. now rewrite H1, H2. Qed.

Lemma addTeam_lastPerson (model : Model) (t : Py.str) (l : log) :
  the_lastPerson (addTeam model t) l = the_lastPerson model l.
Proof. reflexivity. Qed.

(** Once a person has been declared, a property line never raises. *)
Lemma parsePersonProperty_ok (rt : Py.Runtime) (model : Model)
  (key : Py.str) (person : Person) (line : Py.str) (l : log) :
  lastPerson model = Some key ->
  Dict.get key (people model) = Some person ->
  Py.contains `":" line = true ->
  exists model' l', parsePersonProperty rt model line l = (Ok model', l').
Proof.
  intros H1 H2 Hc. unfold parsePersonProperty.
  destruct (split1_contains _ _ Hc) as (k & v & ->).
  repeat match goal with
         | |- context [if Py.eqb ?a ?b then _ else _] => destruct (Py.eqb a b)
         end; unfold bind;
    rewrite ?addTeam_lastPerson, (the_lastPerson_ok model key person l H1 H2).
  - eexists; eexists; reflexivity.
  - destruct (setSentiment_ok rt person (Py.strip v) l) as (p' & l' & ->).
    eexists; eexists; reflexivity.
  - destruct (setDmu_ok rt person (Py.strip v) l) as (p' & l' & ->).
    eexists; eexists; reflexivity.
  - eexists; eexists; reflexivity.
  - eexists; eexists; reflexivity.
Qed.

End CoercionFacts.

Module PropertyLine.

Import PyFacts Coercion CoercionFacts.

(** A property line [dmu: v] whose value is no alias. *)
Lemma dmu_unknown (rt : Py.Runtime) (model : Model) (key : Py.str)
  (person : Person) (k v : Py.str) (l : log) :
  lastPerson model = Some key ->
  Dict.get key (people model) = Some person ->
  ~ In 58%N k ->
  Py.lower rt (Py.strip k) = `"dmu" ->
  Py.mem (Py.strip (Py.upper rt (Py.strip v))) dmu_aliases = false ->
  parsePersonProperty rt model (k ++ `":" ++ v) l
  = (Ok (update_lastPerson model (with_dmu person `"U")),
     l ++ [dmu_warning person (Py.strip (Py.upper rt (Py.strip v)))]).
Proof.
  intros H1 H2 Hk Hkey Hv. unfold parsePersonProperty.
  change (k ++ Py.lit ":" ++ v) with (k ++ 58%N :: v).
  change (Py.lit ":") with [58%N].
  rewrite (split1_char 58 k v Hk), Hkey.
  change (Py.eqb (Py.lit "dmu") (Py.lit "influence")) with false.
  change (Py.eqb (Py.lit "dmu") (Py.lit "sentiment")) with false.
  change (Py.eqb (Py.lit "dmu") (Py.lit "dmu")) with true.
  cbv iota. unfold bind.
  rewrite (the_lastPerson_ok model key person l H1 H2).
  now rewrite (setDmu_unknown rt person (Py.strip v) l Hv).
Qed.

(** A property line [sentiment: v] whose value is no alias. *)
Lemma sentiment_unknown (rt : Py.Runtime) (model : Model) (key : Py.str)
  (person : Person) (k v : Py.str) (l : log) :
  lastPerson model = Some key ->
  Dict.get key (people model) = Some person ->
  ~ In 58%N k ->
  Py.lower rt (Py.strip k) = `"sentiment" ->
  Py.mem (Py.strip (Py.upper rt (Py.strip v))) sentiment_aliases = false ->
  parsePersonProperty rt model (k ++ `":" ++ v) l
  = (Ok (update_lastPerson model (with_sentiment person `"N")),
     l ++ [sentiment_warning person (Py.strip (Py.upper rt (Py.strip v)))]).
Proof.
  intros H1 H2 Hk Hkey Hv. unfold parsePersonProperty.
  change (k ++ Py.lit ":" ++ v) with (k ++ 58%N :: v).
  change (Py.lit ":") with [58%N].
  rewrite (split1_char 58 k v Hk), Hkey.
  change (Py.eqb (Py.lit "sentiment") (Py.lit "influence")) with false.
  change (Py.eqb (Py.lit "sentiment") (Py.lit "sentiment")) with true.
  cbv iota. unfold bind.
  rewrite (the_lastPerson_ok model key person l H1 H2).
  now rewrite (setSentiment_unknown rt person (Py.strip v) l Hv).
Qed.

(** A new person has the defaults [U] (User) and [N] (Neutral). *)
Lemma newPerson_defaults (rt : Py.Runtime) (name : Py.str) (l : log) :
  exists q l', newPerson rt name l = (Ok q, l')
               /\ dmu q = `"U" /\ sentiment q = `"N"
               /\ getDmuDescription q = `"User"
               /\ getSentimentDescription q = `"Neutral".
Proof.
  unfold newPerson. run_eff.
  destruct (name_matches rt (Py.strip name));
    eexists; eexists; (split; [reflexivity|]); repeat split.
Qed.

End PropertyLine.

(* ================================================================== *)
(** * The outline parser ([parseModel]) *)

Module ParserFacts.

Import Parser.

Import PyFacts.

Lemma keys_set {V} (k : Py.str) (v : V) (d : Dict.t V) :
  Dict.keys (Dict.set k v d) = add_key k (Dict.keys d).
Proof.
  unfold add_key, Py.mem. induction d as [|[k' v'] d IH]; [reflexivity|].
  cbn [Dict.set Dict.keys map fst existsb] in *.
  destruct (Py.eqb k k') eqn:E; [reflexivity|].
  cbn [map fst orb]. fold (Dict.keys d). fold (Dict.keys (Dict.set k v d)).
  rewrite IH. now destruct (existsb (Py.eqb k) (Dict.keys d)).
Qed.

Lemma addPerson_spec (rt : Py.Runtime) (model : Model) (line : Py.str)
  (l : log) :
  exists person l',
    addPerson rt model line l
    = (Ok {| title := title model;
             people := Dict.set (nodeId_of_line line) person (people model);
             edges := edges model; teams := teams model;
             lastPerson := Some (nodeId_of_line line) |}, l')
    /\ dotNodeName person = nodeId_of_line line
    /\ fullName person = Py.strip line.
Proof.
  unfold addPerson, newPerson. run_eff.
  destruct (name_matches rt (Py.strip line));
    eexists; eexists; (split; [reflexivity|]); split; reflexivity.
Qed.

Lemma parseLine_declaration (rt : Py.Runtime) (model : Model)
  (line : Py.str) (l : log) :
  is_declaration line = true ->
  parseLine rt model line l = addPerson rt model line l.
Proof.
  unfold is_declaration, parseLine. intros H.
  apply andb_true_iff in H as [H H3]. apply andb_true_iff in H as [H1 H2].
  apply negb_true_iff in H1, H2, H3. now rewrite H1, H2, H3.
Qed.

Lemma parseLine_blank (rt : Py.Runtime) (model : Model) (l : log) :
  parseLine rt model [] l = (Ok model, l).
Proof. reflexivity. Qed.

Lemma parseLines_declarations (rt : Py.Runtime) (lines : list Py.str) :
  forall (model : Model) (l : log),
  forallb (fun line => Py.eqb line [] || is_declaration line) lines = true ->
  exists m l',
    parseLines rt model lines l = (Ok m, l')
    /\ edges m = edges model
    /\ teams m = teams model
    /\ title m = title model
    /\ Dict.keys (people m)
       = distinct_from (Dict.keys (people model))
           (map nodeId_of_line (declarations lines)).
Proof.
  induction lines as [|line rest IH]; intros model l H.
  - exists model, l. repeat split.
  - cbn [forallb] in H. apply andb_true_iff in H as [Hl Hrest].
    cbn [parseLines]. unfold bind.
    destruct (Py.eqb line []) eqn:Eb.
    + apply eqb_eq in Eb. subst line. rewrite parseLine_blank.
      destruct (IH model l Hrest) as (m & l' & E & He & Ht & Hti & Hk).
      exists m, l'. repeat split; assumption.
    + cbn [orb] in Hl. rewrite (parseLine_declaration rt model line l Hl).
      destruct (addPerson_spec rt model line l) as (p & l1 & -> & _).
      match goal with |- context [parseLines rt ?m' rest l1] =>
        destruct (IH m' l1 Hrest) as (m & l' & E & He & Ht & Hti & Hk)
      end.
      exists m, l'. repeat split; try assumption.
      rewrite Hk. cbn [people]. rewrite keys_set.
      unfold declarations. cbn [filter]. unfold nonblank_nonindented at 2.
      rewrite Eb. unfold is_declaration in Hl. rewrite Eb in Hl.
      apply andb_true_iff in Hl as [_ Hl]. rewrite Hl. reflexivity.
Qed.

Lemma add_key_length (k : Py.str) (ks : list Py.str) :
  length (add_key k ks) <= S (length ks).
Proof.
  unfold add_key. destruct (Py.mem k ks); [lia|].
  rewrite length_app. simpl. lia.
Qed.

Lemma distinct_from_length (ids acc : list Py.str) :
  length (distinct_from acc ids) <= length acc + length ids.
Proof.
  revert acc. induction ids as [|k ids IH]; intros acc; simpl; [lia|].
  specialize (IH (add_key k acc)). pose proof (add_key_length k acc).
  unfold distinct_from in *. lia.
Qed.

Lemma distinct_from_NoDup (ids acc : list Py.str) :
  NoDup (acc ++ ids) -> distinct_from acc ids = acc ++ ids.
Proof.
  revert acc. induction ids as [|k ids IH]; intros acc H; simpl.
  - now rewrite app_nil_r.
  - assert (Hk : Py.mem k acc = false).
    { apply mem_not_In. intros Hin. apply NoDup_remove_2 in H.
      apply H. apply in_or_app. now left. }
    unfold add_key. rewrite Hk.
    change (fold_left (fun ks k0 => add_key k0 ks) ids (acc ++ [k]))
      with (distinct_from (acc ++ [k]) ids).
    rewrite IH; rewrite <- app_assoc; [reflexivity | exact H].
Qed.

Lemma keys_length {V} (d : Dict.t V) : length (Dict.keys d) = length d.
Proof. apply length_map. Qed.

End ParserFacts.

(** C3, as stated, fails: two declaration lines whose names give the same
    nodeId are stored under one key, so the person count is smaller than
    the number of non-blank, non-indented lines. *)
Lemma C3_duplicate_names_counted_once :
  forallb (fun line => Py.eqb line [] || Parser.is_declaration line)
    (Py.split Py.NL doc_alice_twice) = true
  /\ length (Parser.declarations (Py.split Py.NL doc_alice_twice)) = 2
  /\ exists m l,
       parseModel Py.ascii_runtime doc_alice_twice [] = (Ok m, l)
       /\ edges m = []
       /\ length (people m) = 1
       /\ length (people m)
          <> length (Parser.declarations (Py.split Py.NL doc_alice_twice)).
Proof.
  split; [reflexivity|]. split; [reflexivity|].
  eexists; eexists. split; [vm_compute; reflexivity|].
  cbn [edges people]. repeat split. vm_compute. discriminate.
Qed.

(** C3, amended: for a document of person-declaration lines only (no
    indented lines, no [@] directives), parsing succeeds, the edge sequence
    is empty and the keys of the person mapping are the distinct nodeIds of
    the non-blank, non-indented lines in order of first declaration; so the
    person count is at most the number of such lines, and equals it when
    their nodeIds are pairwise different. *)
Theorem C3_declarations_only (rt : Py.Runtime) (contents : Py.str) :
  forallb (fun line => Py.eqb line [] || Parser.is_declaration line)
    (Py.split Py.NL contents) = true ->
  exists m l,
    parseModel rt contents [] = (Ok m, l)
    /\ edges m = []
    /\ Dict.keys (people m)
       = Parser.distinct
           (map Parser.nodeId_of_line
              (Parser.declarations (Py.split Py.NL contents)))
    /\ length (people m)
       <= length (Parser.declarations (Py.split Py.NL contents))
    /\ (NoDup (map Parser.nodeId_of_line
                 (Parser.declarations (Py.split Py.NL contents))) ->
        length (people m)
        = length (Parser.declarations (Py.split Py.NL contents))).
Proof.
  intros H. unfold parseModel.
  destruct (ParserFacts.parseLines_declarations rt _ newModel [] H)
    as (m & l & E & He & _ & _ & Hk).
  exists m, l. split; [exact E|]. split; [exact He|]. split; [exact Hk|].
  rewrite <- (ParserFacts.keys_length (people m)), Hk. split.
  - pose proof (ParserFacts.distinct_from_length
                  (map Parser.nodeId_of_line
                     (Parser.declarations (Py.split Py.NL contents))) []) as B.
    rewrite length_map in B. exact B.
  - intros Hnd. change (Dict.keys (people newModel)) with (@nil Py.str).
    rewrite (ParserFacts.distinct_from_NoDup _ [] Hnd). apply length_map.
Qed.

Lemma C3_declarations_only_witness :
  exists m l,
    parseModel Py.ascii_runtime doc_alice_bob [] = (Ok m, l)
    /\ edges m = []
    /\ Dict.keys (people m) = [`"Alice"; `"Bob_Smith"]
    /\ length (people m) = 2.
Proof.
  destruct (C3_declarations_only Py.ascii_runtime doc_alice_bob eq_refl)
    as (m & l & E & He & Hk & _ & Hn).
  exists m, l. split; [exact E|]. split; [exact He|]. split; [exact Hk|].
  apply Hn. vm_compute.
  repeat constructor; cbn [In]; intuition discriminate.
Defined.

Module DetailLine.

Import PyFacts.

(** What the parser does with an indented line that holds neither [->] nor
    [:] once trimmed and freed of tabs: it logs the warning and then goes on
    to [model.addPerson] with what is left of the line. *)
Lemma parseLine_unparsable (rt : Py.Runtime) (model : Model) (line : Py.str)
  (l : log) :
  Py.startswith [Py.TAB] line = true ->
  Py.contains `"->" (Py.replace [Py.TAB] [] (Py.strip line)) = false ->
  Py.contains `":" (Py.replace [Py.TAB] [] (Py.strip line)) = false ->
  parseLine rt model line l
  = addPerson rt model (Py.replace [Py.TAB] [] (Py.strip line))
      (l ++ [(WARNING,
              `"Cannot parse line: " ++ Py.replace [Py.TAB] [] (Py.strip line))]).
Proof.
  intros Ht Ha Hc. unfold parseLine.
  destruct (startswith_char Py.TAB line) as [Hr _].
  destruct (Hr Ht) as [r ->].
  cbn [Py.eqb]. change (Py.startswith (Py.lit "@") (Py.TAB :: r)) with false.
  cbn [andb]. rewrite Ht, Ha, Hc. reflexivity.
Qed.

End DetailLine.

(** C1 fails on the code: the indented line [nonsense] under [Alice] holds
    neither [->] nor [:]; the parser logs the warning and then declares a
    person named [nonsense], so the people of the model differ from those of
    the document without the line. *)
Theorem C1_unparsable_line_declares_person :
  exists m l m0 l0,
    parseModel Py.ascii_runtime doc_alice_nonsense [] = (Ok m, l)
    /\ parseModel Py.ascii_runtime doc_alice [] = (Ok m0, l0)
    /\ warnings l = [`"Cannot parse line: nonsense"]
    /\ Dict.keys (people m0) = [`"Alice"]
    /\ Dict.keys (people m) = [`"Alice"; `"nonsense"]
    /\ lastPerson m = Some `"nonsense"
    /\ people m <> people m0.
Proof.
  do 4 eexists.
  split; [vm_compute; reflexivity|]. split; [vm_compute; reflexivity|].
  repeat split. discriminate.
Qed.

Module Directive.

Import PyFacts.

Lemma contains_colon_without_at (line : Py.str) :
  Py.contains `":" line = true ->
  Py.contains `":" (Py.replace `"@" [] line) = true.
Proof.
  change (Py.lit ":") with [58%N]. change (Py.lit "@") with [64%N].
  rewrite !contains_char, replace_char_filter. intros H.
  apply filter_In. split; [assumption | reflexivity].
Qed.

(** A directive line never declares a person and never raises: the people,
    the edges, the teams, the cursor and the log stay as they are. *)
Lemma parseLine_directive (rt : Py.Runtime) (model : Model) (line : Py.str)
  (l : log) :
  Parser.is_directive line = true ->
  exists model',
    parseLine rt model line l = (Ok model', l)
    /\ people model' = people model /\ edges model' = edges model
    /\ teams model' = teams model /\ lastPerson model' = lastPerson model.
Proof.
  unfold Parser.is_directive. intros H. unfold parseLine. rewrite H.
  apply andb_true_iff in H as [Hs Hc].
  apply startswith_spec in Hs as [r ->]. cbn [Py.lit app Py.eqb].
  destruct (split1_contains _ _ (contains_colon_without_at _ Hc))
    as (k & v & E).
  cbn [Py.lit app] in E. rewrite E.
  destruct (Py.eqb k _); eexists; (split; [reflexivity|]); repeat split.
Qed.

(** Where neither the key nor the value holds a further [@], the line does
    what the specification says of it. *)
Lemma strip_marker (key value : Py.str) :
  ~ In 64%N key -> ~ In 64%N value ->
  Py.replace `"@" [] (64%N :: key ++ 58%N :: value) = key ++ 58%N :: value.
Proof.
  intros Hk Hv. change (Py.lit "@") with [64%N].
  change (64%N :: key ++ 58%N :: value)
    with ([64%N] ++ key ++ [58%N] ++ value).
  rewrite replace_char_filter, !filter_app, <- !replace_char_filter.
  rewrite (replace_char_absent 64 [] key Hk).
  now rewrite (replace_char_absent 64 [] value Hv).
Qed.

Lemma parseLine_directive_plain (rt : Py.Runtime) (model : Model)
  (key value : Py.str) (l : log) :
  ~ In 64%N key -> ~ In 58%N key -> ~ In 64%N value ->
  parseLine rt model (`"@" ++ key ++ `":" ++ value) l
  = (Ok (if Py.eqb key `"title" then with_title model (Py.strip value)
         else model), l).
Proof.
  intros Hk1 Hk2 Hv.
  assert (Hc : Py.contains `":" (`"@" ++ key ++ `":" ++ value) = true).
  { apply contains_spec. exists (`"@" ++ key), value.
    now rewrite <- app_assoc. }
  change (`"@" ++ key ++ `":" ++ value) with (64%N :: key ++ 58%N :: value)
    in *.
  unfold parseLine. rewrite Hc, (strip_marker key value Hk1 Hv).
  change (Py.eqb (64%N :: key ++ 58%N :: value) []) with false.
  change (Py.startswith (Py.lit "@") (64%N :: key ++ 58%N :: value))
    with true.
  cbn [andb]. change (Py.lit ":") with [58%N].
  rewrite (split1_char 58 key value Hk2).
  now destruct (Py.eqb key _).
Qed.

End Directive.

(** C8 fails on the code: every [@] of a directive line is dropped, not only
    the leading one, so the title of [@title: R@D Team] becomes [RD Team]
    and not the trimmed value [R@D Team]. *)
Theorem C8_title_loses_at_sign :
  Parser.is_directive doc_title_with_at = true
  /\ exists m l,
       parseModel Py.ascii_runtime doc_title_with_at [] = (Ok m, l)
       /\ title m = `"RD Team"
       /\ title m <> Py.strip `" R@D Team"
       /\ people m = [].
Proof.
  split; [reflexivity|]. do 2 eexists.
  split; [vm_compute; reflexivity|]. repeat split. discriminate.
Qed.

(* ================================================================== *)
(** * The legend ([getLegendAsDot]) *)

Module LegendFacts.

Import Legend.

Import PyFacts.

(** The legend is the fixed block in [inf] mode when not suppressed, and
    empty otherwise. *)
Lemma getLegendAsDot_cases (args : Args) :
  getLegendAsDot args
  = if negb (args_skipDrawingLegend args) && Py.eqb (args_vizType args) `"inf"
    then legend_text else [].
Proof.
  unfold getLegendAsDot.
  destruct (args_skipDrawingLegend args); [reflexivity|].
  now destruct (Py.eqb (args_vizType args) _).
Qed.

Lemma legend_emitted_iff (args : Args) :
  getLegendAsDot args <> []
  <-> args_vizType args = `"inf" /\ args_skipDrawingLegend args = false.
Proof.
  rewrite getLegendAsDot_cases.
  destruct (args_skipDrawingLegend args); cbn [negb andb].
  - split; [congruence | intros [_ H]; discriminate].
  - destruct (Py.eqb (args_vizType args) _) eqn:E.
    + apply eqb_eq in E. split; [now split | discriminate].
    + apply eqb_neq in E. split; [congruence | intros [H _]; contradiction].
Qed.

End LegendFacts.

(** C9 fails on the code: the legend is drawn in [inf] mode, but its salmon
    entry is named [hostile], a name the influence lookup does not know (it
    warns and gives no style), while the influence the lookup colours salmon,
    [enemy], has no entry in the legend. *)
Theorem C9_legend_names_hostile_not_enemy :
  getLegendAsDot args_inf = Legend.legend_text
  /\ Py.contains `"hostile [fillcolor=salmon, style=filled]"
       (getLegendAsDot args_inf) = true
  /\ Py.contains `"enemy" (getLegendAsDot args_inf) = false
  /\ getInfluenceStyleAsDot args_inf `"enemy" []
     = (Ok `"fillcolor=salmon, style=filled", [])
  /\ getInfluenceStyleAsDot args_inf `"hostile" []
     = (Ok [], [(WARNING, `"Unknown influence class: hostile")]).
Proof. repeat split. Qed.

(* ================================================================== *)
(** * Team subgraphs ([getTeamsAsDot]) *)

Module TeamsFacts.

Import Teams.

Import PyFacts.

Lemma teamMembersAsDot_spec (args : Args) (teamName : Py.str)
  (persons : list Person) :
  forall out,
  teamMembersAsDot args teamName persons out
  = out ++ concat (map member_line
             (filter (fun p => negb (isPersonExcluded args p)
                               && Py.eqb (team p) teamName) persons)).
Proof.
  induction persons as [|p rest IH]; intros out; cbn [teamMembersAsDot filter].
  - cbn. now rewrite app_nil_r.
  - destruct (isPersonExcluded args p); cbn [negb andb]; [apply IH|].
    destruct (Py.eqb (team p) teamName); [|apply IH].
    rewrite IH. cbn [map concat]. unfold member_line.
    now rewrite <- !app_assoc.
Qed.

Lemma teamsLoop_spec (args : Args) (model : Model) (teamNames : list Py.str) :
  forall out n,
  teamsLoop args model teamNames out n
  = out ++ concat (team_declarations args model n teamNames).
Proof.
  induction teamNames as [|t rest IH]; intros out n;
    cbn [teamsLoop team_declarations concat].
  - now rewrite app_nil_r.
  - rewrite IH, teamMembersAsDot_spec. unfold team_declaration, visible_members.
    now rewrite <- !app_assoc.
Qed.

Lemma team_declarations_length (args : Args) (model : Model)
  (teamNames : list Py.str) :
  forall n, length (team_declarations args model n teamNames)
            = length teamNames.
Proof.
  induction teamNames as [|t rest IH]; intros n; cbn; [reflexivity|].
  now rewrite IH.
Qed.

Lemma team_declarations_nth (args : Args) (model : Model)
  (teamNames : list Py.str) :
  forall n i teamName,
  nth_error teamNames i = Some teamName ->
  nth_error (team_declarations args model n teamNames) i
  = Some (team_declaration (n + i + 1) teamName
            (visible_members args model teamName)).
Proof.
  induction teamNames as [|t rest IH]; intros n i teamName H.
  - destruct i; discriminate.
  - destruct i as [|i]; cbn in H |- *.
    + injection H as ->. now rewrite Nat.add_0_r.
    + rewrite (IH (n + 1) i teamName H).
      now replace (n + 1 + i + 1) with (n + S i + 1) by lia.
Qed.

(** A team all of whose members are excluded has no visible member. *)
Lemma visible_members_none (args : Args) (model : Model) (teamName : Py.str) :
  (forall p, In p (Dict.values (people model)) -> team p = teamName ->
             isPersonExcluded args p = true) ->
  visible_members args model teamName = [].
Proof.
  intros H. unfold visible_members.
  induction (Dict.values (people model)) as [|p rest IH]; [reflexivity|].
  cbn [filter]. destruct (isPersonExcluded args p) eqn:Ex; cbn [negb andb].
  - apply IH. intros q Hq. apply H. now right.
  - destruct (Py.eqb (team p) teamName) eqn:Et.
    + apply eqb_eq in Et. rewrite (H p (or_introl eq_refl) Et) in Ex.
      discriminate.
    + apply IH. intros q Hq. apply H. now right.
Qed.

End TeamsFacts.

(** C7: when team drawing is not suppressed, the team part of the output is
    one subgraph declaration per team name of the model, in the order of the
    team set and numbered from 1; the declaration of a team holds the lines
    of its members that the filter does not exclude, and for a team all of
    whose members are excluded it is still there, with no member line. *)
Theorem C7_one_subgraph_per_team (args : Args) (model : Model) :
  args_skipDrawingTeams args = false ->
  getTeamsAsDot args model
  = concat (Teams.team_declarations args model 0 (teams model))
  /\ length (Teams.team_declarations args model 0 (teams model))
     = length (teams model)
  /\ forall i teamName,
       nth_error (teams model) i = Some teamName ->
       nth_error (Teams.team_declarations args model 0 (teams model)) i
       = Some (Teams.team_declaration (i + 1) teamName
                 (Teams.visible_members args model teamName))
       /\ ((forall p, In p (Dict.values (people model)) ->
                      team p = teamName -> isPersonExcluded args p = true) ->
           nth_error (Teams.team_declarations args model 0 (teams model)) i
           = Some (`"subgraph cluster_" ++ Py.of_nat (i + 1) ++ `"{" ++ Py.NL
                   ++ ``"label=~" ++ teamName ++ ``"~" ++ Py.NL
                   ++ `"style=filled" ++ Py.NL
                   ++ `"fillcolor=skyblue" ++ Py.NL
                   ++ `"}" ++ Py.NL)).
Proof.
  intros Hs. unfold getTeamsAsDot. rewrite Hs.
  split; [apply (TeamsFacts.teamsLoop_spec args model (teams model) [] 0)|].
  split; [apply TeamsFacts.team_declarations_length|].
  intros i teamName Hi.
  pose proof (TeamsFacts.team_declarations_nth args model (teams model) 0 i
                teamName Hi) as E.
  split; [exact E|].
  intros Hex. rewrite E, (TeamsFacts.visible_members_none args model teamName Hex).
  reflexivity.
Qed.

Lemma C7_one_subgraph_per_team_witness :
  args_skipDrawingTeams args_only_Eng = false
  /\ getTeamsAsDot args_only_Eng model_two_teams
     = `"subgraph cluster_1{" ++ Py.NL
       ++ ``"label=~Eng~" ++ Py.NL
       ++ `"style=filled" ++ Py.NL
       ++ `"fillcolor=skyblue" ++ Py.NL
       ++ `"Alice []" ++ Py.NL
       ++ `"}" ++ Py.NL
       ++ `"subgraph cluster_2{" ++ Py.NL
       ++ ``"label=~Sales~" ++ Py.NL
       ++ `"style=filled" ++ Py.NL
       ++ `"fillcolor=skyblue" ++ Py.NL
       ++ `"}" ++ Py.NL.
Proof.
  split; [reflexivity|].
  rewrite (proj1 (C7_one_subgraph_per_team args_only_Eng model_two_teams
                    eq_refl)).
  reflexivity.
Defined.

(* ================================================================== *)
(** * Edge endpoints ([findPerson], the edge loop of [getModelAsDot]) *)

Module RenderFacts.

Import Render.

Import PyFacts.

Lemma findPerson_cases (model : Model) (name : Py.str) :
  (exists p, findPerson model name = Ok p)
  \/ (findPerson model name = Raise (not_found name) /\ unresolved model name).
Proof.
  unfold findPerson, getPersonByName, unresolved.
  destruct (find _ (Dict.values (people model))) as [p|] eqn:Ef.
  - left. now exists p.
  - destruct (Dict.get name (people model)) as [p|] eqn:Eg.
    + left. now exists p.
    + right. repeat split. intros p Hp.
      apply (find_none _ _ Ef) in Hp. now apply eqb_neq.
Qed.

Lemma findPerson_unresolved (model : Model) (name : Py.str) :
  unresolved model name -> findPerson model name = Raise (not_found name).
Proof.
  intros [Hg Hid]. unfold findPerson, getPersonByName. rewrite Hg.
  destruct (find _ (Dict.values (people model))) as [p|] eqn:Ef; [|reflexivity].
  apply find_some in Ef as [Hin E]. apply eqb_eq in E. now apply Hid in Hin.
Qed.

Lemma findPerson_raise_unresolved (model : Model) (name : Py.str) (e : exn) :
  findPerson model name = Raise e -> unresolved model name.
Proof.
  intros H. destruct (findPerson_cases model name) as [[p E]|[_ U]];
    [congruence | exact U].
Qed.

(** One turn of the edge loop: it raises at the edges that fail, and
    otherwise goes on without touching the log. *)
Lemma edgeAsDot_cases (args : Args) (model : Model) (edge : Edge)
  (out : Py.str) (l : log) :
  (edge_fails args model edge
   /\ exists name, edgeAsDot args model edge out l = (Raise (not_found name), l))
  \/ (~ edge_fails args model edge
      /\ exists out', edgeAsDot args model edge out l = (Ok out', l)).
Proof.
  unfold edgeAsDot.
  destruct (findPerson_cases model (origin edge)) as [[o Eo]|[Eo Uo]];
    rewrite Eo; step_eff.
  2:{ left. split; [now left | now exists (origin edge)]. }
  assert (Ho : ~ unresolved model (origin edge)).
  { intros U. rewrite (findPerson_unresolved _ _ U) in Eo. discriminate. }
  destruct (isPersonExcluded args o) eqn:Ex.
  - right. split; [|now exists out].
    intros [U|(o' & Eo' & Ex' & _)]; [now apply Ho | congruence].
  - destruct (findPerson_cases model (destination edge)) as [[d Ed]|[Ed Ud]];
      rewrite Ed; step_eff.
    + right. split.
      * intros [U|(o' & _ & _ & U)]; [now apply Ho|].
        rewrite (findPerson_unresolved _ _ U) in Ed. discriminate.
      * destruct (isPersonExcluded args d); eexists; reflexivity.
    + left. split; [right; now exists o | now exists (destination edge)].
Qed.

Lemma edgesLoop_cases (args : Args) (model : Model) (es : list Edge) :
  forall out l,
  ((exists edge, In edge es /\ edge_fails args model edge)
   /\ exists name, edgesLoop args model es out l = (Raise (not_found name), l))
  \/ ((forall edge, In edge es -> ~ edge_fails args model edge)
      /\ exists out', edgesLoop args model es out l = (Ok out', l)).
Proof.
  induction es as [|edge rest IH]; intros out l; cbn [edgesLoop].
  - right. split; [intros ? [] | now exists out].
  - unfold bind.
    destruct (edgeAsDot_cases args model edge out l)
      as [[Hf [name ->]]|[Hn [out' ->]]].
    + left. split; [exists edge; split; [now left | exact Hf] | now exists name].
    + destruct (IH out' l) as [[(e' & Hin & Hf) [name E]]|[Hall [out2 E]]].
      * left. split; [exists e'; split; [now right | exact Hf] | now exists name].
      * right. split; [|now exists out2].
        intros e' [<-|Hin]; [exact Hn | now apply Hall].
Qed.

Lemma getInfluenceStyleAsDot_ok (args : Args) (influence : Py.str) (l : log) :
  exists style l', getInfluenceStyleAsDot args influence l = (Ok style, l').
Proof.
  unfold getInfluenceStyleAsDot. run_eff.
  repeat match goal with
         | |- context [if ?b then _ else _] =>
             destruct b; [eexists; eexists; reflexivity|]
         end.
  eexists; eexists; reflexivity.
Qed.

(** The node loop never raises. *)
Lemma nodesLoop_ok (rt : Py.Runtime) (args : Args) (persons : list Person) :
  forall out l, exists out' l',
    nodesLoop rt args persons out l = (Ok out', l').
Proof.
  induction persons as [|p rest IH]; intros out l; cbn [nodesLoop].
  - now exists out, l.
  - destruct (isPersonExcluded args p); [apply IH|]. unfold bind.
    destruct (getPersonLabelAsDot_title rt args p l) as (label & l1 & -> & _).
    destruct (getInfluenceStyleAsDot_ok args (influence p) l1)
      as (style & l2 & ->).
    apply IH.
Qed.

Lemma getModelAsDot_cases (rt : Py.Runtime) (args : Args) (model : Model)
  (l : log) :
  ((exists edge, In edge (edges model) /\ edge_fails args model edge)
   /\ exists name l',
        getModelAsDot rt args model l = (Raise (not_found name), l'))
  \/ ((forall edge, In edge (edges model) -> ~ edge_fails args model edge)
      /\ exists out l', getModelAsDot rt args model l = (Ok out, l')).
Proof.
  unfold getModelAsDot.
  match goal with
  | |- context [nodesLoop rt args ?ps ?o] =>
      destruct (nodesLoop_ok rt args ps o l) as (out1 & l1 & E1)
  end.
  unfold bind at 1 3. rewrite E1. unfold bind.
  destruct (edgesLoop_cases args model (edges model) out1 l1)
    as [[Hf [name ->]]|[Hn [out2 ->]]].
  - left. split; [exact Hf | now exists name, l1].
  - right. split; [exact Hn | eexists; eexists; reflexivity].
Qed.

End RenderFacts.

Lemma model_ghost_parsed :
  parseModel Py.ascii_runtime doc_ghost [] = (Ok model_ghost, []).
Proof. vm_compute. reflexivity. Qed.

Lemma ghost_unresolved : Render.unresolved model_ghost `"Ghost".
Proof.
  split; [reflexivity|]. intros p [<-|[]]. vm_compute. discriminate.
Qed.

(** C4, as stated, fails: with the filter on team [Eng] the origin of the
    edge, Alice of team [Sales], is excluded; the destination [Ghost]
    resolves to no person, and yet rendering returns its text, the edge
    dropped without an error. *)
Lemma C4_excluded_origin_hides_missing_destination :
  parseModel Py.ascii_runtime doc_ghost [] = (Ok model_ghost, [])
  /\ In edge_to_ghost (edges model_ghost)
  /\ Render.unresolved model_ghost (destination edge_to_ghost)
  /\ exists out,
       getModelAsDot Py.ascii_runtime args_only_Eng model_ghost []
       = (Ok out, [])
       /\ Py.contains `"->" out = false.
Proof.
  split; [exact model_ghost_parsed|].
  split; [now left|]. split; [exact ghost_unresolved|].
  eexists. split; [vm_compute; reflexivity | vm_compute; reflexivity].
Qed.

(** C4, amended: rendering raises the error [Person not found] for every
    model with an edge whose origin resolves to no person (by nodeId key or
    by [id] attribute), or whose origin resolves to a person the filter does
    not exclude while its destination resolves to no person; when the model
    has no such edge, rendering returns its text (an edge whose origin is
    excluded is skipped before its destination is looked up). *)
Theorem C4_render_raises_on_unresolved (rt : Py.Runtime) (args : Args)
  (model : Model) (l : log) :
  (forall edge,
     In edge (edges model) ->
     Render.unresolved model (origin edge)
     \/ (exists o, findPerson model (origin edge) = Ok o
                   /\ isPersonExcluded args o = false
                   /\ Render.unresolved model (destination edge)) ->
     exists name l',
       getModelAsDot rt args model l
       = (Raise (Exception (`"Person not found: " ++ name)), l'))
  /\ ((forall edge, In edge (edges model) ->
                    ~ Render.edge_fails args model edge) ->
      exists out l', getModelAsDot rt args model l = (Ok out, l')).
Proof.
  destruct (RenderFacts.getModelAsDot_cases rt args model l)
    as [[(e0 & Hin0 & Hf0) Hr]|[Hn Ho]]; split.
  - intros _ _ _. exact Hr.
  - intros Hall. exfalso. exact (Hall e0 Hin0 Hf0).
  - intros edge Hin Hf. exfalso. exact (Hn edge Hin Hf).
  - intros _. exact Ho.
Qed.

Lemma C4_render_raises_on_unresolved_witness :
  exists name l',
    getModelAsDot Py.ascii_runtime args_inf model_ghost []
    = (Raise (Exception (`"Person not found: " ++ name)), l').
Proof.
  apply (proj1 (C4_render_raises_on_unresolved Py.ascii_runtime args_inf
                  model_ghost []) edge_to_ghost).
  - left. reflexivity.
  - right. exists (person_in `"Alice" `"Sales").
    split; [reflexivity|]. split; [reflexivity | exact ghost_unresolved].
Defined.

(* ================================================================== *)
(** * The cursor [lastPerson] during parsing *)

Module CursorFacts.

Import Cursor.

Import PyFacts.

Lemma get_set_same {V} (k : Py.str) (v : V) (d : Dict.t V) :
  Dict.get k (Dict.set k v d) = Some v.
Proof.
  induction d as [|[k' v'] d IH]; cbn [Dict.set Dict.get].
  - now rewrite eqb_refl.
  - destruct (Py.eqb k k') eqn:E; cbn [Dict.get]; now rewrite E.
Qed.

Lemma the_lastPerson_cases (model : Model) (l : log) :
  cursor_ok model ->
  (exists what, the_lastPerson model l = (Raise (AttributeError what), l))
  \/ (exists key p, lastPerson model = Some key
                    /\ dotNodeName p = key
                    /\ the_lastPerson model l = (Ok p, l)).
Proof.
  intros H. unfold the_lastPerson.
  destruct (lastPerson model) as [key|] eqn:E.
  - right. destruct (H key E) as (p & Hg & Hn). rewrite Hg.
    now exists key, p.
  - left. eexists. reflexivity.
Qed.

Lemma update_lastPerson_ok (model : Model) (key : Py.str) (p : Person) :
  lastPerson model = Some key -> dotNodeName p = key ->
  cursor_ok (update_lastPerson model p).
Proof.
  intros Hk Hp. unfold update_lastPerson, cursor_ok. rewrite Hk.
  cbn [lastPerson people]. intros key' [= <-]. exists p.
  split; [apply get_set_same | exact Hp].
Qed.

Lemma addPerson_ok (rt : Py.Runtime) (model : Model) (line : Py.str)
  (l : log) :
  exists m l', addPerson rt model line l = (Ok m, l') /\ cursor_ok m.
Proof.
  destruct (ParserFacts.addPerson_spec rt model line l) as (p & l' & E & Hn & _).
  eexists; eexists. split; [exact E|].
  intros key [= <-]. cbn [people]. exists p.
  split; [apply get_set_same | exact Hn].
Qed.

Lemma setDmu_name (rt : Py.Runtime) (p : Person) (v : Py.str) (l : log) :
  exists p' l', setDmu rt p v l = (Ok p', l')
                /\ dotNodeName p' = dotNodeName p.
Proof.
  unfold setDmu. run_eff.
  repeat match goal with
         | |- context [if ?b then _ else _] =>
             destruct b; [eexists; eexists; split; reflexivity|]
         end.
  eexists; eexists; split; reflexivity.
Qed.

Lemma setSentiment_name (rt : Py.Runtime) (p : Person) (v : Py.str)
  (l : log) :
  exists p' l', setSentiment rt p v l = (Ok p', l')
                /\ dotNodeName p' = dotNodeName p.
Proof.
  unfold setSentiment. run_eff.
  repeat match goal with
         | |- context [if ?b then _ else _] =>
             destruct b; [eexists; eexists; split; reflexivity|]
         end.
  eexists; eexists; split; reflexivity.
Qed.

Lemma parseConnection_benign (model : Model) (line : Py.str) (l : log) :
  cursor_ok model -> Py.contains `"->" line = true ->
  exists r l', parseConnection model line l = (r, l') /\ benign r.
Proof.
  intros H Hc. unfold parseConnection.
  destruct (split1_contains _ _ Hc) as (k & v & ->).
  destruct (negb (Py.eqb k []) && negb (Py.eqb v [])).
  - unfold addConnection, bind.
    destruct (the_lastPerson_cases model l H)
      as [[what ->]|(key & p & Hk & Hp & ->)].
    + eexists; eexists. split; [reflexivity | exact I].
    + eexists; eexists. split; [reflexivity | exact H].
  - eexists; eexists. split; [reflexivity | exact H].
Qed.

Lemma parsePersonProperty_benign (rt : Py.Runtime) (model : Model)
  (line : Py.str) (l : log) :
  cursor_ok model -> Py.contains `":" line = true ->
  exists r l', parsePersonProperty rt model line l = (r, l') /\ benign r.
Proof.
  intros H Hc. unfold parsePersonProperty.
  destruct (split1_contains _ _ Hc) as (k & v & ->).
  repeat match goal with
         | |- context [if Py.eqb ?a ?b then _ else _] => destruct (Py.eqb a b)
         end; unfold bind; rewrite ?CoercionFacts.addTeam_lastPerson;
    (destruct (the_lastPerson_cases model l H)
       as [[what ->]|(key & p & Hk & Hp & ->)];
     [eexists; eexists; split; [reflexivity | exact I] |]).
  - eexists; eexists. split; [reflexivity|].
    now apply update_lastPerson_ok with (key := key).
  - destruct (setSentiment_name rt p (Py.strip v) l) as (p' & l' & -> & Hn).
    eexists; eexists. split; [reflexivity|].
    apply update_lastPerson_ok with (key := key); congruence.
  - destruct (setDmu_name rt p (Py.strip v) l) as (p' & l' & -> & Hn).
    eexists; eexists. split; [reflexivity|].
    apply update_lastPerson_ok with (key := key); congruence.
  - eexists; eexists. split; [reflexivity|].
    now apply update_lastPerson_ok with (key := key).
  - eexists; eexists. split; [reflexivity|].
    now apply update_lastPerson_ok with (key := key).
Qed.

Lemma parseLine_benign (rt : Py.Runtime) (model : Model) (line : Py.str)
  (l : log) :
  cursor_ok model ->
  exists r l', parseLine rt model line l = (r, l') /\ benign r.
Proof.
  intros H.
  destruct (Parser.is_directive line) eqn:Ed.
  { destruct (Directive.parseLine_directive rt model line l Ed)
      as (m & E & Hp & _ & _ & Hl).
    exists (Ok m), l. split; [exact E|].
    intros key Hk. rewrite Hl in Hk. rewrite Hp. now apply H. }
  unfold Parser.is_directive in Ed. unfold parseLine. rewrite Ed.
  destruct (Py.eqb line []).
  { exists (Ok model), l. now split. }
  destruct (Py.startswith [Py.TAB] line).
  - destruct (Py.contains `"->" (Py.replace _ _ _)) eqn:Ea;
      [now apply parseConnection_benign|].
    destruct (Py.contains `":" (Py.replace _ _ _)) eqn:Ec;
      [now apply parsePersonProperty_benign|].
    unfold bind, logging.
    match goal with
    | |- context [addPerson rt model ?x ?l1] =>
        destruct (addPerson_ok rt model x l1) as (m & l' & -> & Hm)
    end.
    now exists (Ok m), l'.
  - destruct (addPerson_ok rt model line l) as (m & l' & -> & Hm).
    now exists (Ok m), l'.
Qed.

Lemma parseLines_benign (rt : Py.Runtime) (lines : list Py.str) :
  forall model l, cursor_ok model ->
  exists r l', parseLines rt model lines l = (r, l') /\ benign r.
Proof.
  induction lines as [|line rest IH]; intros model l H; cbn [parseLines].
  - now exists (Ok model), l.
  - unfold bind.
    destruct (parseLine_benign rt model line l H) as (r & l1 & -> & Hr).
    destruct r as [m|e]; [now apply IH|].
    now exists (Raise e), l1.
Qed.

(** Parsing returns a model, or raises the [AttributeError] of a detail line
    met before any person; the cursor never dangles. *)
Lemma parseModel_benign (rt : Py.Runtime) (contents : Py.str) (l : log) :
  exists r l', parseModel rt contents l = (r, l') /\ benign r.
Proof.
  apply parseLines_benign. intros key H. discriminate.
Qed.

End CursorFacts.

(* ================================================================== *)
(** * The set of team names during parsing *)

Module TeamSetFacts.

Import TeamSet.

Import PyFacts.

Lemma addTeam_NoDup (model : Model) (t : Py.str) :
  NoDup (teams model) -> NoDup (teams (addTeam model t)).
Proof.
  intros H. unfold addTeam. cbn [teams].
  destruct (Py.mem t (teams model)) eqn:E; [exact H|].
  apply mem_not_In in E. apply NoDup_app; try assumption.
  - repeat constructor. intros [].
  - intros x Hx [<-|[]]. exact (E Hx).
Qed.

Lemma update_lastPerson_teams (model : Model) (p : Person) :
  teams (update_lastPerson model p) = teams model.
Proof. unfold update_lastPerson. now destruct (lastPerson model). Qed.

Lemma the_lastPerson_log (model : Model) (l : log) :
  exists r, the_lastPerson model l = (r, l).
Proof.
  unfold the_lastPerson. destruct (lastPerson model) as [key|].
  - destruct (Dict.get key (people model)); eexists; reflexivity.
  - eexists; reflexivity.
Qed.

Lemma parseConnection_teams (model : Model) (line : Py.str) (l : log) :
  exists r l', parseConnection model line l = (r, l') /\ keeps_teams model r.
Proof.
  unfold parseConnection.
  destruct (Py.split1 _ line) as [[k v]|].
  - destruct (negb (Py.eqb k []) && negb (Py.eqb v [])).
    + unfold addConnection, bind.
      destruct (the_lastPerson_log model l) as [[p|e] ->];
        eexists; eexists; (split; [reflexivity|]); cbn; auto.
    + eexists; eexists; (split; [reflexivity|]); cbn; auto.
  - eexists; eexists; (split; [reflexivity|]); cbn; auto.
Qed.

Lemma parsePersonProperty_teams (rt : Py.Runtime) (model : Model)
  (line : Py.str) (l : log) :
  exists r l', parsePersonProperty rt model line l = (r, l')
               /\ keeps_teams model r.
Proof.
  unfold parsePersonProperty.
  destruct (Py.split1 _ line) as [[k v]|];
    [|eexists; eexists; (split; [reflexivity|]); exact I].
  repeat match goal with
         | |- context [if Py.eqb ?a ?b then _ else _] => destruct (Py.eqb a b)
         end; unfold bind; rewrite ?CoercionFacts.addTeam_lastPerson;
    (destruct (the_lastPerson_log model l) as [[p|e] ->];
     [|eexists; eexists; (split; [reflexivity|]); exact I]).
  - eexists; eexists. split; [reflexivity|]. cbn [keeps_teams].
    now rewrite update_lastPerson_teams.
  - destruct (CoercionFacts.setSentiment_ok rt p (Py.strip v) l)
      as (p' & l' & ->).
    eexists; eexists. split; [reflexivity|]. cbn [keeps_teams].
    now rewrite update_lastPerson_teams.
  - destruct (CoercionFacts.setDmu_ok rt p (Py.strip v) l) as (p' & l' & ->).
    eexists; eexists. split; [reflexivity|]. cbn [keeps_teams].
    now rewrite update_lastPerson_teams.
  - eexists; eexists. split; [reflexivity|]. cbn [keeps_teams].
    rewrite update_lastPerson_teams. apply addTeam_NoDup.
  - eexists; eexists. split; [reflexivity|]. cbn [keeps_teams].
    now rewrite update_lastPerson_teams.
Qed.

Lemma addPerson_teams (rt : Py.Runtime) (model : Model) (line : Py.str)
  (l : log) :
  exists r l', addPerson rt model line l = (r, l') /\ keeps_teams model r.
Proof.
  destruct (ParserFacts.addPerson_spec rt model line l) as (p & l' & -> & _).
  eexists; eexists. split; [reflexivity|]. cbn. auto.
Qed.

Lemma parseLine_teams (rt : Py.Runtime) (model : Model) (line : Py.str)
  (l : log) :
  exists r l', parseLine rt model line l = (r, l') /\ keeps_teams model r.
Proof.
  destruct (Parser.is_directive line) eqn:Ed.
  { destruct (Directive.parseLine_directive rt model line l Ed)
      as (m & E & _ & _ & Ht & _).
    exists (Ok m), l. split; [exact E|]. cbn. now rewrite Ht. }
  unfold Parser.is_directive in Ed. unfold parseLine. rewrite Ed.
  destruct (Py.eqb line []).
  { exists (Ok model), l. split; [reflexivity|]. cbn. auto. }
  destruct (Py.startswith [Py.TAB] line); [|apply addPerson_teams].
  destruct (Py.contains `"->" (Py.replace _ _ _));
    [apply parseConnection_teams|].
  destruct (Py.contains `":" (Py.replace _ _ _));
    [apply parsePersonProperty_teams|].
  unfold bind, logging. apply addPerson_teams.
Qed.

Lemma parseLines_teams (rt : Py.Runtime) (lines : list Py.str) :
  forall model l,
  exists r l', parseLines rt model lines l = (r, l') /\ keeps_teams model r.
Proof.
  induction lines as [|line rest IH]; intros model l; cbn [parseLines].
  - exists (Ok model), l. split; [reflexivity|]. cbn. auto.
  - unfold bind.
    destruct (parseLine_teams rt model line l) as (r & l1 & -> & Hr).
    destruct r as [m|e]; [|exists (Raise e), l1; now split].
    destruct (IH m l1) as (r & l2 & -> & Hr2).
    exists r, l2. split; [reflexivity|].
    destruct r as [m2|e]; cbn in *; auto.
Qed.

(** The team names of a parsed model are pairwise different, as the
    elements of a set are. *)
Lemma parseModel_teams_NoDup (rt : Py.Runtime) (contents : Py.str) (l : log)
  (m : Model) (l' : log) :
  parseModel rt contents l = (Ok m, l') -> NoDup (teams m).
Proof.
  intros H. unfold parseModel in H.
  destruct (parseLines_teams rt (Py.split Py.NL contents) newModel l)
    as (r & l2 & E & Hr).
  rewrite H in E. injection E as <- <-. apply Hr. constructor.
Qed.

End TeamSetFacts.

(* ================================================================== *)
(** * The outline of Acme, parsed and rendered *)

Example acme_parsed :
  exists m,
    parseModel Py.ascii_runtime doc_acme [] = (Ok m, [])
    /\ title m = `"Acme"
    /\ people m = [(`"Alice", with_dmu (person_in `"Alice" `"Eng") `"D");
                   (`"Bob", person_in `"Bob" `"Sales")]
    /\ edges m = [{| origin := `"Alice"; type := `"supports";
                     destination := `"Bob" |}]
    /\ (forall t, In t (teams m) <-> t = `"Eng" \/ t = `"Sales")
    /\ lastPerson m = Some `"Bob".
Proof.
  eexists. split; [vm_compute; reflexivity|]. repeat split.
  - intros [H|[H|[]]]; subst t; [now left | now right].
  - intros [H|H]; subst t; [now left | right; now left].
Qed.

Example acme_rendered :
  exists out,
    getModelAsDot Py.ascii_runtime args_default model_acme [] = (Ok out, [])
    /\ Py.startswith (`"digraph {" ++ Py.NL
                      ++ ``"label=~Acme - github.com/jamesread/orgviz~" ++ Py.NL)
         out = true
    /\ Py.contains (`"{" ++ Py.NL ++ ``"label=~Eng~" ++ Py.NL
                    ++ `"style=filled" ++ Py.NL ++ `"fillcolor=skyblue" ++ Py.NL
                    ++ `"Alice []" ++ Py.NL ++ `"}" ++ Py.NL) out = true
    /\ Py.contains (`"{" ++ Py.NL ++ ``"label=~Sales~" ++ Py.NL
                    ++ `"style=filled" ++ Py.NL ++ `"fillcolor=skyblue" ++ Py.NL
                    ++ `"Bob []" ++ Py.NL ++ `"}" ++ Py.NL) out = true
    /\ Py.contains (Py.NL ++ `"Alice [margin=0, border=invisible, label=<<table")
         out = true
    /\ Py.contains (Py.NL ++ `"Bob [margin=0, border=invisible, label=<<table")
         out = true
    /\ Py.contains (Py.NL ++ ``"Alice -> Bob [label=~supports~, style=dotted]"
                    ++ Py.NL ++ `"}") out = true.
Proof.
  eexists. split; [vm_compute; reflexivity|]. repeat split.
Qed.

(* ================================================================== *)
(** * Facts about dictionaries *)

Module DictFacts.

Import PyFacts.

Lemma get_set_other {V} (k k' : Py.str) (v : V) (d : Dict.t V) :
  Py.eqb k k' = false -> Dict.get k (Dict.set k' v d) = Dict.get k d.
Proof.
  intros Hk. induction d as [|[k0 v0] d IH]; cbn [Dict.set Dict.get].
  - now rewrite Hk.
  - destruct (Py.eqb k' k0) eqn:E; cbn [Dict.get].
    + apply eqb_eq in E. subst k0. now rewrite Hk.
    + destruct (Py.eqb k k0); [reflexivity | exact IH].
Qed.

Lemma In_set {V} (k : Py.str) (v : V) (d : Dict.t V) (k' : Py.str) (v' : V) :
  In (k', v') (Dict.set k v d) -> (k' = k /\ v' = v) \/ In (k', v') d.
Proof.
  induction d as [|[k0 v0] d IH]; cbn [Dict.set].
  - intros [[= <- <-]|[]]. now left.
  - destruct (Py.eqb k k0) eqn:E.
    + apply eqb_eq in E. subst k0.
      intros [[= <- <-]|H]; [now left | right; now right].
    + intros [H|H]; [right; now left|].
      destruct (IH H) as [L|R]; [now left | right; now right].
Qed.

Lemma get_In {V} (k : Py.str) (d : Dict.t V) (v : V) :
  Dict.get k d = Some v -> In (k, v) d.
Proof.
  induction d as [|[k0 v0] d IH]; cbn [Dict.get]; [discriminate|].
  destruct (Py.eqb k k0) eqn:E.
  - apply eqb_eq in E. subst k0. intros [= ->]. now left.
  - intros H. right. now apply IH.
Qed.

Lemma has_mem {V} (k : Py.str) (d : Dict.t V) :
  Dict.has k d = Py.mem k (Dict.keys d).
Proof.
  unfold Dict.has, Py.mem, Dict.keys.
  induction d as [|[k0 v0] d IH]; cbn [Dict.get map fst existsb];
    [reflexivity|].
  destruct (Py.eqb k k0); [reflexivity | exact IH].
Qed.

Lemma In_get {V} (k : Py.str) (d : Dict.t V) (v : V) :
  NoDup (Dict.keys d) -> In (k, v) d -> Dict.get k d = Some v.
Proof.
  induction d as [|[k0 v0] d IH]; cbn [Dict.keys map fst Dict.get];
    [intros _ []|].
  intros Hnd [[= -> ->]|Hin].
  - now rewrite eqb_refl.
  - apply NoDup_cons_iff in Hnd as [Hk0 Hnd].
    destruct (Py.eqb k k0) eqn:E; [|now apply IH].
    apply eqb_eq in E. subst k0. exfalso. apply Hk0.
    change k with (fst (k, v)). now apply in_map.
Qed.

Lemma has_set_mono {V} (k k' : Py.str) (v : V) (d : Dict.t V) :
  Dict.has k d = true -> Dict.has k (Dict.set k' v d) = true.
Proof.
  unfold Dict.has. destruct (Py.eqb k k') eqn:E.
  - apply eqb_eq in E. subst k'. now rewrite CursorFacts.get_set_same.
  - now rewrite (get_set_other k k' v d E).
Qed.

Lemma add_key_NoDup (k : Py.str) (ks : list Py.str) :
  NoDup ks -> NoDup (Parser.add_key k ks).
Proof.
  intros H. unfold Parser.add_key. destruct (Py.mem k ks) eqn:E; [exact H|].
  apply mem_not_In in E. apply NoDup_app; try assumption.
  - repeat constructor. intros [].
  - intros x Hx [<-|[]]. exact (E Hx).
Qed.

Lemma keys_set_NoDup {V} (k : Py.str) (v : V) (d : Dict.t V) :
  NoDup (Dict.keys d) -> NoDup (Dict.keys (Dict.set k v d)).
Proof. rewrite ParserFacts.keys_set. apply add_key_NoDup. Qed.

(** Assigning to a key that is present keeps the keys and their order. *)
Lemma keys_set_present {V} (k : Py.str) (v : V) (d : Dict.t V) :
  Dict.has k d = true -> Dict.keys (Dict.set k v d) = Dict.keys d.
Proof.
  intros H. rewrite ParserFacts.keys_set. unfold Parser.add_key.
  now rewrite <- has_mem, H.
Qed.

Lemma keys_set_absent {V} (k : Py.str) (v : V) (d : Dict.t V) :
  Dict.has k d = false -> Dict.keys (Dict.set k v d) = Dict.keys d ++ [k].
Proof.
  intros H. rewrite ParserFacts.keys_set. unfold Parser.add_key.
  now rewrite <- has_mem, H.
Qed.

End DictFacts.

(* ================================================================== *)
(** * Facts about single lines *)

Module FrameFacts.

Import Frame PyFacts DictFacts.

Lemma addPerson_eq (rt : Py.Runtime) (model : Model) (name : Py.str)
  (l : log) :
  addPerson rt model name l
  = (Ok (declared model name),
     if name_matches rt (Py.strip name) then l else l ++ [name_warning name]).
Proof.
  unfold addPerson, newPerson. run_eff.
  now destruct (name_matches rt (Py.strip name)).
Qed.

Lemma setDmu_code (rt : Py.Runtime) (p : Person) (v : Py.str) (l : log) :
  exists c l', setDmu rt p v l = (Ok (with_dmu p c), l') /\ In c dmu_codes.
Proof.
  unfold setDmu, dmu_codes. run_eff.
  repeat match goal with
         | |- context [if ?b then _ else _] =>
             destruct b;
             [eexists; eexists; split; [reflexivity | cbn; tauto]|]
         end.
  eexists; eexists; split; [reflexivity | cbn; tauto].
Qed.

Lemma setSentiment_code (rt : Py.Runtime) (p : Person) (v : Py.str)
  (l : log) :
  exists c l', setSentiment rt p v l = (Ok (with_sentiment p c), l')
               /\ In c sentiment_codes.
Proof.
  unfold setSentiment, sentiment_codes. run_eff.
  repeat match goal with
         | |- context [if ?b then _ else _] =>
             destruct b;
             [eexists; eexists; split; [reflexivity | cbn; tauto]|]
         end.
  eexists; eexists; split; [reflexivity | cbn; tauto].
Qed.

(** Reading the cursor gives the stored person and leaves the log, or
    raises. *)
Lemma the_lastPerson_inv (model : Model) (l : log) (p : Person) (l' : log) :
  the_lastPerson model l = (Ok p, l') ->
  l' = l /\ exists key, lastPerson model = Some key
                        /\ Dict.get key (people model) = Some p.
Proof.
  unfold the_lastPerson. destruct (lastPerson model) as [key|]; [|discriminate].
  destruct (Dict.get key (people model)) as [q|] eqn:E; [|discriminate].
  intros [= <- <-]. split; [reflexivity | now exists key].
Qed.

Lemma parsePersonProperty_step (rt : Py.Runtime) (model : Model)
  (line : Py.str) (l : log) (m' : Model) (l' : log) :
  parsePersonProperty rt model line l = (Ok m', l') ->
  exists key p p' t,
    lastPerson model = Some key
    /\ Dict.get key (people model) = Some p
    /\ PropertyStep p p' t
    /\ m' = update_lastPerson (with_new_team model t) p'.
Proof.
  unfold parsePersonProperty.
  destruct (Py.split1 _ line) as [[k v]|]; [|discriminate].
  destruct (Py.eqb _ `"influence") eqn:E1;
    [|destruct (Py.eqb _ `"sentiment") eqn:E2;
      [|destruct (Py.eqb _ `"dmu") eqn:E3;
        [|destruct (Py.eqb _ `"team") eqn:E4]]];
    unfold bind; rewrite ?CoercionFacts.addTeam_lastPerson;
    destruct (the_lastPerson model l) as [[p|e] l1] eqn:Ep;
    try discriminate;
    apply the_lastPerson_inv in Ep as [-> (key & Hk & Hg)].
  - intros [= <- <-]. exists key, p, (with_influence p (Py.strip (Py.strip v))), None.
    repeat split; try assumption. constructor.
  - destruct (setSentiment_code rt p (Py.strip v) l) as (c & l2 & -> & Hc).
    intros [= <- <-]. exists key, p, (with_sentiment p c), None.
    repeat split; try assumption. now constructor.
  - destruct (setDmu_code rt p (Py.strip v) l) as (c & l2 & -> & Hc).
    intros [= <- <-]. exists key, p, (with_dmu p c), None.
    repeat split; try assumption. now constructor.
  - intros [= <- <-]. exists key, p, (with_team p (Py.strip v)), (Some (Py.strip v)).
    repeat split; try assumption. constructor.
  - intros [= <- <-].
    exists key, p,
      (with_attributes p
         (Dict.set (Py.lower rt (Py.strip k)) (Py.strip v) (attributes p))),
      None.
    repeat split; try assumption. constructor.
    unfold reserved_keys, Py.mem. cbn [existsb]. now rewrite E1, E2, E3, E4.
Qed.

Lemma parseConnection_step (model : Model) (line : Py.str) (l : log)
  (m' : Model) (l' : log) :
  parseConnection model line l = (Ok m', l') ->
  l' = l
  /\ (m' = model
      \/ exists key p edgeType destination,
           lastPerson model = Some key
           /\ Dict.get key (people model) = Some p
           /\ Py.split1 `"->" line = Some (edgeType, destination)
           /\ edgeType <> [] /\ destination <> []
           /\ m' = connected model p (Py.strip edgeType)
                     (Py.strip destination)).
Proof.
  unfold parseConnection.
  destruct (Py.split1 _ line) as [[t d]|]; [|discriminate].
  destruct (Py.eqb t []) eqn:Et; cbn [negb andb];
    [intros [= <- <-]; split; [reflexivity | now left]|].
  destruct (Py.eqb d []) eqn:Ed; cbn [negb andb];
    [intros [= <- <-]; split; [reflexivity | now left]|].
  unfold addConnection, bind.
  destruct (the_lastPerson model l) as [[p|e] l1] eqn:Ep; try discriminate.
  apply the_lastPerson_inv in Ep as [-> (key & Hk & Hg)].
  intros [= <- <-]. split; [reflexivity|]. right.
  exists key, p, t, d. apply eqb_neq in Et, Ed. now repeat split.
Qed.

(** Every line that does not raise takes one step. *)
Lemma parseLine_step (rt : Py.Runtime) (model : Model) (line : Py.str)
  (l : log) (m' : Model) (l' : log) :
  parseLine rt model line l = (Ok m', l') -> Step model m'.
Proof.
  unfold parseLine.
  destruct (Py.eqb line []); [intros [= <- _]; constructor|].
  destruct (Py.startswith `"@" line && Py.contains `":" line).
  { destruct (Py.split1 _ _) as [[k v]|]; [|discriminate].
    destruct (Py.eqb k _); intros [= <- _]; constructor. }
  destruct (Py.startswith [Py.TAB] line).
  - destruct (Py.contains `"->" _).
    { intros H. apply parseConnection_step in H as [_ [->|H]]; [constructor|].
      destruct H as (key & p & t & d & Hk & Hg & _ & _ & _ & ->).
      now apply step_connect with (key := key). }
    destruct (Py.contains `":" _).
    { intros H. apply parsePersonProperty_step in H
        as (key & p & p' & t & Hk & Hg & Hs & ->).
      now apply step_property with (key := key) (p := p). }
    unfold bind, logging. rewrite addPerson_eq. intros [= <- _]. constructor.
  - rewrite addPerson_eq. intros [= <- _]. constructor.
Qed.

(** What every step keeps holds at the end of parsing. *)
Lemma parseLines_invariant (rt : Py.Runtime) (P : Model -> Prop) :
  (forall a b, P a -> Step a b -> P b) ->
  forall lines model l m' l',
  P model -> parseLines rt model lines l = (Ok m', l') -> P m'.
Proof.
  intros HP. induction lines as [|line rest IH]; intros model l m' l' H0;
    cbn [parseLines].
  - now intros [= <- _].
  - unfold bind.
    destruct (parseLine rt model line l) as [[m1|e] l1] eqn:E1;
      [|discriminate].
    apply IH. apply (HP model m1 H0). exact (parseLine_step _ _ _ _ _ _ E1).
Qed.

End FrameFacts.

(* ================================================================== *)
(** * What parsing keeps true of the model *)

Module WellFormedFacts.

Import Frame PyFacts DictFacts FrameFacts.

Lemma teams_grow (model : Model) (t : option Py.str) (x : Py.str) :
  In x (teams model) -> In x (teams (with_new_team model t)).
Proof.
  destruct t as [v|]; [|easy]. cbn [with_new_team addTeam teams].
  destruct (Py.mem v (teams model)); [easy|].
  intros H. apply in_or_app. now left.
Qed.

Lemma addTeam_In (model : Model) (v : Py.str) :
  In v (teams (addTeam model v)).
Proof.
  cbn [addTeam teams]. destruct (Py.mem v (teams model)) eqn:E.
  - now apply mem_In.
  - apply in_or_app. right. now left.
Qed.

Lemma person_ok_teams (ts ts' : list Py.str) (k : Py.str) (p : Person) :
  (forall x, In x ts -> In x ts') -> person_ok ts k p -> person_ok ts' k p.
Proof.
  intros Hi (H1 & H2 & H3 & H4 & H5 & H6 & H7). repeat split; try tauto.
  destruct H6 as [H6|H6]; [now left | right; now apply Hi].
  all: apply H7.
Qed.

Lemma fresh_person_ok (ts : list Py.str) (name : Py.str) :
  person_ok ts (convertHumanNameToDotNodeName (Py.strip name))
    (fresh_person name).
Proof.
  unfold person_ok, fresh_person.
  cbn [fullName dotNodeName team influence dmu sentiment attributes].
  repeat split.
  - apply StripFacts.strip_idempotent.
  - unfold dmu_codes. simpl. auto 10.
  - unfold sentiment_codes. simpl. auto 10.
  - now left.
Qed.

Lemma property_person_ok (model : Model) (key : Py.str) (p p' : Person)
  (t : option Py.str) :
  PropertyStep p p' t ->
  person_ok (teams model) key p ->
  person_ok (teams (with_new_team model t)) key p'.
Proof.
  intros Hs Hp.
  pose proof (person_ok_teams _ _ key p (teams_grow model t) Hp)
    as (H1 & H2 & H3 & H4 & H5 & H6 & H7 & H8).
  destruct Hs as [v|c Hc|c Hc|v|k v Hk]; unfold person_ok; cbn;
    repeat split; try assumption.
  - apply StripFacts.strip_idempotent.
  - right. apply (addTeam_In model v).
  - intros r Hr. rewrite get_set_other; [now apply H8|].
    apply eqb_neq. intros ->. apply mem_not_In in Hk. now apply Hk.
Qed.

Lemma property_name (p p' : Person) (t : option Py.str) :
  PropertyStep p p' t ->
  dotNodeName p' = dotNodeName p /\ fullName p' = fullName p.
Proof. now destruct 1. Qed.

Lemma with_new_team_cursor (model : Model) (t : option Py.str) :
  lastPerson (with_new_team model t) = lastPerson model
  /\ people (with_new_team model t) = people model
  /\ edges (with_new_team model t) = edges model
  /\ title (with_new_team model t) = title model.
Proof. now destruct t. Qed.

(** The model a property line leaves, field by field. *)
Lemma update_fields (model : Model) (key : Py.str) (t : option Py.str)
  (p' : Person) :
  lastPerson model = Some key ->
  update_lastPerson (with_new_team model t) p'
  = {| title := title model;
       people := Dict.set key p' (people model);
       edges := edges model;
       teams := teams (with_new_team model t);
       lastPerson := Some key |}.
Proof.
  intros Hk. unfold update_lastPerson.
  destruct (with_new_team_cursor model t) as (-> & -> & -> & ->).
  now rewrite Hk.
Qed.

Lemma with_new_team_NoDup (model : Model) (t : option Py.str) :
  NoDup (teams model) -> NoDup (teams (with_new_team model t)).
Proof.
  destruct t as [v|]; [apply TeamSetFacts.addTeam_NoDup | easy].
Qed.

Ltac wf_split := unfold well_formed; split; [|split; [|split; [|split]]].

Lemma Step_well_formed (a b : Model) :
  well_formed a -> Step a b -> well_formed b.
Proof.
  intros (Hc & Hk & Hp & He & Ht) Hs.
  destruct Hs as [|t|name|key p edgeType dest Hl Hg|key p p' t Hl Hg Hs].
  - exact (conj Hc (conj Hk (conj Hp (conj He Ht)))).
  - exact (conj Hc (conj Hk (conj Hp (conj He Ht)))).
  - wf_split; cbn [declared people edges teams lastPerson].
    + intros k [= <-]. cbn [people]. exists (fresh_person name).
      split; [apply CursorFacts.get_set_same | reflexivity].
    + now apply keys_set_NoDup.
    + intros k q Hin. apply In_set in Hin as [[-> ->]|Hin];
        [apply fresh_person_ok | now apply Hp].
    + intros e Hin. destruct (He e Hin) as [H1 H2].
      split; [now apply has_set_mono | exact H2].
    + exact Ht.
  - wf_split; cbn [connected people edges teams lastPerson];
      try assumption.
    intros e Hin. apply in_app_or in Hin as [Hin|[<-|[]]]; [now apply He|].
    split; cbn [origin destination].
    + destruct (Hp key p (get_In _ _ _ Hg)) as [-> _].
      unfold Dict.has. now rewrite Hg.
    + apply NodeIdFacts.convert_idempotent.
  - rewrite (update_fields a key t p' Hl).
    pose proof (property_name p p' t Hs) as [Hn _].
    pose proof (Hp key p (get_In _ _ _ Hg)) as Hok.
    wf_split; cbn [people edges teams lastPerson].
    + intros k [= <-]. cbn [people]. exists p'.
      split; [apply CursorFacts.get_set_same|].
      rewrite Hn. now destruct Hok.
    + now apply keys_set_NoDup.
    + intros k q Hin. apply In_set in Hin as [[-> ->]|Hin].
      * now apply property_person_ok with (p := p).
      * apply person_ok_teams with (ts := teams a);
          [apply teams_grow | now apply Hp].
    + intros e Hin. destruct (He e Hin) as [H1 H2].
      split; [now apply has_set_mono | exact H2].
    + now apply with_new_team_NoDup.
Qed.

Lemma newModel_well_formed : well_formed newModel.
Proof.
  wf_split; cbn [newModel people edges teams lastPerson Dict.keys map].
  - intros key H. discriminate.
  - constructor.
  - intros k p [].
  - intros e [].
  - constructor.
Qed.

Lemma parseLines_well_formed (rt : Py.Runtime) (lines : list Py.str)
  (model : Model) (l : log) (m : Model) (l' : log) :
  well_formed model ->
  parseLines rt model lines l = (Ok m, l') -> well_formed m.
Proof.
  apply (parseLines_invariant rt well_formed Step_well_formed).
Qed.

Lemma parseModel_well_formed (rt : Py.Runtime) (contents : Py.str) (l : log)
  (m : Model) (l' : log) :
  parseModel rt contents l = (Ok m, l') -> well_formed m.
Proof.
  apply parseLines_well_formed. exact newModel_well_formed.
Qed.

End WellFormedFacts.

(* ================================================================== *)
(** * Properties of parsed models *)

Module ParsedFacts.

Import Frame PyFacts DictFacts FrameFacts WellFormedFacts.

Lemma In_values {V} (d : Dict.t V) (v : V) :
  In v (Dict.values d) <-> exists k, In (k, v) d.
Proof.
  unfold Dict.values. rewrite in_map_iff. split.
  - intros ([k v'] & <- & Hin). now exists k.
  - intros (k & Hin). now exists (k, v).
Qed.

(** Where every person carries its key as [dotNodeName], the node names of
    the values are the keys. *)
Lemma node_names_keys (d : Dict.t Person) :
  (forall k p, In (k, p) d -> dotNodeName p = k) ->
  map dotNodeName (Dict.values d) = Dict.keys d.
Proof.
  unfold Dict.values, Dict.keys. induction d as [|[k p] d IH]; intros H;
    cbn [map fst snd]; [reflexivity|].
  rewrite (H k p (or_introl eq_refl)). f_equal. apply IH.
  intros k' p' Hin. apply H. now right.
Qed.

Lemma dmu_known (p : Person) :
  In (dmu p) dmu_codes ->
  getDmuDescription p <> `"dmu?"
  /\ getStyleForDmu (dmu p) (fullName p) <> `"white".
Proof.
  unfold getDmuDescription, getStyleForDmu, dmu_codes. cbn [In].
  intros [H|[H|[H|[H|[H|[]]]]]]; rewrite <- H; split; discriminate.
Qed.

Lemma sentiment_known (p : Person) :
  In (sentiment p) sentiment_codes ->
  getSentimentDescription p <> `"sentiment?"
  /\ getStyleForSentiment (sentiment p) (fullName p) <> `"white".
Proof.
  unfold getSentimentDescription, getStyleForSentiment, sentiment_codes.
  cbn [In]. intros [H|[H|[H|[]]]]; rewrite <- H; split; discriminate.
Qed.

Lemma reserved_placeholder (p : Person) (r : Py.str) :
  Dict.get r (attributes p) = None ->
  hasAttribute p r = false /\ getAttribute p r = `"Unknown: " ++ r.
Proof.
  intros H. unfold hasAttribute, Dict.has, getAttribute. now rewrite H.
Qed.

Lemma criterion_on_reserved_key (p : Person) (k v : Py.str) :
  Dict.get (Py.strip k) (attributes p) = None ->
  ~ In 61%N k ->
  Py.contains (Py.strip v) (`"Unknown: " ++ Py.strip k) = false ->
  attributeSearch_fails p (k ++ `"=" ++ v) = true.
Proof.
  intros Hg Hk Hc. unfold attributeSearch_fails.
  assert (E : Py.contains `"=" (k ++ `"=" ++ v) = true).
  { apply contains_spec. now exists k, v. }
  rewrite E. cbn [negb].
  change (k ++ Py.lit "=" ++ v) with (k ++ 61%N :: v).
  change (Py.lit "=") with [61%N]. rewrite (split1_char 61 k v Hk).
  destruct (reserved_placeholder p (Py.strip k) Hg) as [_ ->].
  now rewrite Hc.
Qed.

End ParsedFacts.

(** X1: in a parsed model the keys of the person mapping are pairwise
    different, every person is stored under its own [dotNodeName], which is
    the nodeId of its trimmed full name, and is found under it by
    [getPersonByName]; so no two persons of the model share a node name. *)
Theorem X1_people_keyed_by_nodeId (rt : Py.Runtime) (contents : Py.str)
  (l : log) (m : Model) (l' : log) :
  parseModel rt contents l = (Ok m, l') ->
  NoDup (Dict.keys (people m))
  /\ NoDup (map dotNodeName (Dict.values (people m)))
  /\ forall k p, In (k, p) (people m) ->
       dotNodeName p = k
       /\ convertHumanNameToDotNodeName (fullName p) = k
       /\ Py.strip (fullName p) = fullName p
       /\ getPersonByName m k = Ok p.
Proof.
  intros H. apply WellFormedFacts.parseModel_well_formed in H
    as (_ & Hk & Hp & _ & _).
  split; [exact Hk|]. split.
  - rewrite ParsedFacts.node_names_keys; [exact Hk|].
    intros k p Hin. now destruct (Hp k p Hin).
  - intros k p Hin. destruct (Hp k p Hin) as (H1 & H2 & H3 & _).
    repeat split; try assumption.
    unfold getPersonByName. now rewrite (DictFacts.In_get k _ p Hk Hin).
Qed.

Lemma X1_people_keyed_by_nodeId_witness :
  NoDup (Dict.keys (people model_acme))
  /\ NoDup (map dotNodeName (Dict.values (people model_acme))).
Proof.
  destruct (X1_people_keyed_by_nodeId Py.ascii_runtime doc_acme [] model_acme
              []) as (H1 & H2 & _).
  - vm_compute. reflexivity.
  - split; assumption.
Defined.

(** X2: every person of a parsed model has a [dmu] among D, B, I, G, U and a
    [sentiment] among P, O, N; the descriptions [dmu?] and [sentiment?] and
    the colour [white] of the classification row are never drawn for it. *)
Theorem X2_classification_codes_known (rt : Py.Runtime) (contents : Py.str)
  (l : log) (m : Model) (l' : log) (p : Person) :
  parseModel rt contents l = (Ok m, l') ->
  In p (Dict.values (people m)) ->
  In (dmu p) Frame.dmu_codes
  /\ In (sentiment p) Frame.sentiment_codes
  /\ getDmuDescription p <> `"dmu?"
  /\ getSentimentDescription p <> `"sentiment?"
  /\ getStyleForDmu (dmu p) (fullName p) <> `"white"
  /\ getStyleForSentiment (sentiment p) (fullName p) <> `"white".
Proof.
  intros H Hin. apply WellFormedFacts.parseModel_well_formed in H
    as (_ & _ & Hp & _ & _).
  apply ParsedFacts.In_values in Hin as [k Hin].
  destruct (Hp k p Hin) as (_ & _ & _ & Hd & Hs & _).
  destruct (ParsedFacts.dmu_known p Hd), (ParsedFacts.sentiment_known p Hs).
  repeat split; assumption.
Qed.

Lemma X2_classification_codes_known_witness :
  getDmuDescription (person_in `"Bob" `"Sales") <> `"dmu?"
  /\ getSentimentDescription (person_in `"Bob" `"Sales") <> `"sentiment?".
Proof.
  destruct (X2_classification_codes_known Py.ascii_runtime doc_acme []
              model_acme [] (person_in `"Bob" `"Sales"))
    as (_ & _ & H1 & H2 & _).
  - vm_compute. reflexivity.
  - right. left. reflexivity.
  - split; assumption.
Defined.

(** X3: the team names of a parsed model are pairwise different, and the
    team of every person is either the sentinel [??] or one of them, so
    every assigned team has its subgraph. *)
Theorem X3_teams_cover_assignments (rt : Py.Runtime) (contents : Py.str)
  (l : log) (m : Model) (l' : log) :
  parseModel rt contents l = (Ok m, l') ->
  NoDup (teams m)
  /\ forall p, In p (Dict.values (people m)) ->
       team p = `"??" \/ In (team p) (teams m).
Proof.
  intros H. apply WellFormedFacts.parseModel_well_formed in H
    as (_ & _ & Hp & _ & Ht).
  split; [exact Ht|]. intros p Hin.
  apply ParsedFacts.In_values in Hin as [k Hin].
  now destruct (Hp k p Hin) as (_ & _ & _ & _ & _ & H6 & _).
Qed.

Lemma X3_teams_cover_assignments_witness :
  NoDup (teams model_acme)
  /\ (team (person_in `"Bob" `"Sales") = `"??"
      \/ In (team (person_in `"Bob" `"Sales")) (teams model_acme)).
Proof.
  destruct (X3_teams_cover_assignments Py.ascii_runtime doc_acme [] model_acme
              []) as [Hn Hp].
  - vm_compute. reflexivity.
  - split; [exact Hn|]. apply Hp. right. left. reflexivity.
Defined.

(** X4: the keys [influence], [sentiment], [dmu] and [team] are never stored
    among the attributes of a parsed person: reading them as attributes
    gives the placeholder, and an attribute criterion on such a key whose
    text does not occur in that placeholder excludes every parsed person
    (so [team=Eng] among the attribute criteria excludes everybody). *)
Theorem X4_reserved_keys_are_not_attributes (rt : Py.Runtime)
  (contents : Py.str) (l : log) (m : Model) (l' : log) (p : Person) :
  parseModel rt contents l = (Ok m, l') ->
  In p (Dict.values (people m)) ->
  (forall r, In r Frame.reserved_keys ->
     hasAttribute p r = false /\ getAttribute p r = `"Unknown: " ++ r)
  /\ forall args k v,
       In (k ++ `"=" ++ v) (args_attributeMatches args) ->
       ~ In 61%N k ->
       In (Py.strip k) Frame.reserved_keys ->
       Py.contains (Py.strip v) (`"Unknown: " ++ Py.strip k) = false ->
       isPersonExcluded args p = true.
Proof.
  intros H Hin. apply WellFormedFacts.parseModel_well_formed in H
    as (_ & _ & Hp & _ & _).
  apply ParsedFacts.In_values in Hin as [key Hin].
  destruct (Hp key p Hin) as (_ & _ & _ & _ & _ & _ & _ & Hr).
  split.
  - intros r Hrk. apply ParsedFacts.reserved_placeholder. now apply Hr.
  - intros args k v Hc Hk Hres Hno. unfold isPersonExcluded.
    assert (E : existsb (attributeSearch_fails p) (args_attributeMatches args)
                = true).
    { apply existsb_exists. exists (k ++ `"=" ++ v). split; [exact Hc|].
      apply ParsedFacts.criterion_on_reserved_key; try assumption.
      now apply Hr. }
    rewrite E.
    destruct (args_attributeMatches args); [destruct Hc | reflexivity].
Qed.

Lemma X4_reserved_keys_are_not_attributes_witness :
  getAttribute (person_in `"Bob" `"Sales") `"team" = `"Unknown: team"
  /\ isPersonExcluded args_attribute_team (person_in `"Bob" `"Sales") = true.
Proof.
  destruct (X4_reserved_keys_are_not_attributes Py.ascii_runtime doc_acme []
              model_acme [] (person_in `"Bob" `"Sales")) as [Hr Hx].
  - vm_compute. reflexivity.
  - right. left. reflexivity.
  - split.
    + apply Hr. simpl. auto 10.
    + apply (Hx args_attribute_team `"team" `"Eng").
      * left. reflexivity.
      * vm_compute. intuition discriminate.
      * simpl. auto 10.
      * reflexivity.
Defined.

Module EdgeFacts.

Import Frame PyFacts DictFacts FrameFacts WellFormedFacts.

(** A name that is a key of the persons resolves. *)
Lemma key_resolves (model : Model) (name : Py.str) :
  Dict.has name (people model) = true ->
  (exists p, getPersonByName model name = Ok p)
  /\ (exists o, findPerson model name = Ok o)
  /\ ~ Render.unresolved model name.
Proof.
  unfold Dict.has. destruct (Dict.get name (people model)) as [p|] eqn:E;
    [intros _ | discriminate].
  split; [exists p; unfold getPersonByName; now rewrite E|].
  assert (Hn : ~ Render.unresolved model name).
  { intros [Hg _]. congruence. }
  split; [|exact Hn].
  destruct (RenderFacts.findPerson_cases model name) as [Hok|[_ U]];
    [exact Hok | contradiction].
Qed.

(** Steps never remove a key of the persons. *)
Lemma Step_has (k : Py.str) (a b : Model) :
  Dict.has k (people a) = true -> Step a b -> Dict.has k (people b) = true.
Proof.
  intros H Hs.
  destruct Hs as [|t|name|key p edgeType dest Hl Hg|key p p' t Hl Hg Hs];
    try exact H.
  - cbn [declared people]. now apply has_set_mono.
  - rewrite (update_fields a key t p' Hl). cbn [people].
    now apply has_set_mono.
Qed.

Lemma parseLines_has (rt : Py.Runtime) (k : Py.str) (lines : list Py.str)
  (model : Model) (l : log) (m : Model) (l' : log) :
  Dict.has k (people model) = true ->
  parseLines rt model lines l = (Ok m, l') ->
  Dict.has k (people m) = true.
Proof.
  apply (parseLines_invariant rt
           (fun x => Dict.has k (people x) = true) (Step_has k)).
Qed.

Lemma parseLines_declared (rt : Py.Runtime) (line : Py.str)
  (lines : list Py.str) :
  forall model l m l',
  In line lines -> Parser.is_declaration line = true ->
  parseLines rt model lines l = (Ok m, l') ->
  Dict.has (Parser.nodeId_of_line line) (people m) = true.
Proof.
  induction lines as [|x rest IH]; intros model l m l' Hin Hd; [destruct Hin|].
  cbn [parseLines]. unfold bind.
  destruct (parseLine rt model x l) as [[m1|e] l1] eqn:E1; [|discriminate].
  destruct Hin as [->|Hin]; [|now apply IH].
  rewrite (ParserFacts.parseLine_declaration rt model line l Hd),
    addPerson_eq in E1.
  injection E1 as <- _. apply parseLines_has.
  cbn [declared people]. unfold Dict.has, Parser.nodeId_of_line.
  now rewrite CursorFacts.get_set_same.
Qed.

End EdgeFacts.

(** X5: every edge of a parsed model starts at the key of a person of the
    model, so its origin always resolves, and ends at a normalised nodeId
    (normalising it again changes nothing). *)
Theorem X5_edge_origins_resolve (rt : Py.Runtime) (contents : Py.str)
  (l : log) (m : Model) (l' : log) (e : Edge) :
  parseModel rt contents l = (Ok m, l') ->
  In e (edges m) ->
  (exists p, getPersonByName m (origin e) = Ok p)
  /\ (exists o, findPerson m (origin e) = Ok o)
  /\ ~ Render.unresolved m (origin e)
  /\ convertHumanNameToDotNodeName (destination e) = destination e.
Proof.
  intros H Hin. apply WellFormedFacts.parseModel_well_formed in H
    as (_ & _ & _ & He & _).
  destruct (He e Hin) as [Ho Hd].
  destruct (EdgeFacts.key_resolves m (origin e) Ho) as (H1 & H2 & H3).
  repeat split; assumption.
Qed.

Lemma X5_edge_origins_resolve_witness :
  (exists o, findPerson model_acme `"Alice" = Ok o)
  /\ convertHumanNameToDotNodeName `"Bob" = `"Bob".
Proof.
  destruct (X5_edge_origins_resolve Py.ascii_runtime doc_acme [] model_acme []
              {| origin := `"Alice"; type := `"supports";
                 destination := `"Bob" |}) as (_ & H2 & _ & H4).
  - vm_compute. reflexivity.
  - left. reflexivity.
  - split; assumption.
Defined.

(** X6: a person declared anywhere in the outline is a key of the parsed
    model, also when the declaration comes after the connection that names
    it: a destination text with the nodeId of a declaration line resolves. *)
Theorem X6_declared_names_resolve (rt : Py.Runtime) (contents : Py.str)
  (l : log) (m : Model) (l' : log) (line destination : Py.str) :
  parseModel rt contents l = (Ok m, l') ->
  In line (Py.split Py.NL contents) ->
  Parser.is_declaration line = true ->
  convertHumanNameToDotNodeName destination = Parser.nodeId_of_line line ->
  Dict.has (Parser.nodeId_of_line line) (people m) = true
  /\ (exists o, findPerson m (convertHumanNameToDotNodeName destination) = Ok o)
  /\ ~ Render.unresolved m (convertHumanNameToDotNodeName destination).
Proof.
  intros H Hin Hd Hc. unfold parseModel in H.
  pose proof (EdgeFacts.parseLines_declared rt line _ _ _ _ _ Hin Hd H) as Hh.
  split; [exact Hh|]. rewrite Hc.
  now destruct (EdgeFacts.key_resolves m _ Hh) as (_ & H2 & H3).
Qed.

Lemma X6_declared_names_resolve_witness :
  exists o, findPerson model_acme (convertHumanNameToDotNodeName `" Bob ")
            = Ok o.
Proof.
  destruct (X6_declared_names_resolve Py.ascii_runtime doc_acme [] model_acme
              [] `"Bob" `" Bob ") as (_ & H & _).
  - vm_compute. reflexivity.
  - vm_compute. auto 10.
  - reflexivity.
  - reflexivity.
  - exact H.
Defined.

(* ================================================================== *)
(** * When parsing raises *)

Module RaiseFacts.

Import Frame LineKind PyFacts DictFacts FrameFacts WellFormedFacts.

Lemma the_lastPerson_none (model : Model) (l : log) :
  lastPerson model = None ->
  the_lastPerson model l = (Raise no_lastPerson, l).
Proof. intros H. unfold the_lastPerson. now rewrite H. Qed.

Lemma the_lastPerson_some (model : Model) (l : log) :
  Cursor.cursor_ok model -> lastPerson model <> None ->
  exists p, the_lastPerson model l = (Ok p, l).
Proof.
  intros Hc Hn. unfold the_lastPerson.
  destruct (lastPerson model) as [key|] eqn:E; [|contradiction].
  destruct (Hc key E) as (p & -> & _). now exists p.
Qed.

Lemma tab_line (line : Py.str) :
  Py.startswith [Py.TAB] line = true ->
  Py.eqb line [] = false
  /\ Py.startswith `"@" line && Py.contains `":" line = false.
Proof.
  intros H. apply startswith_char in H as [r ->]. now split.
Qed.

(** A property line raises or not as the cursor is unset or set. *)
Lemma parsePersonProperty_cursor (rt : Py.Runtime) (model : Model)
  (line : Py.str) (l : log) :
  Py.contains `":" line = true ->
  (lastPerson model = None ->
   parsePersonProperty rt model line l = (Raise no_lastPerson, l))
  /\ (Cursor.cursor_ok model -> lastPerson model <> None ->
      exists m' l', parsePersonProperty rt model line l = (Ok m', l')).
Proof.
  intros Hc. unfold parsePersonProperty.
  destruct (split1_contains _ _ Hc) as (k & v & ->). split.
  - intros Hn.
    repeat match goal with
           | |- context [if Py.eqb ?a ?b then _ else _] =>
               destruct (Py.eqb a b)
           end; unfold bind; rewrite ?CoercionFacts.addTeam_lastPerson;
      now rewrite (the_lastPerson_none model l Hn).
  - intros Hok Hn. destruct (the_lastPerson_some model l Hok Hn) as [p Ep].
    repeat match goal with
           | |- context [if Py.eqb ?a ?b then _ else _] =>
               destruct (Py.eqb a b)
           end; unfold bind; rewrite ?CoercionFacts.addTeam_lastPerson, Ep.
    + eexists; eexists; reflexivity.
    + destruct (CoercionFacts.setSentiment_ok rt p (Py.strip v) l)
        as (p' & l' & ->). eexists; eexists; reflexivity.
    + destruct (CoercionFacts.setDmu_ok rt p (Py.strip v) l)
        as (p' & l' & ->). eexists; eexists; reflexivity.
    + eexists; eexists; reflexivity.
    + eexists; eexists; reflexivity.
Qed.

(** Every line is of one kind: it declares a person, it needs one, or it
    leaves people and cursor alone. *)
Lemma parseLine_kinds (rt : Py.Runtime) (model : Model) (line : Py.str)
  (l : log) :
  (declares line = true /\ needs_person line = false
   /\ exists l', parseLine rt model line l
                 = (Ok (declared model (declared_name line)), l'))
  \/ (declares line = false /\ needs_person line = true
      /\ (lastPerson model = None ->
          parseLine rt model line l = (Raise no_lastPerson, l))
      /\ (Cursor.cursor_ok model -> lastPerson model <> None ->
          exists m' l', parseLine rt model line l = (Ok m', l')
                        /\ lastPerson m' = lastPerson model))
  \/ (declares line = false /\ needs_person line = false
      /\ exists m', parseLine rt model line l = (Ok m', l)
                    /\ lastPerson m' = lastPerson model
                    /\ people m' = people model).
Proof.
  destruct (Parser.is_directive line) eqn:Ed.
  { right. right.
    destruct (Directive.parseLine_directive rt model line l Ed)
      as (m' & E & Hp & _ & _ & Hl).
    unfold Parser.is_directive in Ed. unfold declares, needs_person.
    rewrite Ed. apply andb_true_iff in Ed as [Ea _].
    apply startswith_spec in Ea as [r ->].
    repeat split; try (cbn; rewrite ?andb_false_r; reflexivity).
    now exists m'. }
  unfold Parser.is_directive in Ed.
  unfold parseLine, declares, needs_person, declared_name, detail_text.
  rewrite Ed. destruct (Py.eqb line []) eqn:Eb.
  { right. right. apply eqb_eq in Eb. subst line.
    repeat split. now exists model. }
  cbn [negb andb]. destruct (Py.startswith [Py.TAB] line) eqn:Et;
    cbn [andb].
  2:{ left. repeat split. rewrite addPerson_eq. eexists. reflexivity. }
  destruct (Py.contains `"->" (Py.replace _ _ _)) eqn:Ea; cbn [negb andb].
  - unfold parseConnection.
    destruct (split1_contains _ _ Ea) as (t & d & ->).
    destruct (negb (Py.eqb t []) && negb (Py.eqb d [])) eqn:En.
    + right. left. repeat split.
      * intros Hn. unfold addConnection, bind.
        now rewrite (the_lastPerson_none model l Hn).
      * intros Hok Hn. unfold addConnection, bind.
        destruct (the_lastPerson_some model l Hok Hn) as [p ->].
        eexists; eexists. split; reflexivity.
    + right. right. repeat split. now exists model.
  - destruct (Py.contains `":" (Py.replace _ _ _)) eqn:Ec; cbn [negb andb].
    + right. left.
      destruct (parsePersonProperty_cursor rt model _ l Ec) as [Hr Hs].
      repeat split; [exact Hr|]. intros Hok Hn.
      destruct (Hs Hok Hn) as (m' & l' & E). exists m', l'.
      split; [exact E|].
      apply parsePersonProperty_step in E
        as (key & p & p' & t & Hk & _ & _ & ->).
      now rewrite (update_fields model key t p' Hk).
    + left. repeat split. unfold bind, logging. rewrite addPerson_eq.
      eexists. reflexivity.
Qed.

(** Once the cursor is set, no line raises. *)
Lemma parseLines_after_person (rt : Py.Runtime) (lines : list Py.str) :
  forall model l,
  well_formed model -> lastPerson model <> None ->
  exists m l', parseLines rt model lines l = (Ok m, l').
Proof.
  induction lines as [|line rest IH]; intros model l Hw Hn; cbn [parseLines].
  - now exists model, l.
  - unfold bind.
    assert (H : exists m1 l1, parseLine rt model line l = (Ok m1, l1)
                              /\ lastPerson m1 <> None).
    { destruct (parseLine_kinds rt model line l)
        as [(_ & _ & l1 & E)|[(_ & _ & _ & Hs)|(_ & _ & m1 & E & Hl & _)]].
      - eexists; eexists. split; [exact E | discriminate].
      - destruct (Hs (proj1 Hw) Hn) as (m1 & l1 & E & Hl).
        exists m1, l1. split; [exact E | congruence].
      - exists m1, l. split; [exact E | congruence]. }
    destruct H as (m1 & l1 & E & Hn1). rewrite E. apply IH; [|exact Hn1].
    exact (Step_well_formed _ _ Hw (parseLine_step _ _ _ _ _ _ E)).
Qed.

(** Before the first person: parsing raises exactly when a line that needs a
    person comes before every line that declares one. *)
Lemma parseLines_raise_iff (rt : Py.Runtime) (lines : list Py.str) :
  forall model l,
  well_formed model -> lastPerson model = None ->
  ((exists pre d rest,
      lines = pre ++ d :: rest
      /\ forallb (fun x => negb (declares x)) pre = true
      /\ needs_person d = true)
   /\ exists l', parseLines rt model lines l = (Raise no_lastPerson, l'))
  \/ ((forall pre d rest,
         lines = pre ++ d :: rest ->
         forallb (fun x => negb (declares x)) pre = true ->
         needs_person d = false)
      /\ exists m l', parseLines rt model lines l = (Ok m, l')).
Proof.
  induction lines as [|line rest IH]; intros model l Hw Hn; cbn [parseLines].
  - right. split; [|now exists model, l].
    intros [|? ?] d r H; discriminate.
  - unfold bind.
    destruct (parseLine_kinds rt model line l)
      as [(Hd & Hp & l1 & E)|[(Hd & Hp & Hr & _)|(Hd & Hp & m1 & E & Hl & Hpe)]].
    + right. rewrite E. split.
      * intros [|x pre] d r Heq Hpre.
        -- injection Heq as <- _. exact Hp.
        -- injection Heq as <- _. cbn [forallb] in Hpre.
           rewrite Hd in Hpre. discriminate.
      * apply parseLines_after_person; [|discriminate].
        apply (Step_well_formed model _ Hw). constructor.
    + left. rewrite (Hr Hn). split; [|now exists l].
      exists [], line, rest. now repeat split.
    + rewrite E.
      assert (Hw1 : well_formed m1).
      { exact (Step_well_formed _ _ Hw (parseLine_step _ _ _ _ _ _ E)). }
      destruct (IH m1 l Hw1 (eq_trans Hl Hn))
        as [[(pre & d & r & Heq & Hpre & Hnd) Hraise]|[Hall Hok]].
      * left. split; [|exact Hraise].
        exists (line :: pre), d, r. subst rest. repeat split; try assumption.
        cbn [forallb]. now rewrite Hd, Hpre.
      * right. split; [|exact Hok].
        intros [|x pre] d r Heq Hpre.
        -- injection Heq as <- _. exact Hp.
        -- injection Heq as <- ->. cbn [forallb] in Hpre.
           apply andb_true_iff in Hpre as [_ Hpre]. now apply (Hall pre d r).
Qed.

End RaiseFacts.

(** X7: parsing raises exactly when the outline has a line that needs a
    person (a property line, or a connection line with text on both sides
    of its arrow) before every line that declares one; the exception is then
    the [AttributeError] of the missing [lastPerson], never another one. *)
Theorem X7_parse_raises_iff (rt : Py.Runtime) (contents : Py.str) (l : log) :
  ((exists e l', parseModel rt contents l = (Raise e, l'))
   <-> exists pre d rest,
         Py.split Py.NL contents = pre ++ d :: rest
         /\ forallb (fun x => negb (LineKind.declares x)) pre = true
         /\ LineKind.needs_person d = true)
  /\ forall e l', parseModel rt contents l = (Raise e, l') ->
                  e = LineKind.no_lastPerson.
Proof.
  unfold parseModel.
  destruct (RaiseFacts.parseLines_raise_iff rt (Py.split Py.NL contents)
              newModel l WellFormedFacts.newModel_well_formed eq_refl)
    as [[Hex [l1 E]]|[Hall (m & l1 & E)]]; rewrite E.
  - split; [split; [intros _; exact Hex | intros _; eauto]|].
    now intros e l' [= <- _].
  - split; [split|]; try (intros (e & l' & H); discriminate).
    + intros (pre & d & rest & Heq & Hpre & Hd).
      rewrite (Hall pre d rest Heq Hpre) in Hd. discriminate.
    + intros e l' H. discriminate.
Qed.

Lemma X7_parse_raises_iff_witness :
  exists e l', parseModel Py.ascii_runtime doc_property_first [] = (Raise e, l').
Proof.
  apply (proj1 (X7_parse_raises_iff Py.ascii_runtime doc_property_first [])).
  exists [`"@title: T"], ([Py.TAB] ++ `"team: Eng"), [`"Alice"].
  repeat split.
Defined.

Module LineFacts.

Import Frame LineKind PyFacts DictFacts FrameFacts WellFormedFacts.

Lemma declared_strip (model : Model) (a b : Py.str) :
  Py.strip a = Py.strip b -> declared model a = declared model b.
Proof. intros H. unfold declared, fresh_person. now rewrite H. Qed.

Lemma space_line (line : Py.str) :
  line <> [] -> forallb Py.isspace line = true ->
  Py.eqb line [] = false /\ Py.startswith `"@" line = false
  /\ Py.strip line = [].
Proof.
  intros Hn Hs. split; [now apply eqb_neq|].
  split; [|now apply StripFacts.strip_all_space].
  destruct line as [|c r]; [contradiction|]. cbn [forallb] in Hs.
  apply andb_true_iff in Hs as [Hc _]. cbn [Py.lit Py.startswith].
  destruct (N.eqb_spec (N_of_ascii "@") c) as [<-|_]; [discriminate|].
  reflexivity.
Qed.

(** The model after a declaration, looked up. *)
Lemma declared_lookup (model : Model) (name : Py.str) :
  let key := convertHumanNameToDotNodeName (Py.strip name) in
  lastPerson (declared model name) = Some key
  /\ Dict.get key (people (declared model name)) = Some (fresh_person name)
  /\ (forall k, k <> key ->
        Dict.get k (people (declared model name)) = Dict.get k (people model))
  /\ (Dict.has key (people model) = true ->
      Dict.keys (people (declared model name)) = Dict.keys (people model))
  /\ (Dict.has key (people model) = false ->
      Dict.keys (people (declared model name))
      = Dict.keys (people model) ++ [key])
  /\ edges (declared model name) = edges model
  /\ teams (declared model name) = teams model
  /\ title (declared model name) = title model.
Proof.
  cbn [declared lastPerson people edges teams title].
  split; [reflexivity|]. split; [apply CursorFacts.get_set_same|].
  split; [|split; [apply keys_set_present|split; [apply keys_set_absent|]]].
  - intros k Hk. apply get_set_other. now apply eqb_neq.
  - now repeat split.
Qed.

Lemma sanitize_clean (v : Py.str) :
  ~ In 38%N v -> ~ In 124%N v -> flat_map Attribute.sanitize_cp v = v.
Proof.
  induction v as [|c v IH]; intros H1 H2; [reflexivity|].
  cbn [flat_map]. unfold Attribute.sanitize_cp at 1.
  destruct (N.eqb_spec c 38) as [->|_]; [exfalso; apply H1; now left|].
  destruct (N.eqb_spec c 124) as [->|_]; [exfalso; apply H2; now left|].
  cbn [app]. f_equal. apply IH; intros H; [apply H1 | apply H2]; now right.
Qed.

Lemma getAttribute_get (p q : Person) (k : Py.str) :
  Dict.get k (attributes p) = Dict.get k (attributes q) ->
  getAttribute p k = getAttribute q k.
Proof. intros H. unfold getAttribute. now rewrite H. Qed.

End LineFacts.

(** X8: a non-empty line of white space only (indented or not) declares a
    person with the empty full name and the empty nodeId, and logs the
    warning about the name (after the warning that the line cannot be
    parsed, when the line is indented). *)
Theorem X8_blank_looking_line_declares_empty_person (rt : Py.Runtime)
  (model : Model) (line : Py.str) (l : log) :
  line <> [] -> forallb Py.isspace line = true ->
  parseLine rt model line l
  = (Ok (Frame.declared model []),
     (if Py.startswith [Py.TAB] line
      then l ++ [(WARNING, `"Cannot parse line: ")]
      else l) ++ [Frame.name_warning []])
  /\ lastPerson (Frame.declared model []) = Some []
  /\ exists p, Dict.get [] (people (Frame.declared model [])) = Some p
               /\ fullName p = [] /\ dotNodeName p = [].
Proof.
  intros Hn Hs. destruct (LineFacts.space_line line Hn Hs) as (Eb & Ea & Es).
  split.
  - unfold parseLine. rewrite Eb, Ea. cbn [andb].
    destruct (Py.startswith [Py.TAB] line).
    + rewrite Es. change (Py.replace [Py.TAB] [] []) with (@nil N).
      cbn [Py.contains Py.startswith Py.lit orb]. unfold bind, logging.
      now rewrite FrameFacts.addPerson_eq.
    + rewrite FrameFacts.addPerson_eq.
      rewrite (LineFacts.declared_strip model line [] Es).
      unfold Frame.name_warning. rewrite Es. reflexivity.
  - split; [reflexivity|]. exists (Frame.fresh_person []).
    split; [|split; reflexivity].
    exact (CursorFacts.get_set_same [] (Frame.fresh_person []) (people model)).
Qed.

Lemma X8_blank_looking_line_declares_empty_person_witness :
  parseLine Py.ascii_runtime model_alice `"  " []
  = (Ok (Frame.declared model_alice []), [Frame.name_warning []]).
Proof.
  apply (proj1 (X8_blank_looking_line_declares_empty_person Py.ascii_runtime
                  model_alice `"  " [] ltac:(discriminate) eq_refl)).
Defined.

(** X9: a declaration line makes a new person with the default fields the
    last person and stores it under its nodeId; a person stored there before
    is replaced (its properties are gone) and keeps its place among the
    keys, a new key goes to the end; every other person, the edges, the
    teams and the title stay. *)
Theorem X9_declaration_replaces_in_place (rt : Py.Runtime) (model : Model)
  (line : Py.str) (l : log) :
  Parser.is_declaration line = true ->
  let key := Parser.nodeId_of_line line in
  exists m' l',
    parseLine rt model line l = (Ok m', l')
    /\ lastPerson m' = Some key
    /\ Dict.get key (people m') = Some (Frame.fresh_person line)
    /\ (forall k, k <> key ->
          Dict.get k (people m') = Dict.get k (people model))
    /\ (Dict.has key (people model) = true ->
        Dict.keys (people m') = Dict.keys (people model))
    /\ (Dict.has key (people model) = false ->
        Dict.keys (people m') = Dict.keys (people model) ++ [key])
    /\ edges m' = edges model /\ teams m' = teams model
    /\ title m' = title model.
Proof.
  intros Hd key.
  rewrite (ParserFacts.parseLine_declaration rt model line l Hd),
    FrameFacts.addPerson_eq.
  eexists; eexists. split; [reflexivity|].
  exact (LineFacts.declared_lookup model line).
Qed.

Lemma X9_declaration_replaces_in_place_witness :
  exists m' l',
    parseLine Py.ascii_runtime model_alice `"Alice" [] = (Ok m', l')
    /\ Dict.get `"Alice" (people m') = Some (Frame.fresh_person `"Alice")
    /\ Dict.keys (people m') = Dict.keys (people model_alice).
Proof.
  destruct (X9_declaration_replaces_in_place Py.ascii_runtime model_alice
              `"Alice" [] eq_refl) as (m' & l' & E & _ & Hg & _ & Hk & _).
  exists m', l'. split; [exact E|]. split; [exact Hg|].
  apply Hk. reflexivity.
Defined.

(** X10: a property line that does not raise changes the last person only:
    that person keeps its full name and nodeId, every other person, the keys
    and their order, the edges, the title and the cursor stay as they are. *)
Theorem X10_property_line_touches_last_person (rt : Py.Runtime)
  (model : Model) (line : Py.str) (l : log) (m' : Model) (l' : log) :
  LineKind.is_property line = true ->
  parseLine rt model line l = (Ok m', l') ->
  exists key p p',
    lastPerson model = Some key
    /\ Dict.get key (people model) = Some p
    /\ Dict.get key (people m') = Some p'
    /\ fullName p' = fullName p /\ dotNodeName p' = dotNodeName p
    /\ (forall k, k <> key ->
          Dict.get k (people m') = Dict.get k (people model))
    /\ Dict.keys (people m') = Dict.keys (people model)
    /\ edges m' = edges model /\ title m' = title model
    /\ lastPerson m' = lastPerson model.
Proof.
  unfold LineKind.is_property, LineKind.detail_text. intros Hp.
  apply andb_true_iff in Hp as [Hp Hc]. apply andb_true_iff in Hp as [Ht Ha].
  apply negb_true_iff in Ha.
  destruct (RaiseFacts.tab_line line Ht) as [Eb Ed].
  unfold parseLine. rewrite Eb, Ed, Ht, Ha, Hc. intros E.
  apply FrameFacts.parsePersonProperty_step in E
    as (key & p & p' & t & Hk & Hg & Hs & ->).
  rewrite (WellFormedFacts.update_fields model key t p' Hk).
  destruct (WellFormedFacts.property_name p p' t Hs) as [Hn Hf].
  exists key, p, p'. cbn [people edges title lastPerson].
  repeat split; try assumption.
  - apply CursorFacts.get_set_same.
  - intros k Hne. apply DictFacts.get_set_other.
    now apply PyFacts.eqb_neq.
  - apply DictFacts.keys_set_present. unfold Dict.has. now rewrite Hg.
  - now symmetry.
Qed.

Lemma X10_property_line_touches_last_person_witness :
  exists key p p',
    lastPerson model_two_teams = Some key
    /\ Dict.get key (people model_two_teams) = Some p
    /\ fullName p' = fullName p
    /\ Dict.get `"Alice"
         (people (update_lastPerson model_two_teams
                    (with_dmu (person_in `"Bob" `"Sales") `"B")))
       = Dict.get `"Alice" (people model_two_teams).
Proof.
  destruct (X10_property_line_touches_last_person Py.ascii_runtime
              model_two_teams ([Py.TAB] ++ `"dmu: B") []
              (update_lastPerson model_two_teams
                 (with_dmu (person_in `"Bob" `"Sales") `"B")) [])
    as (key & p & p' & Hk & Hg & _ & Hf & _ & Ho & _).
  - reflexivity.
  - vm_compute. reflexivity.
  - exists key, p, p'. split; [exact Hk|]. split; [exact Hg|].
    split; [exact Hf|]. apply Ho.
    intros E. rewrite <- E in Hk. vm_compute in Hk. discriminate Hk.
Defined.

(** X11: setting an attribute and reading it back: the key is then present;
    a value that is trimmed, not empty and free of [&] and [|] is read back
    as it was stored; the reads under every other key are as before; and of
    two values set under one key the later one is read. *)
Theorem X11_attribute_set_then_get (p : Person) (k v : Py.str) :
  hasAttribute (setAttribute p k v) k = true
  /\ (Py.strip v = v -> v <> [] -> ~ In 38%N v -> ~ In 124%N v ->
      getAttribute (setAttribute p k v) k = v)
  /\ (forall k', k' <> k ->
        getAttribute (setAttribute p k v) k' = getAttribute p k'
        /\ hasAttribute (setAttribute p k v) k' = hasAttribute p k')
  /\ (forall v',
        getAttribute (setAttribute (setAttribute p k v) k v') k
        = getAttribute (setAttribute p k v') k).
Proof.
  assert (Ea : forall q a b,
            attributes (setAttribute q a b) = Dict.set a b (attributes q))
    by reflexivity.
  split; [|split; [|split]].
  - unfold hasAttribute, Dict.has.
    now rewrite Ea, CursorFacts.get_set_same.
  - intros Hs Hn H1 H2.
    rewrite AttributeFacts.getAttribute_sanitized, Ea.
    rewrite CursorFacts.get_set_same. unfold Attribute.sanitized.
    rewrite (LineFacts.sanitize_clean v H1 H2), Hs.
    destruct v; [contradiction | reflexivity].
  - intros k' Hne. apply PyFacts.eqb_neq in Hne.
    pose proof (DictFacts.get_set_other k' k v (attributes p) Hne) as E.
    split.
    + apply LineFacts.getAttribute_get. now rewrite Ea.
    + unfold hasAttribute, Dict.has. now rewrite Ea, E.
  - intros v'. apply LineFacts.getAttribute_get.
    now rewrite !Ea, !CursorFacts.get_set_same.
Qed.

Lemma X11_attribute_set_then_get_witness :
  getAttribute (setAttribute person_engineer `"country" `"NL") `"country"
  = `"NL"
  /\ getAttribute (setAttribute person_engineer `"country" `"NL") `"title"
     = getAttribute person_engineer `"title".
Proof.
  destruct (X11_attribute_set_then_get person_engineer `"country" `"NL")
    as (_ & Hg & Ho & _).
  split.
  - apply Hg; vm_compute; intuition discriminate.
  - apply Ho. discriminate.
Defined.

Module ConnectionFacts.

Import Frame LineKind PyFacts.

Lemma split1_go_found (sep s acc : Py.str) (kv : Py.str * Py.str) :
  Py.split1_go sep acc s = Some kv -> Py.contains sep s = true.
Proof.
  revert acc. induction s as [|c s IH]; intros acc; cbn [Py.split1_go].
  - destruct (Py.startswith sep []) eqn:E; [|discriminate].
    intros _. cbn [Py.contains]. now rewrite E.
  - destruct (Py.startswith sep (c :: s)) eqn:E.
    + intros _. now apply contains_startswith.
    + intros H. cbn [Py.contains]. rewrite E. cbn [orb]. now apply (IH _ H).
Qed.

Lemma split1_found (sep s : Py.str) (kv : Py.str * Py.str) :
  Py.split1 sep s = Some kv -> Py.contains sep s = true.
Proof. apply split1_go_found. Qed.

End ConnectionFacts.

(** X12: a connection line that does not raise leaves the people, the teams,
    the title, the cursor and the log as they are; with nothing on one side
    of its first arrow it leaves the edges too, otherwise it appends one
    edge at the end: from the nodeId of the last person, with the trimmed
    text before the arrow as type, to the nodeId of the text after it. *)
Theorem X12_connection_line_appends_edge (rt : Py.Runtime) (model : Model)
  (line edgeType destination : Py.str) (l : log) (m' : Model) (l' : log) :
  Py.startswith [Py.TAB] line = true ->
  Py.split1 `"->" (LineKind.detail_text line) = Some (edgeType, destination) ->
  parseLine rt model line l = (Ok m', l') ->
  l' = l /\ people m' = people model /\ teams m' = teams model
  /\ title m' = title model /\ lastPerson m' = lastPerson model
  /\ (((edgeType = [] \/ destination = []) /\ edges m' = edges model)
      \/ (edgeType <> [] /\ destination <> []
          /\ exists key p,
               lastPerson model = Some key
               /\ Dict.get key (people model) = Some p
               /\ edges m'
                  = edges model
                    ++ [ {| origin := dotNodeName p;
                            type := Py.strip edgeType;
                            destination :=
                              convertHumanNameToDotNodeName
                                (Py.strip destination) |} ])).
Proof.
  intros Ht Hs. unfold LineKind.detail_text in Hs.
  destruct (RaiseFacts.tab_line line Ht) as [Eb Ed].
  unfold parseLine.
  rewrite Eb, Ed, Ht, (ConnectionFacts.split1_found _ _ _ Hs).
  unfold parseConnection. rewrite Hs.
  destruct (Py.eqb edgeType []) eqn:Et; cbn [negb andb].
  { apply PyFacts.eqb_eq in Et. intros [= <- <-].
    repeat split. left. split; [now left | reflexivity]. }
  destruct (Py.eqb destination []) eqn:Ed'; cbn [negb andb].
  { apply PyFacts.eqb_eq in Ed'. intros [= <- <-].
    repeat split. left. split; [now right | reflexivity]. }
  apply PyFacts.eqb_neq in Et, Ed'. unfold addConnection, bind.
  destruct (the_lastPerson model l) as [[p|e] l1] eqn:Ep; [|discriminate].
  apply FrameFacts.the_lastPerson_inv in Ep as [-> (key & Hk & Hg)].
  intros [= <- <-]. cbn [people teams title lastPerson edges].
  repeat split. right. repeat split; try assumption. now exists key, p.
Qed.

Lemma X12_connection_line_appends_edge_witness :
  edges (Frame.connected model_alice person_decided `"supports" `"Bob")
  = [ {| origin := `"Alice"; type := `"supports"; destination := `"Bob" |} ]
  /\ people (Frame.connected model_alice person_decided `"supports" `"Bob")
     = people model_alice.
Proof.
  destruct (X12_connection_line_appends_edge Py.ascii_runtime model_alice
              ([Py.TAB] ++ `"supports -> Bob") `"supports " `" Bob" []
              (Frame.connected model_alice person_decided `"supports" `"Bob")
              [])
    as (_ & Hp & _ & _ & _ & [[[H|H] _]|(_ & _ & key & p & _ & _ & He)]).
  - reflexivity.
  - reflexivity.
  - vm_compute. reflexivity.
  - discriminate H.
  - discriminate H.
  - split; [reflexivity | exact Hp].
Defined.

(* ================================================================== *)
(** * The parts of the graph text *)

Module RenderTextFacts.

Import RenderText PyFacts.

Lemma label_of_spec (rt : Py.Runtime) (args : Args) (p : Person) (l : log) :
  exists l', getPersonLabelAsDot rt args p l = (Ok (label_of rt args p), l').
Proof.
  unfold label_of, getPersonLabelAsDot. run_eff.
  destruct (args_profilePictures args);
    [destruct (Py.path_exists rt _)|];
    destruct (hasAttribute p _); destruct (Py.eqb (args_vizType args) _);
    eexists; reflexivity.
Qed.

Lemma style_of_spec (args : Args) (p : Person) (l : log) :
  exists l', getInfluenceStyleAsDot args (influence p) l
             = (Ok (style_of args p), l').
Proof.
  unfold style_of, getInfluenceStyleAsDot. run_eff.
  repeat match goal with
         | |- context [if ?b then _ else _] =>
             destruct b; [eexists; reflexivity|]
         end.
  eexists; reflexivity.
Qed.

(** The node loop appends the statements of the persons that are not
    excluded, in the order of the mapping. *)
Lemma nodesLoop_spec (rt : Py.Runtime) (args : Args) (persons : list Person) :
  forall out l, exists l',
    nodesLoop rt args persons out l
    = (Ok (out ++ concat (map (node_statement rt args)
                            (filter (visible args) persons))), l').
Proof.
  induction persons as [|p rest IH]; intros out l; cbn [nodesLoop filter].
  - exists l. cbn. now rewrite app_nil_r.
  - unfold visible at 1.
    destruct (isPersonExcluded args p); cbn [negb]; [apply IH|].
    unfold bind.
    destruct (label_of_spec rt args p l) as [l1 ->].
    destruct (style_of_spec args p l1) as [l2 ->].
    destruct (IH (out ++ dotNodeName p
                      ++ `" [margin=0, border=invisible, label="
                      ++ label_of rt args p ++ `"," ++ style_of args p
                      ++ `"]" ++ Py.NL) l2) as [l3 E].
    exists l3. rewrite E. cbn [map concat]. unfold node_statement.
    now rewrite <- !app_assoc.
Qed.

(** One turn of the edge loop where the edge does not fail. *)
Lemma edgeAsDot_spec (args : Args) (model : Model) (e : Edge) (out : Py.str)
  (l : log) :
  ~ Render.edge_fails args model e ->
  edgeAsDot args model e out l
  = (Ok (out ++ if edge_drawn args model e then edge_statement model e
                else []), l).
Proof.
  intros Hn. unfold edgeAsDot, edge_drawn, edge_statement, visible.
  destruct (RenderFacts.findPerson_cases model (origin e))
    as [[o Eo]|[Eo Uo]].
  2:{ exfalso. apply Hn. now left. }
  rewrite Eo. step_eff.
  destruct (isPersonExcluded args o) eqn:Ex; cbn [negb andb].
  - destruct (findPerson model (destination e)); now rewrite app_nil_r.
  - destruct (RenderFacts.findPerson_cases model (destination e))
      as [[d Ed]|[Ed Ud]].
    2:{ exfalso. apply Hn. right. now exists o. }
    rewrite Ed. step_eff.
    destruct (isPersonExcluded args d); cbn [negb];
      [now rewrite app_nil_r | reflexivity].
Qed.

Lemma edgesLoop_spec (args : Args) (model : Model) (es : list Edge) :
  forall out l,
  (forall e, In e es -> ~ Render.edge_fails args model e) ->
  edgesLoop args model es out l
  = (Ok (out ++ concat (map (edge_statement model)
                          (filter (edge_drawn args model) es))), l).
Proof.
  induction es as [|e rest IH]; intros out l Hn; cbn [edgesLoop filter].
  - cbn. now rewrite app_nil_r.
  - unfold bind. rewrite (edgeAsDot_spec args model e out l);
      [|apply Hn; now left].
    rewrite IH; [|intros e' Hin; apply Hn; now right].
    destruct (edge_drawn args model e); cbn [map concat];
      now rewrite <- ?app_assoc, ?app_nil_r.
Qed.

End RenderTextFacts.

(** X13: when no edge of the model fails to resolve, the graph text is, in
    this order, the header, the team subgraphs, one node statement for every
    person that is not excluded (in the order of the mapping), one edge
    statement for every edge whose two ends resolve to persons that are not
    excluded (in the order of the edges, drawn to the node name of the
    resolved destination), the legend, and the closing brace. *)
Theorem X13_graph_text_in_order (rt : Py.Runtime) (args : Args)
  (model : Model) (l : log) :
  (forall e, In e (edges model) -> ~ Render.edge_fails args model e) ->
  exists l',
    getModelAsDot rt args model l
    = (Ok (RenderText.header args model
           ++ getTeamsAsDot args model
           ++ concat (map (RenderText.node_statement rt args)
                        (filter (RenderText.visible args)
                           (Dict.values (people model))))
           ++ concat (map (RenderText.edge_statement model)
                        (filter (RenderText.edge_drawn args model)
                           (edges model)))
           ++ getLegendAsDot args ++ `"}"), l').
Proof.
  intros Hn. unfold getModelAsDot.
  match goal with
  | |- context [nodesLoop rt args ?ps ?o] =>
      destruct (RenderTextFacts.nodesLoop_spec rt args ps o l) as [l1 E1]
  end.
  unfold bind. rewrite E1.
  rewrite (RenderTextFacts.edgesLoop_spec args model (edges model) _ l1 Hn).
  exists l1. unfold ret. f_equal. f_equal. unfold RenderText.header.
  destruct (Py.eqb (args_outputType args) _);
    destruct (negb (args_skipDrawingTitle args));
    cbn [app]; now rewrite <- ?app_assoc.
Qed.

Lemma X13_graph_text_in_order_witness :
  exists l',
    getModelAsDot Py.ascii_runtime args_only_Eng model_two_teams []
    = (Ok (RenderText.header args_only_Eng model_two_teams
           ++ getTeamsAsDot args_only_Eng model_two_teams
           ++ RenderText.node_statement Py.ascii_runtime args_only_Eng
                (person_in `"Alice" `"Eng")
           ++ getLegendAsDot args_only_Eng ++ `"}"), l').
Proof.
  destruct (X13_graph_text_in_order Py.ascii_runtime args_only_Eng
              model_two_teams []) as [l' E].
  - intros e [<-|[]] [[Hg _]|(o & _ & _ & [Hg _])]; discriminate Hg.
  - exists l'. rewrite E. reflexivity.
Defined.

(* ================================================================== *)
(** * From the outline to the graph text: the outcomes *)

Module MainFacts.

Import Frame PyFacts.

Lemma parsed_edge_fails (rt : Py.Runtime) (args : Args) (contents : Py.str)
  (l : log) (m : Model) (l1 : log) (e : Edge) :
  parseModel rt contents l = (Ok m, l1) ->
  In e (edges m) ->
  Render.edge_fails args m e ->
  exists o, findPerson m (origin e) = Ok o
            /\ isPersonExcluded args o = false
            /\ Render.unresolved m (destination e).
Proof.
  intros Hp Hin [U|H]; [|exact H]. exfalso.
  apply WellFormedFacts.parseModel_well_formed in Hp as (_ & _ & _ & He & _).
  destruct (He e Hin) as [Ho _].
  now destruct (EdgeFacts.key_resolves m (origin e) Ho) as (_ & _ & Hn).
Qed.

End MainFacts.

(** X14: from the outline to the graph text there are two ways to fail and
    no other: the [AttributeError] of a line that needs a person before any
    is declared, and [Person not found] for an edge of the parsed model whose
    origin is not excluded and whose destination resolves to no person; the
    origin of an edge is never what is not found. *)
Theorem X14_main_failures (rt : Py.Runtime) (args : Args)
  (contents : Py.str) (l : log) (e : exn) (l' : log) :
  main_out rt args contents l = (Raise e, l') ->
  (e = LineKind.no_lastPerson
   /\ parseModel rt contents l = (Raise e, l'))
  \/ exists m l1 edge o name,
       parseModel rt contents l = (Ok m, l1)
       /\ In edge (edges m)
       /\ findPerson m (origin edge) = Ok o
       /\ isPersonExcluded args o = false
       /\ Render.unresolved m (destination edge)
       /\ e = Exception (`"Person not found: " ++ name).
Proof.
  unfold main_out, bind.
  destruct (parseModel rt contents l) as [[m|e0] l1] eqn:Ep.
  - intros H. right.
    destruct (RenderFacts.getModelAsDot_cases rt args m l1)
      as [[(edge & Hin & Hf) (name & l2 & E)]|[_ (out & l2 & E)]];
      rewrite E in H; [|discriminate].
    injection H as <- <-.
    destruct (MainFacts.parsed_edge_fails rt args contents l m l1 edge Ep
                Hin Hf) as (o & Ho & Hx & Hu).
    now exists m, l1, edge, o, name.
  - intros [= <- <-]. left. split; [|reflexivity].
    unfold parseModel in Ep.
    destruct (RaiseFacts.parseLines_raise_iff rt (Py.split Py.NL contents)
                newModel l WellFormedFacts.newModel_well_formed eq_refl)
      as [[_ [l2 E]]|[_ (m & l2 & E)]]; rewrite E in Ep;
      [now injection Ep as <- _ | discriminate].
Qed.

Lemma X14_main_failures_witness :
  exists m l1 edge o name,
    parseModel Py.ascii_runtime doc_ghost [] = (Ok m, l1)
    /\ In edge (edges m)
    /\ findPerson m (origin edge) = Ok o
    /\ isPersonExcluded args_inf o = false
    /\ Render.unresolved m (destination edge)
    /\ Render.not_found `"Ghost" = Exception (`"Person not found: " ++ name).
Proof.
  destruct (X14_main_failures Py.ascii_runtime args_inf doc_ghost []
              (Render.not_found `"Ghost") []) as [[H _]|H].
  - vm_compute. reflexivity.
  - vm_compute in H. discriminate H.
  - exact H.
Defined.

(* ================================================================== *)
(** * What rendering logs *)

Module RenderLogFacts.

Import PyFacts.

Lemma label_silent (rt : Py.Runtime) (args : Args) (p : Person) (l : log) :
  args_profilePictures args = false ->
  exists label, getPersonLabelAsDot rt args p l = (Ok label, l).
Proof.
  intros H. unfold getPersonLabelAsDot. rewrite H. run_eff.
  eexists. reflexivity.
Qed.

Lemma style_plain (args : Args) (influence : Py.str) (l : log) :
  args_vizType args <> `"inf" ->
  getInfluenceStyleAsDot args influence l
  = (Ok `"fillcolor=white, style=filled", l).
Proof.
  intros H. apply eqb_neq in H. unfold getInfluenceStyleAsDot.
  now rewrite H.
Qed.

Lemma nodesLoop_silent (rt : Py.Runtime) (args : Args)
  (persons : list Person) :
  args_vizType args <> `"inf" -> args_profilePictures args = false ->
  forall out l, exists out', nodesLoop rt args persons out l = (Ok out', l).
Proof.
  intros Hv Hp. induction persons as [|p rest IH]; intros out l;
    cbn [nodesLoop].
  - now exists out.
  - destruct (isPersonExcluded args p); [apply IH|]. unfold bind.
    destruct (label_silent rt args p l Hp) as [label ->].
    rewrite (style_plain args (influence p) l Hv). apply IH.
Qed.

End RenderLogFacts.

(** X15: outside the [inf] styling mode and without profile pictures,
    rendering logs nothing, whether it returns the text or raises; every
    node then has the plain white fill. *)
Theorem X15_plain_rendering_is_silent (rt : Py.Runtime) (args : Args)
  (model : Model) (l : log) (r : result Py.str) (l' : log) :
  args_vizType args <> `"inf" ->
  args_profilePictures args = false ->
  getModelAsDot rt args model l = (r, l') ->
  l' = l
  /\ forall p, RenderText.style_of args p = `"fillcolor=white, style=filled".
Proof.
  intros Hv Hp H. split.
  - unfold getModelAsDot in H.
    match type of H with
    | context [nodesLoop rt args ?ps ?o] =>
        destruct (RenderLogFacts.nodesLoop_silent rt args ps Hv Hp o l)
          as [out1 E1]
    end.
    unfold bind in H. rewrite E1 in H.
    destruct (RenderFacts.edgesLoop_cases args model (edges model) out1 l)
      as [[_ [name E]]|[_ [out2 E]]]; rewrite E in H;
      now injection H as _ <-.
  - intros p. unfold RenderText.style_of.
    now rewrite (RenderLogFacts.style_plain args (influence p) [] Hv).
Qed.

Lemma X15_plain_rendering_is_silent_witness :
  snd (getModelAsDot Py.ascii_runtime args_default model_ghost []) = [].
Proof.
  apply (proj1 (X15_plain_rendering_is_silent Py.ascii_runtime args_default
                  model_ghost []
                  (fst (getModelAsDot Py.ascii_runtime args_default
                          model_ghost []))
                  (snd (getModelAsDot Py.ascii_runtime args_default
                          model_ghost []))
                  ltac:(discriminate) eq_refl
                  (surjective_pairing _))).
Defined.

(* ================================================================== *)
(** * The title *)

Module TitleFacts.

Import Frame PyFacts.

Lemma parseLine_title (rt : Py.Runtime) (model : Model) (line : Py.str)
  (l : log) (m' : Model) (l' : log) :
  Parser.is_directive line = false ->
  parseLine rt model line l = (Ok m', l') -> title m' = title model.
Proof.
  unfold Parser.is_directive. intros Hd. unfold parseLine. rewrite Hd.
  destruct (Py.eqb line []); [now intros [= <- _]|].
  destruct (Py.startswith [Py.TAB] line).
  - destruct (Py.contains `"->" (Py.replace _ _ _)).
    { intros H. apply FrameFacts.parseConnection_step in H as [_ [->|H]];
        [reflexivity|].
      now destruct H as (key & p & t & d & _ & _ & _ & _ & _ & ->). }
    destruct (Py.contains `":" (Py.replace _ _ _)).
    { intros H. apply FrameFacts.parsePersonProperty_step in H
        as (key & p & p' & t & Hk & _ & _ & ->).
      now rewrite (WellFormedFacts.update_fields model key t p' Hk). }
    unfold bind, logging. rewrite FrameFacts.addPerson_eq.
    now intros [= <- _].
  - rewrite FrameFacts.addPerson_eq. now intros [= <- _].
Qed.

Lemma parseLines_title (rt : Py.Runtime) (lines : list Py.str) :
  forall model l m l',
  forallb (fun x => negb (Parser.is_directive x)) lines = true ->
  parseLines rt model lines l = (Ok m, l') -> title m = title model.
Proof.
  induction lines as [|line rest IH]; intros model l m l' Hall;
    cbn [parseLines].
  - now intros [= <- _].
  - cbn [forallb] in Hall. apply andb_true_iff in Hall as [Hd Hrest].
    apply negb_true_iff in Hd. unfold bind.
    destruct (parseLine rt model line l) as [[m1|e] l1] eqn:E1;
      [|discriminate].
    intros H. rewrite (IH m1 l1 m l' Hrest H).
    exact (parseLine_title rt model line l m1 l1 Hd E1).
Qed.

End TitleFacts.

(** X16: an outline without a directive line (no line that starts with [@]
    and holds a [:]) is parsed to a model with the title
    [Untitled Organization]. *)
Theorem X16_default_title (rt : Py.Runtime) (contents : Py.str) (l : log)
  (m : Model) (l' : log) :
  forallb (fun x => negb (Parser.is_directive x)) (Py.split Py.NL contents)
  = true ->
  parseModel rt contents l = (Ok m, l') ->
  title m = `"Untitled Organization".
Proof.
  intros Hall H.
  exact (TitleFacts.parseLines_title rt _ newModel l m l' Hall H).
Qed.

Lemma X16_default_title_witness :
  title model_ghost = `"Untitled Organization".
Proof.
  apply (X16_default_title Py.ascii_runtime doc_ghost [] model_ghost []).
  - reflexivity.
  - vm_compute. reflexivity.
Defined.

(* ================================================================== *)
(** * Looking a person up ([findPerson]) *)

Module FindFacts.

Import PyFacts.

Lemma placeholder_has_space (key : Py.str) :
  In 32%N (`"Unknown: " ++ key).
Proof. cbn. auto 10. Qed.

(** A read that gives a text without a space comes from a stored value. *)
Lemma getAttribute_stored (p : Person) (key name : Py.str) :
  getAttribute p key = name -> ~ In 32%N name -> hasAttribute p key = true.
Proof.
  intros H Hn. unfold hasAttribute, Dict.has.
  destruct (Dict.get key (attributes p)) eqn:E; [reflexivity|].
  exfalso. apply Hn. rewrite <- H.
  rewrite (AttributeFacts.getAttribute_missing p key E).
  apply placeholder_has_space.
Qed.

End FindFacts.

(** X17: [findPerson] looks for the [id] attribute before the key: when some
    person reads [name] as its [id], the first such person of the mapping is
    returned, whatever is stored under the key [name]; when none does, the
    result is that of [getPersonByName]; a name without a space is only
    matched by an [id] attribute that is really stored, not by the
    placeholder of a missing one. *)
Theorem X17_findPerson_prefers_id (model : Model) (name : Py.str) :
  ((forall q, In q (Dict.values (people model)) ->
              getAttribute q `"id" <> name) ->
   findPerson model name = getPersonByName model name)
  /\ (forall p, In p (Dict.values (people model)) ->
        getAttribute p `"id" = name ->
        exists before p' after,
          Dict.values (people model) = before ++ p' :: after
          /\ findPerson model name = Ok p'
          /\ getAttribute p' `"id" = name
          /\ forall q, In q before -> getAttribute q `"id" <> name)
  /\ (forall p, findPerson model name = Ok p -> ~ In 32%N name ->
        (getAttribute p `"id" = name /\ hasAttribute p `"id" = true)
        \/ Dict.get name (people model) = Some p).
Proof.
  unfold findPerson. split; [|split].
  - intros Hall.
    destruct (find _ (Dict.values (people model))) as [p|] eqn:Ef;
      [|reflexivity].
    apply find_some in Ef as [Hin E]. apply PyFacts.eqb_eq in E.
    now apply Hall in Hin.
  - intros p Hin Hid.
    induction (Dict.values (people model)) as [|q rest IH]; [destruct Hin|].
    cbn [find]. destruct (Py.eqb (getAttribute q `"id") name) eqn:Eq.
    + apply PyFacts.eqb_eq in Eq. exists [], q, rest.
      repeat split; try assumption. intros ? [].
    + apply PyFacts.eqb_neq in Eq.
      destruct Hin as [->|Hin]; [contradiction|].
      destruct (IH Hin) as (before & p' & after & -> & Hf & Hp' & Hb).
      exists (q :: before), p', after. repeat split; try assumption.
      intros x [<-|Hx]; [exact Eq | now apply Hb].
  - intros p H Hn.
    destruct (find _ (Dict.values (people model))) as [q|] eqn:Ef.
    + injection H as <-. apply find_some in Ef as [_ E].
      apply PyFacts.eqb_eq in E. left. split; [exact E|].
      exact (FindFacts.getAttribute_stored q _ name E Hn).
    + right. unfold getPersonByName in H.
      destruct (Dict.get name (people model)); [|discriminate].
      now injection H as <-.
Qed.

Lemma X17_findPerson_prefers_id_witness :
  findPerson model_alias `"b1" = Ok person_bob_b1
  /\ Dict.get `"b1" (people model_alias) = Some (person_in `"b1" `"Eng").
Proof.
  destruct (proj1 (proj2 (X17_findPerson_prefers_id model_alias `"b1"))
              person_bob_b1) as (before & p' & after & _ & Hf & _ & _).
  - right. left. reflexivity.
  - reflexivity.
  - split; [|reflexivity]. rewrite Hf. vm_compute in Hf.
    now injection Hf as <-.
Defined.

(** X18: in the [inf] styling mode the influence of a person is looked up as
    it is written (the four class names in lower case, unlike [dmu] and
    [sentiment]): a class name or a text of white space only gives a fill
    and no log record; every other text gives the empty style and exactly
    one warning that names it. *)
Theorem X18_influence_style_cases (args : Args) (influence : Py.str)
  (l : log) :
  args_vizType args = `"inf" ->
  ((In influence influence_classes \/ Py.strip influence = []) ->
   exists style,
     getInfluenceStyleAsDot args influence l = (Ok style, l) /\ style <> [])
  /\ (~ (In influence influence_classes \/ Py.strip influence = []) ->
      getInfluenceStyleAsDot args influence l
      = (Ok [], l ++ [(WARNING, `"Unknown influence class: " ++ influence)])).
Proof.
  intros Hv. unfold getInfluenceStyleAsDot, influence_classes.
  rewrite Hv. change (negb (Py.eqb (Py.lit "inf") (Py.lit "inf"))) with false.
  cbv iota.
  destruct (Py.eqb influence `"supporter") eqn:E1;
    [split; [intros _; eexists; split; [reflexivity | discriminate]|];
     intros Hn; exfalso; apply Hn; left; apply PyFacts.eqb_eq in E1;
     subst; simpl; auto 10|].
  destruct (Py.eqb influence `"promoter") eqn:E2;
    [split; [intros _; eexists; split; [reflexivity | discriminate]|];
     intros Hn; exfalso; apply Hn; left; apply PyFacts.eqb_eq in E2;
     subst; simpl; auto 10|].
  destruct (Py.eqb influence `"enemy") eqn:E3;
    [split; [intros _; eexists; split; [reflexivity | discriminate]|];
     intros Hn; exfalso; apply Hn; left; apply PyFacts.eqb_eq in E3;
     subst; simpl; auto 10|].
  destruct (Py.eqb influence `"internal") eqn:E4;
    [split; [intros _; eexists; split; [reflexivity | discriminate]|];
     intros Hn; exfalso; apply Hn; left; apply PyFacts.eqb_eq in E4;
     subst; simpl; auto 10|].
  apply PyFacts.eqb_neq in E1, E2, E3, E4.
  destruct (Py.eqb (Py.strip influence) []) eqn:E5.
  - split; [intros _; eexists; split; [reflexivity | discriminate]|].
    intros Hn. exfalso. apply Hn. right. now apply PyFacts.eqb_eq.
  - apply PyFacts.eqb_neq in E5. split; [|reflexivity].
    intros [Hin|Hs]; [|contradiction]. exfalso. simpl in Hin.
    destruct Hin as [H|[H|[H|[H|[]]]]]; symmetry in H; contradiction.
Qed.

Lemma X18_influence_style_cases_witness :
  getInfluenceStyleAsDot args_inf `"Supporter" []
  = (Ok [], [(WARNING, `"Unknown influence class: Supporter")]).
Proof.
  apply (proj2 (X18_influence_style_cases args_inf `"Supporter" [] eq_refl)).
  intros [H|H].
  - simpl in H. destruct H as [H|[H|[H|[H|[]]]]]; discriminate H.
  - discriminate H.
Defined.

(** X20: when every edge of the parsed model ends at the nodeId of a
    declaration line of the outline (before or after the connection), the
    graph text is produced, whatever the options. *)
Theorem X20_declared_destinations_render (rt : Py.Runtime) (args : Args)
  (contents : Py.str) (l : log) (m : Model) (l1 : log) :
  parseModel rt contents l = (Ok m, l1) ->
  (forall e, In e (edges m) ->
     exists line, In line (Py.split Py.NL contents)
                  /\ Parser.is_declaration line = true
                  /\ Parser.nodeId_of_line line = destination e) ->
  exists out l', main_out rt args contents l = (Ok out, l').
Proof.
  intros Hp Hd. unfold main_out, bind. rewrite Hp.
  destruct (RenderFacts.getModelAsDot_cases rt args m l1)
    as [[(e & Hin & Hf) _]|[_ Hok]]; [exfalso | exact Hok].
  destruct (MainFacts.parsed_edge_fails rt args contents l m l1 e Hp Hin Hf)
    as (_ & _ & _ & Hu).
  destruct (Hd e Hin) as (line & Hl & Hdecl & Heq). rewrite <- Heq in Hu.
  unfold parseModel in Hp.
  pose proof (EdgeFacts.parseLines_declared rt line _ _ _ _ _ Hl Hdecl Hp)
    as Hh.
  destruct (EdgeFacts.key_resolves m _ Hh) as (_ & _ & Hn). exact (Hn Hu).
Qed.

Lemma X20_declared_destinations_render_witness :
  exists out l',
    main_out Py.ascii_runtime args_only_Eng doc_acme [] = (Ok out, l').
Proof.
  apply (X20_declared_destinations_render Py.ascii_runtime args_only_Eng
           doc_acme [] model_acme []).
  - vm_compute. reflexivity.
  - intros e [<-|[]]. exists `"Bob". split; [|split; reflexivity].
    vm_compute. auto 10.
Defined.

(* ================================================================== *)
(** * Unrecognised property values *)

Module DefaultFacts.

Import PyFacts.

(** The fields a changed [dmu] leaves alone. *)
Lemma with_dmu_fields (p : Person) (c : Py.str) :
  dmu (with_dmu p c) = c
  /\ sentiment (with_dmu p c) = sentiment p
  /\ fullName (with_dmu p c) = fullName p
  /\ dotNodeName (with_dmu p c) = dotNodeName p
  /\ team (with_dmu p c) = team p
  /\ influence (with_dmu p c) = influence p
  /\ attributes (with_dmu p c) = attributes p.
Proof. now repeat split. Qed.

Lemma with_sentiment_fields (p : Person) (c : Py.str) :
  sentiment (with_sentiment p c) = c
  /\ dmu (with_sentiment p c) = dmu p
  /\ fullName (with_sentiment p c) = fullName p
  /\ dotNodeName (with_sentiment p c) = dotNodeName p
  /\ team (with_sentiment p c) = team p
  /\ influence (with_sentiment p c) = influence p
  /\ attributes (with_sentiment p c) = attributes p.
Proof. now repeat split. Qed.

(** The model after a write through the cursor, looked up. *)
Lemma update_lastPerson_lookup (model : Model) (key : Py.str) (q : Person) :
  lastPerson model = Some key ->
  Dict.get key (people (update_lastPerson model q)) = Some q
  /\ lastPerson (update_lastPerson model q) = Some key
  /\ edges (update_lastPerson model q) = edges model
  /\ teams (update_lastPerson model q) = teams model
  /\ title (update_lastPerson model q) = title model
  /\ forall k, k <> key ->
       Dict.get k (people (update_lastPerson model q))
       = Dict.get k (people model).
Proof.
  intros Hk. unfold update_lastPerson. rewrite Hk.
  cbn [people lastPerson edges teams title].
  split; [apply CursorFacts.get_set_same|]. repeat split; try assumption.
  intros k Hne. apply DictFacts.get_set_other. now apply eqb_neq.
Qed.

End DefaultFacts.

(** C5: a value that is none of the recognised aliases (compared upper-cased
    and trimmed) leaves the person with the [dmu] [U] (User), whatever it
    was before, and likewise with the [sentiment] [N] (Neutral): the values
    a new person starts with; every other field of the person stays, and
    exactly one warning is added to the log; neither setter raises, whatever
    the value; a [dmu:] or [sentiment:] line with such a value does the same
    to the person stored under the cursor and to nobody else, and no
    property line makes parsing raise once a person has been declared. *)
Theorem C5_unrecognised_value_defaults (rt : Py.Runtime) (p : Person)
  (v : Py.str) (l : log) :
  (Py.mem (Py.strip (Py.upper rt v)) Coercion.dmu_aliases = false ->
   exists p',
     setDmu rt p v l
     = (Ok p', l ++ [Coercion.dmu_warning p (Py.strip (Py.upper rt v))])
     /\ dmu p' = `"U" /\ getDmuDescription p' = `"User"
     /\ sentiment p' = sentiment p /\ fullName p' = fullName p
     /\ dotNodeName p' = dotNodeName p /\ team p' = team p
     /\ influence p' = influence p /\ attributes p' = attributes p)
  /\ (Py.mem (Py.strip (Py.upper rt v)) Coercion.sentiment_aliases = false ->
      exists p',
        setSentiment rt p v l
        = (Ok p',
           l ++ [Coercion.sentiment_warning p (Py.strip (Py.upper rt v))])
        /\ sentiment p' = `"N" /\ getSentimentDescription p' = `"Neutral"
        /\ dmu p' = dmu p /\ fullName p' = fullName p
        /\ dotNodeName p' = dotNodeName p /\ team p' = team p
        /\ influence p' = influence p /\ attributes p' = attributes p)
  /\ (exists p' l', setDmu rt p v l = (Ok p', l'))
  /\ (exists p' l', setSentiment rt p v l = (Ok p', l'))
  /\ (forall name, exists q l',
        newPerson rt name l = (Ok q, l')
        /\ dmu q = `"U" /\ sentiment q = `"N"
        /\ getDmuDescription q = `"User"
        /\ getSentimentDescription q = `"Neutral")
  /\ (forall model key k,
        lastPerson model = Some key ->
        Dict.get key (people model) = Some p ->
        ~ In 58%N k ->
        (Py.lower rt (Py.strip k) = `"dmu" ->
         Py.mem (Py.strip (Py.upper rt (Py.strip v))) Coercion.dmu_aliases
         = false ->
         exists m' p',
           parsePersonProperty rt model (k ++ `":" ++ v) l
           = (Ok m',
              l ++ [Coercion.dmu_warning p
                      (Py.strip (Py.upper rt (Py.strip v)))])
           /\ Dict.get key (people m') = Some p'
           /\ dmu p' = `"U" /\ getDmuDescription p' = `"User"
           /\ sentiment p' = sentiment p /\ fullName p' = fullName p
           /\ dotNodeName p' = dotNodeName p /\ team p' = team p
           /\ attributes p' = attributes p
           /\ lastPerson m' = Some key /\ edges m' = edges model
           /\ teams m' = teams model /\ title m' = title model
           /\ forall k', k' <> key ->
                Dict.get k' (people m') = Dict.get k' (people model))
        /\ (Py.lower rt (Py.strip k) = `"sentiment" ->
            Py.mem (Py.strip (Py.upper rt (Py.strip v)))
              Coercion.sentiment_aliases = false ->
            exists m' p',
              parsePersonProperty rt model (k ++ `":" ++ v) l
              = (Ok m',
                 l ++ [Coercion.sentiment_warning p
                         (Py.strip (Py.upper rt (Py.strip v)))])
              /\ Dict.get key (people m') = Some p'
              /\ sentiment p' = `"N"
              /\ getSentimentDescription p' = `"Neutral"
              /\ dmu p' = dmu p /\ fullName p' = fullName p
              /\ dotNodeName p' = dotNodeName p /\ team p' = team p
              /\ attributes p' = attributes p
              /\ lastPerson m' = Some key /\ edges m' = edges model
              /\ teams m' = teams model /\ title m' = title model
              /\ forall k', k' <> key ->
                   Dict.get k' (people m') = Dict.get k' (people model))
        /\ exists model' l',
             parsePersonProperty rt model (k ++ `":" ++ v) l
             = (Ok model', l')).
Proof.
  split.
  { intros H. exists (with_dmu p `"U").
    split; [now apply CoercionFacts.setDmu_unknown|].
    destruct (DefaultFacts.with_dmu_fields p `"U")
      as (H1 & H2 & H3 & H4 & H5 & H6 & H7).
    repeat split; assumption. }
  split.
  { intros H. exists (with_sentiment p `"N").
    split; [now apply CoercionFacts.setSentiment_unknown|].
    destruct (DefaultFacts.with_sentiment_fields p `"N")
      as (H1 & H2 & H3 & H4 & H5 & H6 & H7).
    repeat split; assumption. }
  split; [apply CoercionFacts.setDmu_ok|].
  split; [apply CoercionFacts.setSentiment_ok|].
  split; [intros name; apply PropertyLine.newPerson_defaults|].
  intros model key k H1 H2 Hk. split; [|split].
  - intros Hkey Hv. exists (update_lastPerson model (with_dmu p `"U")),
      (with_dmu p `"U").
    split; [now apply PropertyLine.dmu_unknown with (key := key)|].
    destruct (DefaultFacts.update_lastPerson_lookup model key
                (with_dmu p `"U") H1) as (G1 & G2 & G3 & G4 & G5 & G6).
    repeat split; assumption.
  - intros Hkey Hv.
    exists (update_lastPerson model (with_sentiment p `"N")),
      (with_sentiment p `"N").
    split; [now apply PropertyLine.sentiment_unknown with (key := key)|].
    destruct (DefaultFacts.update_lastPerson_lookup model key
                (with_sentiment p `"N") H1) as (G1 & G2 & G3 & G4 & G5 & G6).
    repeat split; assumption.
  - apply CoercionFacts.parsePersonProperty_ok with (key := key) (person := p);
      try assumption.
    apply PyFacts.contains_spec. now exists k, v.
Qed.

Lemma C5_unrecognised_value_defaults_witness :
  dmu person_decided = `"D" /\ sentiment person_decided = `"P"
  /\ (exists p',
        setDmu Py.ascii_runtime person_decided `" boss " []
        = (Ok p', [Coercion.dmu_warning person_decided `"BOSS"])
        /\ dmu p' = `"U" /\ sentiment p' = `"P")
  /\ (exists p',
        setSentiment Py.ascii_runtime person_decided `" boss " []
        = (Ok p', [Coercion.sentiment_warning person_decided `"BOSS"])
        /\ sentiment p' = `"N" /\ dmu p' = `"D")
  /\ (exists m' p',
        parsePersonProperty Py.ascii_runtime model_alice
          (`"DMU" ++ `":" ++ `" boss ") []
        = (Ok m', [Coercion.dmu_warning person_decided `"BOSS"])
        /\ Dict.get `"Alice" (people m') = Some p' /\ dmu p' = `"U")
  /\ (exists m' p',
        parsePersonProperty Py.ascii_runtime model_alice
          (`"Sentiment " ++ `":" ++ `" boss ") []
        = (Ok m', [Coercion.sentiment_warning person_decided `"BOSS"])
        /\ Dict.get `"Alice" (people m') = Some p' /\ sentiment p' = `"N").
Proof.
  pose proof (C5_unrecognised_value_defaults Py.ascii_runtime person_decided
                `" boss " []) as (Hd & Hs & _ & _ & _ & Hline).
  split; [reflexivity|]. split; [reflexivity|].
  split.
  { destruct (Hd eq_refl) as (p' & E & H1 & _ & H2 & _).
    exists p'. repeat split; assumption. }
  split.
  { destruct (Hs eq_refl) as (p' & E & H1 & _ & H2 & _).
    exists p'. repeat split; assumption. }
  split.
  - destruct (proj1 (Hline model_alice `"Alice" `"DMU" eq_refl eq_refl
                       ltac:(vm_compute; intuition discriminate))
                eq_refl eq_refl) as (m' & p' & E & Hg & H1 & _).
    exists m', p'. repeat split; assumption.
  - destruct (proj1 (proj2 (Hline model_alice `"Alice" `"Sentiment " eq_refl
                              eq_refl
                              ltac:(vm_compute; intuition discriminate)))
                eq_refl eq_refl) as (m' & p' & E & Hg & H1 & _).
    exists m', p'. repeat split; assumption.
Defined.

(* ================================================================== *)
(** * Members inside the team subgraphs *)

Module MemberFacts.

(** The text of a list of blocks around one of them. *)
Lemma concat_nth_error (blocks : list Py.str) (i : nat) (b : Py.str) :
  nth_error blocks i = Some b ->
  exists pre post, concat blocks = pre ++ b ++ post.
Proof.
  intros H. apply nth_error_split in H as (l1 & l2 & -> & _).
  exists (concat l1), (concat l2).
  now rewrite concat_app.
Qed.

(** The member lines of a list of persons around one of them. *)
Lemma member_lines_split (before after : list Person) (p : Person) :
  concat (map Teams.member_line (before ++ p :: after))
  = concat (map Teams.member_line before)
    ++ dotNodeName p ++ `" []" ++ Py.NL
    ++ concat (map Teams.member_line after).
Proof.
  rewrite map_app, concat_app. cbn [map concat]. unfold Teams.member_line at 2.
  now rewrite <- !app_assoc.
Qed.

End MemberFacts.

(** X19: when teams are drawn, a person of a parsed model that has a team
    and is not excluded has its line in the team part of the graph text,
    inside the subgraph that is labelled with its team: the text holds, as
    one run, the opening line of a subgraph whose number is the place of the
    team among the team names, the label line of that team, the two style
    lines, member lines, the line of the person, member lines, and the
    closing brace; the other member lines of that run belong to persons of
    the model of the same team that are not excluded either, and the team
    has no other place among the team names. *)
Theorem X19_member_listed_in_its_team_subgraph (rt : Py.Runtime)
  (args : Args) (contents : Py.str) (l : log) (m : Model) (l' : log)
  (p : Person) :
  parseModel rt contents l = (Ok m, l') ->
  In p (Dict.values (people m)) ->
  isPersonExcluded args p = false ->
  args_skipDrawingTeams args = false ->
  team p <> `"??" ->
  exists (i : nat) (before after : list Person) (pre post : Py.str),
    nth_error (teams m) i = Some (team p)
    /\ (forall j, nth_error (teams m) j = Some (team p) -> j = i)
    /\ getTeamsAsDot args m
       = pre
         ++ (`"subgraph cluster_" ++ Py.of_nat (i + 1) ++ `"{" ++ Py.NL
             ++ ``"label=~" ++ team p ++ ``"~" ++ Py.NL
             ++ `"style=filled" ++ Py.NL
             ++ `"fillcolor=skyblue" ++ Py.NL
             ++ concat (map (fun q => dotNodeName q ++ `" []" ++ Py.NL) before)
             ++ dotNodeName p ++ `" []" ++ Py.NL
             ++ concat (map (fun q => dotNodeName q ++ `" []" ++ Py.NL) after)
             ++ `"}" ++ Py.NL)
         ++ post
    /\ forall q, In q (before ++ after) ->
         In q (Dict.values (people m)) /\ team q = team p
         /\ isPersonExcluded args q = false.
Proof.
  intros H Hin Hx Hs Hne.
  apply WellFormedFacts.parseModel_well_formed in H
    as (_ & _ & Hp & _ & Hnd).
  assert (Ht : In (team p) (teams m)).
  { apply ParsedFacts.In_values in Hin as [k Hk].
    destruct (Hp k p Hk) as (_ & _ & _ & _ & _ & [H6|H6] & _);
      [contradiction | exact H6]. }
  destruct (In_nth_error _ _ Ht) as [i Hi].
  assert (Hv : In p (Teams.visible_members args m (team p))).
  { unfold Teams.visible_members. apply filter_In. split; [exact Hin|].
    rewrite Hx. cbn [negb andb]. now apply PyFacts.eqb_eq. }
  apply in_split in Hv as (before & after & Hv).
  pose proof (TeamsFacts.team_declarations_nth args m (teams m) 0 i (team p)
                Hi) as E.
  apply MemberFacts.concat_nth_error in E as (pre & post & E).
  exists i, before, after, pre, post.
  split; [exact Hi|]. split; [|split].
  - intros j Hj.
    assert (Hlt : j < length (teams m)).
    { apply nth_error_Some. rewrite Hj. discriminate. }
    apply (proj1 (NoDup_nth_error (teams m)) Hnd j i Hlt). now rewrite Hi, Hj.
  - unfold getTeamsAsDot. rewrite Hs.
    rewrite (TeamsFacts.teamsLoop_spec args m (teams m) [] 0), app_nil_l, E.
    unfold Teams.team_declaration. rewrite Hv, MemberFacts.member_lines_split.
    cbn [Nat.add]. unfold Teams.member_line.
    now rewrite <- !app_assoc.
  - intros q Hq.
    assert (Hq' : In q (Teams.visible_members args m (team p))).
    { rewrite Hv. apply in_app_or in Hq as [Hq|Hq]; apply in_or_app;
        [now left | right; now right]. }
    unfold Teams.visible_members in Hq'. apply filter_In in Hq' as [H1 H2].
    apply andb_prop in H2 as [H2 H3]. apply PyFacts.eqb_eq in H3.
    apply negb_true_iff in H2. now repeat split.
Qed.

Lemma X19_member_listed_in_its_team_subgraph_witness :
  exists (i : nat) (before after : list Person) (pre post : Py.str),
    nth_error (teams model_acme) i = Some `"Sales"
    /\ getTeamsAsDot args_default model_acme
       = pre
         ++ (`"subgraph cluster_" ++ Py.of_nat (i + 1) ++ `"{" ++ Py.NL
             ++ ``"label=~Sales~" ++ Py.NL
             ++ `"style=filled" ++ Py.NL
             ++ `"fillcolor=skyblue" ++ Py.NL
             ++ concat (map (fun q => dotNodeName q ++ `" []" ++ Py.NL) before)
             ++ `"Bob []" ++ Py.NL
             ++ concat (map (fun q => dotNodeName q ++ `" []" ++ Py.NL) after)
             ++ `"}" ++ Py.NL)
         ++ post.
Proof.
  destruct (X19_member_listed_in_its_team_subgraph Py.ascii_runtime
              args_default doc_acme [] model_acme []
              (person_in `"Bob" `"Sales"))
    as (i & before & after & pre & post & Hi & _ & E & _).
  - vm_compute. reflexivity.
  - right. left. reflexivity.
  - reflexivity.
  - reflexivity.
  - discriminate.
  - exists i, before, after, pre, post. split; [exact Hi | exact E].
Defined.

(** X21: a directive line (a line that starts with [@] and holds a [:])
    never raises, logs nothing and leaves the people, the edges, the teams
    and the cursor as they are; written as [@key:value] with no further [@]
    and no [:] in the key, it leaves the model with the trimmed value as its
    title when the key is [title], and with the title it had otherwise. *)
Theorem X21_directive_line (rt : Py.Runtime) (model : Model) (line : Py.str)
  (l : log) :
  Parser.is_directive line = true ->
  exists m',
    parseLine rt model line l = (Ok m', l)
    /\ people m' = people model /\ edges m' = edges model
    /\ teams m' = teams model /\ lastPerson m' = lastPerson model
    /\ forall key value,
         line = `"@" ++ key ++ `":" ++ value ->
         ~ In 64%N key -> ~ In 58%N key -> ~ In 64%N value ->
         title m' = if Py.eqb key `"title" then Py.strip value
                    else title model.
Proof.
  intros Hd.
  destruct (Directive.parseLine_directive rt model line l Hd)
    as (m' & E & Hp & He & Ht & Hl).
  exists m'. repeat split; try assumption.
  intros key value -> Hk1 Hk2 Hv.
  rewrite (Directive.parseLine_directive_plain rt model key value l Hk1 Hk2 Hv)
    in E.
  injection E as <-.
  change [116%N; 105%N; 116%N; 108%N; 101%N] with (`"title").
  now destruct (Py.eqb key `"title").
Qed.

Lemma X21_directive_line_witness :
  title model_alice <> `"Acme"
  /\ exists m',
       parseLine Py.ascii_runtime model_alice `"@title: Acme " [] = (Ok m', [])
       /\ title m' = `"Acme" /\ people m' = people model_alice.
Proof.
  split; [discriminate|].
  destruct (X21_directive_line Py.ascii_runtime model_alice `"@title: Acme "
              [] eq_refl) as (m' & E & Hp & _ & _ & _ & Hplain).
  exists m'. split; [exact E|]. split; [|exact Hp].
  apply (Hplain `"title" `" Acme "); try reflexivity;
    vm_compute; intuition discriminate.
Defined.
